(** * Euclid-O-Matic: the rhythm generator, the rotations, the editing
      state machine, the clock and the start-up of the two sketches, as
      Rocq functions.

    The sketches run on an ATmega328 (Arduino Nano): [int] and
    [unsigned int] are 16 bits wide, [long] and [unsigned long] 32 bits.
    An [unsigned int] is a [Z] in [0, 2^16) with its wrap-around written
    out.  An [int] that only carries a bit pattern ([1 << i], [~(1 << n)],
    [DROPPED_LSB << n]) is represented by the same 16 bits, which is the
    value it takes when it is combined with an [unsigned int] operand.
    Operations C++ leaves undefined (a shift by a negative amount or by the
    width of the type, an array index out of bounds) yield [Undef].  The
    bucket of [euclid], an [int] that grows with the pulse count and the
    pattern length, is written with the two's complement wrap-around of
    the target.  The sums that move an [int] or a [long] by one or by
    three (a pulse count, a pattern length, a patch number, a step
    counter, the mode, the encoder count) are written without
    wrap-around: they stay within their types unless a variable is at the
    very end of its range. *)

From Stdlib Require Import ZArith Lia Bool List.
From stdpp Require Import base list.
Import ListNotations.

Local Open Scope Z_scope.

(** ** Results of operations that C++ may leave undefined *)

Inductive undefined : Type :=
| ShiftNegative      (* shift by a negative amount *)
| ShiftTooWide       (* shift by at least the width of the operand *)
| IndexOutOfBounds.  (* array subscript outside the array *)

Inductive result (A : Type) : Type :=
| Ok (a : A)
| Undef (u : undefined).

Arguments Ok {A} a.
Arguments Undef {A} u.

#[global] Instance result_ret : MRet result := fun A a => Ok a.

#[global] Instance result_bind : MBind result := fun A B f m =>
  match m with
  | Ok a => f a
  | Undef u => Undef u
  end.

Definition is_Ok {A} (m : result A) : Prop := exists a, m = Ok a.

(** ** 16-bit words *)

Module Word16.

Definition width : Z := 16.
Definition modulus : Z := 2 ^ width.

Definition wrap (x : Z) : Z := x mod modulus.

Definition in_range (x : Z) : Prop := 0 <= x < modulus.

(** An [int] result brought back into the 16 bits of the type: two's
    complement wrap-around. *)
Definition int16 (x : Z) : Z := (x + 2 ^ 15) mod modulus - 2 ^ 15.

(** [x << n]: the low 16 bits of the shifted value.  avr-gcc defines the
    shift of a 1 into the sign bit of an [int]; the amount must lie in
    [0, 16). *)
Definition shl (x n : Z) : result Z :=
  if n <? 0 then Undef ShiftNegative
  else if width <=? n then Undef ShiftTooWide
  else Ok (wrap (Z.shiftl x n)).

(** [x >> n] on an [unsigned int]. *)
Definition shr (x n : Z) : result Z :=
  if n <? 0 then Undef ShiftNegative
  else if width <=? n then Undef ShiftTooWide
  else Ok (Z.shiftr x n).

(** [~x] on 16 bits. *)
Definition lnot (x : Z) : Z := wrap (Z.lnot x).

End Word16.

(** Number of bits set among the positions [0 .. w-1]. *)
Fixpoint popcount (w : nat) (n : Z) : nat :=
  match w with
  | O => O
  | S k => ((if Z.testbit n (Z.of_nat k) then 1 else 0) + popcount k n)%nat
  end.

(** The positions below [w] whose bit is set, in increasing order. *)
Definition bit_positions (w : nat) (n : Z) : list Z :=
  filter (fun i => Z.testbit n i = true) (map Z.of_nat (seq 0 w)).

(** Whether step [j] of a pattern of [len] steps with [pulses] pulses
    fires: the bucket, which holds [(j * pulses) mod len] before the step,
    reaches [len] when [pulses] is added. *)
Definition fires (pulses len j : Z) : bool :=
  (j * pulses) mod len + pulses >=? len.

(** Agreement of two patterns on their low [len] bits. *)
Definition low_bits_eq (len p q : Z) : Prop :=
  forall i, 0 <= i < len -> Z.testbit p i = Z.testbit q i.

(** ** The generator and the rotations on plain words

    Both sketches have the same bodies for [euclid], [rotateLeft] and
    [rotateRight]; they differ in where the pulse count, the pattern length
    and the pattern are read from.  The bodies are given here once, over
    the values read. *)

Module Bits.
Import Word16.

(** The [for] loop of [euclid]: [steps] iterations remain, [i] is the
    loop counter.  [bucket] is an [int]. *)
Fixpoint euclid_loop (steps : nat) (pulses len i bucket number : Z)
  : result Z :=
  match steps with
  | O => Ok number
  | S steps' =>
      let bucket := int16 (bucket + pulses) in
      if bucket >=? len then
        let bucket := int16 (bucket - len) in
        b ← shl 1 i;
        euclid_loop steps' pulses len (i + 1) bucket (Z.lor number b)
      else
        euclid_loop steps' pulses len (i + 1) bucket number
  end.

(** [euclid], with [pulses = thisPatch.pulses[channelNumber]] and
    [len = thisPatch.patternLength[channelNumber]].  The loop
    [for (i = 0; i < len; i++)] runs [len] times (not at all when
    [len <= 0]). *)
Definition euclid (pulses len : Z) : result Z :=
  euclid_loop (Z.to_nat len) pulses len 0 0 0.

(** [rotateLeft], with [len] the pattern length of the channel. *)
Definition rotateLeft (pattern len : Z) : result Z :=
  msb ← shr pattern (len - 1);
  let DROPPED_MSB := Z.land msb 1 in
  shifted ← shl pattern 1;
  Ok (Z.lor shifted DROPPED_MSB).

(** [rotateRight], with [len] the pattern length of the channel. *)
Definition rotateRight (pattern len : Z) : result Z :=
  let DROPPED_LSB := Z.land pattern 1 in
  shifted ← shr pattern 1;
  top ← shl 1 (len - 1);
  let pattern := Z.land shifted (lnot top) in
  lsb_up ← shl DROPPED_LSB (len - 1);
  Ok (Z.lor pattern lsb_up).

(** [n] applications of a rotation. *)
Fixpoint iterate (n : nat) (f : Z -> result Z) (pattern : Z) : result Z :=
  match n with
  | O => Ok pattern
  | S n' => q ← f pattern; iterate n' f q
  end.

End Bits.

(** ** Channels and arrays

    The four trigger channels are indexed by the constants [TRIG_D] = 0,
    [TRIG_C] = 1, [TRIG_B] = 2 and [TRIG_A] = 3; the button decoder assigns
    no other value to a channel variable, and the loops over channels run
    from 0 to 3.  A four-element array is a record of its elements. *)

Inductive Channel : Type := TRIG_D | TRIG_C | TRIG_B | TRIG_A.

Definition channel_index (c : Channel) : Z :=
  match c with TRIG_D => 0 | TRIG_C => 1 | TRIG_B => 2 | TRIG_A => 3 end.

Record arr4 (A : Type) : Type := Arr4 { elt0 : A; elt1 : A; elt2 : A; elt3 : A }.

Arguments Arr4 {A} _ _ _ _.
Arguments elt0 {A} _.
Arguments elt1 {A} _.
Arguments elt2 {A} _.
Arguments elt3 {A} _.

Definition get {A} (a : arr4 A) (c : Channel) : A :=
  match c with
  | TRIG_D => elt0 a | TRIG_C => elt1 a | TRIG_B => elt2 a | TRIG_A => elt3 a
  end.

Definition put {A} (a : arr4 A) (c : Channel) (x : A) : arr4 A :=
  match c with
  | TRIG_D => Arr4 x (elt1 a) (elt2 a) (elt3 a)
  | TRIG_C => Arr4 (elt0 a) x (elt2 a) (elt3 a)
  | TRIG_B => Arr4 (elt0 a) (elt1 a) x (elt3 a)
  | TRIG_A => Arr4 (elt0 a) (elt1 a) (elt2 a) x
  end.

Definition fill {A} (x : A) : arr4 A := Arr4 x x x x.

(** The patch bank is an array indexed by an [int]: a subscript outside
    the array is undefined. *)
Definition index_ok {A} (l : list A) (n : Z) : bool :=
  (0 <=? n) && (n <? Z.of_nat (length l)).

Definition read {A} (l : list A) (n : Z) : result A :=
  if index_ok l n then
    match l !! Z.to_nat n with
    | Some x => Ok x
    | None => Undef IndexOutOfBounds
    end
  else Undef IndexOutOfBounds.

Definition write {A} (l : list A) (n : Z) (x : A) : result (list A) :=
  if index_ok l n then Ok (<[Z.to_nat n := x]> l)
  else Undef IndexOutOfBounds.

(** ** Constants shared by the two sketches *)

Definition PATTERN_LENGTH_MODE : Z := 1.
Definition NUM_PULSE_MODE : Z := 2.
Definition ROTATE_MODE : Z := 3.
Definition PROGRAM_MODE : Z := 4.
Definition MAX_MODE : Z := 3.
Definition NUM_NEOP_LEDS : Z := 16.
Definition MAX_DELAY_TIME : Z := 500.
Definition NR_OF_MEMORY_CELLS : Z := NUM_NEOP_LEDS.

(** What one pass of [loop] reads and the blocks below use. *)
Record Input : Type := {
  newPosition : Z;                       (* myEnc.read() *)
  escapeButton : bool;                   (* digitalRead(TAP_TEMPO_PIN) *)
  button : option Channel;               (* the pressed trigger button, if any *)
  clkPin : bool;                         (* digitalRead(CLK_PIN) *)
  extClkV : Z;                           (* analogRead(EXT_CLK_PIN) *)
  thisTime : Z                           (* millis() *)
}.

(** A pass in which the encoder has moved by less than a detent. *)
Definition no_detent (oldPosition : Z) (inp : Input) : Prop :=
  oldPosition - 3 <= newPosition inp <= oldPosition + 3.

(** Every pattern length of a patch lies between [lo] and [hi]. *)
Definition lengths_within (lo hi : Z) (len : arr4 Z) : Prop :=
  forall c, lo <= get len c <= hi.

(** An input with the encoder at [pos], the modifier as given, no button
    pressed, the internal clock selected and the time at [t]. *)
Definition turn (pos : Z) (escape : bool) (t : Z) : Input :=
  {| newPosition := pos; escapeButton := escape; button := None;
     clkPin := false; extClkV := 0; thisTime := t |}.

(** An input with the button [b] pressed and the encoder at rest. *)
Definition press (b : Channel) (pos t : Z) : Input :=
  {| newPosition := pos; escapeButton := false; button := Some b;
     clkPin := false; extClkV := 0; thisTime := t |}.

(** An input on which the external clock input has just gone high. *)
Definition clock_pulse (pos t : Z) : Input :=
  {| newPosition := pos; escapeButton := false; button := None;
     clkPin := true; extClkV := 600; thisTime := t |}.

(** [n] passes, each with the encoder one detent further up. *)
Definition detents_up (n : nat) : list Input :=
  map (fun k => turn (4 * Z.of_nat k) false 0) (seq 1 n).

(** Release the buttons, press B (clear), release, press A (recall), with
    the encoder at rest at [pos]. *)
Definition clear_then_recall (pos : Z) : list Input :=
  [turn pos false 0; press TRIG_B pos 0; turn pos false 0; press TRIG_A pos 0].

(** [thisTime - prevTime] on [unsigned long]. *)
Definition elapsed (thisTime prevTime : Z) : Z := (thisTime - prevTime) mod 2 ^ 32.

(** ** Blocks of [loop] that are the same in both sketches *)

Definition HALF_DAC_RANGE : Z := 500.

(** The variables of the mode change: the [static] locals [mode],
    [mode1Pos], [oldPosition] and [prog] of [loop]. *)
Record ModeVars : Type := {
  mv_mode : Z;
  mv_mode1Pos : Z;
  mv_oldPosition : Z;
  mv_prog : bool
}.

(** The encoder switch: a press, which the sketch takes to be [prog]
    read true after false, changes the mode.  The block may assign
    [newPosition], which is returned with the variables.  Version 1.0 has
    the body that version 1.1 has with [ALLOW_PATTERN_LENGTH_CHANGE]. *)
Definition mode_change (ALLOW_PATTERN_LENGTH_CHANGE : bool)
  (progPin escapeButton : bool) (newPosition : Z) (v : ModeVars)
  : ModeVars * Z :=
  let prevProg := mv_prog v in
  let prog := progPin in
  if prog && negb prevProg then
    let mode1Pos := if mv_mode v =? 1 then newPosition else mv_mode1Pos v in
    let '(mode, newPosition) :=
      if escapeButton then (PROGRAM_MODE, newPosition)
      else
        let mode := mv_mode v + 1 in
        let mode :=
          if mode >? MAX_MODE then
            if ALLOW_PATTERN_LENGTH_CHANGE then PATTERN_LENGTH_MODE
            else NUM_PULSE_MODE
          else mode in
        if mode =? 1 then (mode, mode1Pos) else (mode, newPosition) in
    ({| mv_mode := mode; mv_mode1Pos := mode1Pos;
        mv_oldPosition := newPosition; mv_prog := prog |}, newPosition)
  else
    ({| mv_mode := mv_mode v; mv_mode1Pos := mv_mode1Pos v;
        mv_oldPosition := mv_oldPosition v; mv_prog := prog |}, newPosition).

(** The reset input: the step counters and [prevResetPinIn]. *)
Definition reset_input (resetPinIn prevResetPinIn : Z) (step : arr4 Z)
  : arr4 Z * Z :=
  let deltaResetPinIn := resetPinIn - prevResetPinIn in
  let '(step, prevResetPinIn) :=
    if deltaResetPinIn =? 1 then (fill 0, 1) else (step, prevResetPinIn) in
  let prevResetPinIn :=
    if deltaResetPinIn =? -1 then 0 else prevResetPinIn in
  (step, prevResetPinIn).

(** What one pass of [loop] reads from the pins: the [Input] of the
    [switch] and the clock, and the readings of the blocks before the
    [switch].  The trigger buttons are read once for the program buttons
    or the channel selection and, in version 1.1, once more in the mute
    block; each reading is given by the button it decodes to. *)
Record Readings : Type := {
  base : Input;
  progPin : bool;                        (* digitalRead(PROG_PIN) *)
  fIn : arr4 Z;                          (* analogRead(F1_PIN) .. (F4_PIN) *)
  resetPin : bool;                       (* digitalRead(RESET_PIN) *)
  muteButton : option Channel;           (* the button read in the mute block *)
  muteDelayFinished : bool               (* muteButtonDelay.justFinished() *)
}.

(** Readings with the blocks before the [switch] at rest, over the
    input [inp] of the [switch] and the clock. *)
Definition at_rest (inp : Input) : Readings :=
  {| base := inp; progPin := false; fIn := fill 0; resetPin := false;
     muteButton := None; muteDelayFinished := false |}.

(** [checkButtons(selectedChannel, escapeButton)], with its [static]
    locals [previousSelectedChannel] and [change]: the selected channel,
    the two locals, and the value returned, which is [change].  With the
    modifier held nothing is assigned and the last [change] is returned
    once more. *)
Definition checkButtons (button : option Channel) (escapeButton : bool)
  (selectedChannel : Channel) (previousSelectedChannel : Z) (change : bool)
  : Channel * Z * bool :=
  if escapeButton then (selectedChannel, previousSelectedChannel, change)
  else
    let selectedChannel :=
      match button with Some b => b | None => selectedChannel end in
    if previousSelectedChannel =? channel_index selectedChannel
    then (selectedChannel, previousSelectedChannel, false)
    else (selectedChannel, channel_index selectedChannel, true).

(** The input the [switch] and the clock see: [newPosition] as the mode
    change left it, and the local [programButtonName]. *)
Definition seen (newPosition : Z) (programButtonName : option Channel)
  (inp : Input) : Input :=
  {| newPosition := newPosition; escapeButton := escapeButton inp;
     button := programButtonName; clkPin := clkPin inp;
     extClkV := extClkV inp; thisTime := thisTime inp |}.

(** ** The patch records of the EEPROM

    Both sketches keep a header of four words and sixteen patch records in
    the EEPROM and walk the records with the same two loops.  [address]
    counts whole records after the header. *)

(** The loop of [readPatchesFromMemory] ([readPatchesFromEEPROM] in
    version 1.0): a cell in use is read from the record at [address], and
    only then does [address] move on by a record; a free cell is made
    empty. *)
Fixpoint read_cells {A} (createEmptyPatch : A -> A) (n : nat)
  (i address memoryCellsInUse : Z) (records patches : list A)
  : result (list A) :=
  match n with
  | O => Ok patches
  | S n' =>
      bit ← Word16.shl 1 i;
      if Z.land memoryCellsInUse bit =? 0 then
        p ← read patches i;
        ps ← write patches i (createEmptyPatch p);
        read_cells createEmptyPatch n' (i + 1) address memoryCellsInUse
          records ps
      else
        r ← read records address;
        ps ← write patches i r;
        read_cells createEmptyPatch n' (i + 1) (address + 1) memoryCellsInUse
          records ps
  end.

(** The loop of [writePatchesToMemory] ([writePatchesToEEPROM]): patch
    [i] goes to record [i]. *)
Fixpoint write_cells {A} (n : nat) (i : Z) (patches records : list A)
  : result (list A) :=
  match n with
  | O => Ok records
  | S n' =>
      p ← read patches i;
      rs ← write records i p;
      write_cells n' (i + 1) patches rs
  end.

(** ** Version 1.1 of the sketch (Euclid-O-Matic.ino, with channel mutes) *)

Module V11.
Import Word16.

Definition DEFAULT_PATTERN_LENGTH : Z := 16.

Record Patch : Type := {
  pulses : arr4 Z;
  patternLength : arr4 Z;
  channelPattern : arr4 Z;
  muteA : bool;
  muteB : bool;
  muteC : bool;
  muteD : bool
}.

Definition with_pulses (v : arr4 Z) (p : Patch) : Patch :=
  {| pulses := v; patternLength := patternLength p;
     channelPattern := channelPattern p;
     muteA := muteA p; muteB := muteB p; muteC := muteC p; muteD := muteD p |}.

Definition with_patternLength (v : arr4 Z) (p : Patch) : Patch :=
  {| pulses := pulses p; patternLength := v;
     channelPattern := channelPattern p;
     muteA := muteA p; muteB := muteB p; muteC := muteC p; muteD := muteD p |}.

Definition with_channelPattern (v : arr4 Z) (p : Patch) : Patch :=
  {| pulses := pulses p; patternLength := patternLength p;
     channelPattern := v;
     muteA := muteA p; muteB := muteB p; muteC := muteC p; muteD := muteD p |}.

(** [createEmptyPatch] assigns every member of the patch it is given. *)
Definition createEmptyPatch (_ : Patch) : Patch :=
  {| pulses := fill 0;
     patternLength := fill DEFAULT_PATTERN_LENGTH;
     channelPattern := fill 0;
     muteA := false; muteB := false; muteC := false; muteD := false |}.

(** A global [Patch] before [setup] runs. *)
Definition zeroPatch : Patch :=
  {| pulses := fill 0; patternLength := fill 0; channelPattern := fill 0;
     muteA := false; muteB := false; muteC := false; muteD := false |}.

(** The global [emptyPatch]: [setup] fills it with [createEmptyPatch] and
    nothing assigns it afterwards. *)
Definition emptyPatch : Patch := createEmptyPatch zeroPatch.

(** [copyPatch(patches, source, destination)] copies every member. *)
Definition copyPatch (patches : list Patch)
  (sourcePatchNumber destinationPatchNumber : Z) : result (list Patch) :=
  src ← read patches sourcePatchNumber;
  write patches destinationPatchNumber src.

Definition euclid (thisPatch : Patch) (channelNumber : Channel) : result Z :=
  Bits.euclid (get (pulses thisPatch) channelNumber)
              (get (patternLength thisPatch) channelNumber).

(** The EEPROM by its logical contents: the four header words and the
    sixteen patch records. *)
Record EEPROM : Type := {
  ee_selectedTriggerChannel : Channel;
  ee_patchNumber : Z;
  ee_memoryCellsInUse : Z;
  ee_delayTime : Z;
  ee_patches : list Patch
}.

Definition writePatchToMemory (thisPatch : Patch) (memoryCellsInUse : Z)
  (patchNumber delayTime : Z) (selectedTriggerChannel : Channel)
  (ee : EEPROM) : EEPROM :=
  {| ee_selectedTriggerChannel := selectedTriggerChannel;
     ee_patchNumber := patchNumber;
     ee_memoryCellsInUse := memoryCellsInUse;
     ee_delayTime := delayTime;
     ee_patches :=
       if (0 <=? patchNumber) && (patchNumber <? NR_OF_MEMORY_CELLS)
       then <[Z.to_nat patchNumber := thisPatch]> (ee_patches ee)
       else ee_patches ee |}.

Definition writePatchNumberToMemory (patchNumber : Z) (ee : EEPROM) : EEPROM :=
  {| ee_selectedTriggerChannel := ee_selectedTriggerChannel ee;
     ee_patchNumber := patchNumber;
     ee_memoryCellsInUse := ee_memoryCellsInUse ee;
     ee_delayTime := ee_delayTime ee;
     ee_patches := ee_patches ee |}.

(** The globals and the [static] locals of [loop] that the blocks below
    read or assign. *)
Record State : Type := {
  patches : list Patch;
  delayTime : Z;
  memoryCellsInUse : Z;
  chosenPatchNumber : Z;
  candidatePatchNumber : Z;
  selectedTriggerChannel : Channel;
  step : arr4 Z;
  mode : Z;
  oldPosition : Z;
  prevProgramButtonValue : Z;
  prevExtClk : Z;
  prevTime : Z;
  eeprom : EEPROM
}.

Definition with_patches (v : list Patch) (s : State) : State :=
  {| patches := v; delayTime := delayTime s;
     memoryCellsInUse := memoryCellsInUse s;
     chosenPatchNumber := chosenPatchNumber s;
     candidatePatchNumber := candidatePatchNumber s;
     selectedTriggerChannel := selectedTriggerChannel s;
     step := step s; mode := mode s; oldPosition := oldPosition s;
     prevProgramButtonValue := prevProgramButtonValue s;
     prevExtClk := prevExtClk s; prevTime := prevTime s; eeprom := eeprom s |}.

Definition with_delayTime (v : Z) (s : State) : State :=
  {| patches := patches s; delayTime := v;
     memoryCellsInUse := memoryCellsInUse s;
     chosenPatchNumber := chosenPatchNumber s;
     candidatePatchNumber := candidatePatchNumber s;
     selectedTriggerChannel := selectedTriggerChannel s;
     step := step s; mode := mode s; oldPosition := oldPosition s;
     prevProgramButtonValue := prevProgramButtonValue s;
     prevExtClk := prevExtClk s; prevTime := prevTime s; eeprom := eeprom s |}.

Definition with_memoryCellsInUse (v : Z) (s : State) : State :=
  {| patches := patches s; delayTime := delayTime s;
     memoryCellsInUse := v;
     chosenPatchNumber := chosenPatchNumber s;
     candidatePatchNumber := candidatePatchNumber s;
     selectedTriggerChannel := selectedTriggerChannel s;
     step := step s; mode := mode s; oldPosition := oldPosition s;
     prevProgramButtonValue := prevProgramButtonValue s;
     prevExtClk := prevExtClk s; prevTime := prevTime s; eeprom := eeprom s |}.

Definition with_chosenPatchNumber (v : Z) (s : State) : State :=
  {| patches := patches s; delayTime := delayTime s;
     memoryCellsInUse := memoryCellsInUse s;
     chosenPatchNumber := v;
     candidatePatchNumber := candidatePatchNumber s;
     selectedTriggerChannel := selectedTriggerChannel s;
     step := step s; mode := mode s; oldPosition := oldPosition s;
     prevProgramButtonValue := prevProgramButtonValue s;
     prevExtClk := prevExtClk s; prevTime := prevTime s; eeprom := eeprom s |}.

Definition with_candidatePatchNumber (v : Z) (s : State) : State :=
  {| patches := patches s; delayTime := delayTime s;
     memoryCellsInUse := memoryCellsInUse s;
     chosenPatchNumber := chosenPatchNumber s;
     candidatePatchNumber := v;
     selectedTriggerChannel := selectedTriggerChannel s;
     step := step s; mode := mode s; oldPosition := oldPosition s;
     prevProgramButtonValue := prevProgramButtonValue s;
     prevExtClk := prevExtClk s; prevTime := prevTime s; eeprom := eeprom s |}.

Definition with_step (v : arr4 Z) (s : State) : State :=
  {| patches := patches s; delayTime := delayTime s;
     memoryCellsInUse := memoryCellsInUse s;
     chosenPatchNumber := chosenPatchNumber s;
     candidatePatchNumber := candidatePatchNumber s;
     selectedTriggerChannel := selectedTriggerChannel s;
     step := v; mode := mode s; oldPosition := oldPosition s;
     prevProgramButtonValue := prevProgramButtonValue s;
     prevExtClk := prevExtClk s; prevTime := prevTime s; eeprom := eeprom s |}.

Definition with_oldPosition (v : Z) (s : State) : State :=
  {| patches := patches s; delayTime := delayTime s;
     memoryCellsInUse := memoryCellsInUse s;
     chosenPatchNumber := chosenPatchNumber s;
     candidatePatchNumber := candidatePatchNumber s;
     selectedTriggerChannel := selectedTriggerChannel s;
     step := step s; mode := mode s; oldPosition := v;
     prevProgramButtonValue := prevProgramButtonValue s;
     prevExtClk := prevExtClk s; prevTime := prevTime s; eeprom := eeprom s |}.

Definition with_prevProgramButtonValue (v : Z) (s : State) : State :=
  {| patches := patches s; delayTime := delayTime s;
     memoryCellsInUse := memoryCellsInUse s;
     chosenPatchNumber := chosenPatchNumber s;
     candidatePatchNumber := candidatePatchNumber s;
     selectedTriggerChannel := selectedTriggerChannel s;
     step := step s; mode := mode s; oldPosition := oldPosition s;
     prevProgramButtonValue := v;
     prevExtClk := prevExtClk s; prevTime := prevTime s; eeprom := eeprom s |}.

Definition with_prevExtClk (v : Z) (s : State) : State :=
  {| patches := patches s; delayTime := delayTime s;
     memoryCellsInUse := memoryCellsInUse s;
     chosenPatchNumber := chosenPatchNumber s;
     candidatePatchNumber := candidatePatchNumber s;
     selectedTriggerChannel := selectedTriggerChannel s;
     step := step s; mode := mode s; oldPosition := oldPosition s;
     prevProgramButtonValue := prevProgramButtonValue s;
     prevExtClk := v; prevTime := prevTime s; eeprom := eeprom s |}.

Definition with_prevTime (v : Z) (s : State) : State :=
  {| patches := patches s; delayTime := delayTime s;
     memoryCellsInUse := memoryCellsInUse s;
     chosenPatchNumber := chosenPatchNumber s;
     candidatePatchNumber := candidatePatchNumber s;
     selectedTriggerChannel := selectedTriggerChannel s;
     step := step s; mode := mode s; oldPosition := oldPosition s;
     prevProgramButtonValue := prevProgramButtonValue s;
     prevExtClk := prevExtClk s; prevTime := v; eeprom := eeprom s |}.

Definition with_eeprom (v : EEPROM) (s : State) : State :=
  {| patches := patches s; delayTime := delayTime s;
     memoryCellsInUse := memoryCellsInUse s;
     chosenPatchNumber := chosenPatchNumber s;
     candidatePatchNumber := candidatePatchNumber s;
     selectedTriggerChannel := selectedTriggerChannel s;
     step := step s; mode := mode s; oldPosition := oldPosition s;
     prevProgramButtonValue := prevProgramButtonValue s;
     prevExtClk := prevExtClk s; prevTime := prevTime s; eeprom := v |}.

(** [rotateLeft(pattern, channelNumber)]: the length is read from the
    chosen patch of the bank. *)
Definition rotateLeft (s : State) (pattern : Z) (channelNumber : Channel)
  : result Z :=
  p ← read (patches s) (chosenPatchNumber s);
  Bits.rotateLeft pattern (get (patternLength p) channelNumber).

Definition rotateRight (s : State) (pattern : Z) (channelNumber : Channel)
  : result Z :=
  p ← read (patches s) (chosenPatchNumber s);
  Bits.rotateRight pattern (get (patternLength p) channelNumber).

(** *** The blocks of [loop]

    [loop] is modelled block by block, in the order of the source.  The
    statements that only drive the display or the output pins are left
    out. *)

Section Loop.

(** Whether the sketch is compiled with [ALLOW_PATTERN_LENGTH_CHANGE]. *)
Variable ALLOW_PATTERN_LENGTH_CHANGE : bool.

(** In [PROGRAM_MODE], a pass in which no button is pressed re-arms the
    program buttons. *)
Definition program_buttons (inp : Input) (s : State) : State :=
  if mode s =? PROGRAM_MODE then
    match button inp with
    | None => with_prevProgramButtonValue 0 s
    | Some _ => s
    end
  else s.

(** The tempo edit, written out in each of the three editing cases of
    the [switch]. *)
Definition tempo_edit (inp : Input) (s : State) : State :=
  if newPosition inp <? oldPosition s - 3 then
    let d := wrap (delayTime s - 1) in
    let d := if d <? 10 then 10 else d in
    with_oldPosition (newPosition inp) (with_delayTime d s)
  else if newPosition inp >? oldPosition s + 3 then
    let d := wrap (delayTime s + 1) in
    let d := if d >? MAX_DELAY_TIME then MAX_DELAY_TIME else d in
    with_oldPosition (newPosition inp) (with_delayTime d s)
  else s.

(** [case PATTERN_LENGTH_MODE], modifier released. *)
Definition length_edit (inp : Input) (s : State) : result State :=
  let ch := selectedTriggerChannel s in
  if newPosition inp <? oldPosition s - 3 then
    p ← read (patches s) (chosenPatchNumber s);
    let l := get (patternLength p) ch + 1 in
    let l := if l >? NUM_NEOP_LEDS then NUM_NEOP_LEDS else l in
    let p := with_patternLength (put (patternLength p) ch l) p in
    n ← euclid p ch;
    let p := with_channelPattern (put (channelPattern p) ch n) p in
    ps ← write (patches s) (chosenPatchNumber s) p;
    Ok (with_oldPosition (newPosition inp) (with_patches ps s))
  else if newPosition inp >? oldPosition s + 3 then
    p ← read (patches s) (chosenPatchNumber s);
    let l := get (patternLength p) ch - 1 in
    let l := if l <? 0 then 0 else l in
    let p := with_patternLength (put (patternLength p) ch l) p in
    n ← euclid p ch;
    let p := with_channelPattern (put (channelPattern p) ch n) p in
    ps ← write (patches s) (chosenPatchNumber s) p;
    Ok (with_oldPosition (newPosition inp) (with_patches ps s))
  else Ok s.

(** [case NUM_PULSE_MODE], modifier released. *)
Definition pulses_edit (inp : Input) (s : State) : result State :=
  let ch := selectedTriggerChannel s in
  if newPosition inp <? oldPosition s - 3 then
    p ← read (patches s) (chosenPatchNumber s);
    let n := get (pulses p) ch + 1 in
    let n := if n >? get (patternLength p) ch
             then get (patternLength p) ch else n in
    let p := with_pulses (put (pulses p) ch n) p in
    e ← euclid p ch;
    let p := with_channelPattern (put (channelPattern p) ch e) p in
    ps ← write (patches s) (chosenPatchNumber s) p;
    Ok (with_oldPosition (newPosition inp) (with_patches ps s))
  else if newPosition inp >? oldPosition s + 3 then
    p ← read (patches s) (chosenPatchNumber s);
    let n := get (pulses p) ch - 1 in
    let n := if n <? 0 then 0 else n in
    let p := with_pulses (put (pulses p) ch n) p in
    e ← euclid p ch;
    let p := with_channelPattern (put (channelPattern p) ch e) p in
    ps ← write (patches s) (chosenPatchNumber s) p;
    Ok (with_oldPosition (newPosition inp) (with_patches ps s))
  else Ok s.

(** [case ROTATE_MODE], modifier released. *)
Definition rotate_edit (inp : Input) (s : State) : result State :=
  let ch := selectedTriggerChannel s in
  if newPosition inp >? oldPosition s + 3 then
    let s := with_oldPosition (newPosition inp) s in
    p ← read (patches s) (chosenPatchNumber s);
    q ← rotateRight s (get (channelPattern p) ch) ch;
    let p := with_channelPattern (put (channelPattern p) ch q) p in
    ps ← write (patches s) (chosenPatchNumber s) p;
    Ok (with_patches ps s)
  else if newPosition inp <? oldPosition s - 3 then
    let s := with_oldPosition (newPosition inp) s in
    p ← read (patches s) (chosenPatchNumber s);
    q ← rotateLeft s (get (channelPattern p) ch) ch;
    let p := with_channelPattern (put (channelPattern p) ch q) p in
    ps ← write (patches s) (chosenPatchNumber s) p;
    Ok (with_patches ps s)
  else Ok s.

(** [case PROGRAM_MODE]: the encoder moves the candidate patch number. *)
Definition candidate_edit (inp : Input) (s : State) : State :=
  if newPosition inp >? oldPosition s + 3 then
    let c := candidatePatchNumber s - 1 in
    let c := if c <? 0 then NR_OF_MEMORY_CELLS - 1 else c in
    with_candidatePatchNumber c (with_oldPosition (newPosition inp) s)
  else if newPosition inp <? oldPosition s - 3 then
    let c := candidatePatchNumber s + 1 in
    let c := if c >? NR_OF_MEMORY_CELLS - 1 then 0 else c in
    with_candidatePatchNumber c (with_oldPosition (newPosition inp) s)
  else s.

(** [case TRIG_A]: choose the candidate patch. *)
Definition recall (s : State) : result State :=
  if prevProgramButtonValue s =? 0 then
    let s := with_prevProgramButtonValue 1 s in
    let s := with_chosenPatchNumber (candidatePatchNumber s) s in
    bit ← shl 1 (chosenPatchNumber s);
    s ← (if Z.land (memoryCellsInUse s) bit =? 0 then
           p ← read (patches s) (chosenPatchNumber s);
           ps ← write (patches s) (chosenPatchNumber s) (createEmptyPatch p);
           Ok (with_patches ps s)
         else Ok s);
    let s := with_step (fill 0) s in
    Ok (with_eeprom
          (writePatchNumberToMemory (chosenPatchNumber s) (eeprom s)) s)
  else Ok s.

(** [case TRIG_B]: wipe the candidate memory cell. *)
Definition clear (s : State) : result State :=
  if prevProgramButtonValue s =? 0 then
    let s := with_prevProgramButtonValue 1 s in
    bit ← shl 1 (candidatePatchNumber s);
    let s := with_memoryCellsInUse
               (Z.land (memoryCellsInUse s) (lnot bit)) s in
    Ok (with_eeprom
          (writePatchToMemory emptyPatch (memoryCellsInUse s)
             (candidatePatchNumber s) (delayTime s)
             (selectedTriggerChannel s) (eeprom s)) s)
  else Ok s.

(** [case TRIG_D]: store the chosen patch in the candidate cell. *)
Definition store (s : State) : result State :=
  if prevProgramButtonValue s =? 0 then
    let s := with_prevProgramButtonValue 1 s in
    ps ← copyPatch (patches s) (chosenPatchNumber s) (candidatePatchNumber s);
    let s := with_patches ps s in
    bit ← shl 1 (candidatePatchNumber s);
    let s := with_memoryCellsInUse (Z.lor (memoryCellsInUse s) bit) s in
    p ← read (patches s) (chosenPatchNumber s);
    Ok (with_eeprom
          (writePatchToMemory p (memoryCellsInUse s)
             (candidatePatchNumber s) (delayTime s)
             (selectedTriggerChannel s) (eeprom s)) s)
  else Ok s.

(** The [switch (mode)] of [loop]. *)
Definition mode_switch (inp : Input) (s : State) : result State :=
  if (mode s =? PATTERN_LENGTH_MODE) && ALLOW_PATTERN_LENGTH_CHANGE then
    if escapeButton inp then Ok (tempo_edit inp s) else length_edit inp s
  else if mode s =? NUM_PULSE_MODE then
    if escapeButton inp then Ok (tempo_edit inp s) else pulses_edit inp s
  else if mode s =? ROTATE_MODE then
    if escapeButton inp then Ok (tempo_edit inp s) else rotate_edit inp s
  else if mode s =? PROGRAM_MODE then
    let s := candidate_edit inp s in
    match button inp with
    | Some TRIG_A => recall s
    | Some TRIG_B => clear s
    | Some TRIG_D => store s
    | _ => Ok s
    end
  else Ok s.

(** The clock block: whether this pass triggers a step, and the tempo
    captured from an external clock. *)
Definition clock (inp : Input) (s : State) : State * bool :=
  if clkPin inp then
    let '(s, triggered) :=
      if (extClkV inp >? 512) && (prevExtClk s <? 300) then
        (with_delayTime (wrap (elapsed (thisTime inp) (prevTime s))) s, true)
      else (s, false) in
    (with_prevExtClk (extClkV inp) s, triggered)
  else
    (s, elapsed (thisTime inp) (prevTime s) >? delayTime s).

(** The step counters on a trigger. *)
Definition advance (len : arr4 Z) (st : arr4 Z) (c : Channel) : Z :=
  let n := get st c + 1 in
  if n >? get len c - 1 then 0 else n.

Definition trigger (inp : Input) (s : State) : result State :=
  let s := with_prevTime (thisTime inp) s in
  p ← read (patches s) (chosenPatchNumber s);
  let len := patternLength p in
  Ok (with_step (Arr4 (advance len (step s) TRIG_D)
                      (advance len (step s) TRIG_C)
                      (advance len (step s) TRIG_B)
                      (advance len (step s) TRIG_A)) s).

(** One pass of [loop] over these blocks.  The blocks for the mode
    change, the channel selection, the mutes, the function inputs and the
    reset input are not part of a pass (the mode change, the function
    inputs and the reset input are given on their own): within a run the
    mode and the selected channel stay as they are.  [loop], further
    down, is the pass over all blocks. *)
Definition pass (inp : Input) (s : State) : result State :=
  s ← mode_switch inp (program_buttons inp s);
  let '(s, triggered) := clock inp s in
  if triggered then trigger inp s else Ok s.

Fixpoint run (inps : list Input) (s : State) : result State :=
  match inps with
  | [] => Ok s
  | inp :: rest => s' ← pass inp s; run rest s'
  end.

End Loop.

(** The bank holds sixteen patches and both patch numbers index it. *)
Definition wf (s : State) : Prop :=
  length (patches s) = 16%nat /\
  0 <= chosenPatchNumber s < NR_OF_MEMORY_CELLS /\
  0 <= candidatePatchNumber s < NR_OF_MEMORY_CELLS.

(** The state [setup] leaves when the EEPROM holds what
    [initializePatchInEeprom] wrote: one patch in cell 0, fifteen empty
    cells.  The mode is the one [loop] is in. *)
Definition initialPatch : Patch :=
  {| pulses := Arr4 5 5 3 4;
     patternLength := fill DEFAULT_PATTERN_LENGTH;
     channelPattern := Arr4 10532 18724 16912 2340;
     muteA := false; muteB := false; muteC := false; muteD := false |}.

Definition initialBank : list Patch := initialPatch :: replicate 15 emptyPatch.

Definition after_setup (m : Z) : State :=
  {| patches := initialBank;
     delayTime := 95;
     memoryCellsInUse := 1;
     chosenPatchNumber := 0;
     candidatePatchNumber := 0;
     selectedTriggerChannel := TRIG_A;
     step := fill 0;
     mode := m;
     oldPosition := 0;
     prevProgramButtonValue := 0;
     prevExtClk := 0;
     prevTime := 0;
     eeprom := {| ee_selectedTriggerChannel := TRIG_A;
                  ee_patchNumber := 0;
                  ee_memoryCellsInUse := 1;
                  ee_delayTime := 95;
                  ee_patches := initialBank |} |}.


(** What the program buttons work on is the same in two states. *)
Definition same_program_state (s1 s2 : State) : Prop :=
  patches s2 = patches s1 /\
  memoryCellsInUse s2 = memoryCellsInUse s1 /\
  chosenPatchNumber s2 = chosenPatchNumber s1 /\
  candidatePatchNumber s2 = candidatePatchNumber s1 /\
  mode s2 = mode s1 /\
  oldPosition s2 = oldPosition s1 /\
  prevProgramButtonValue s2 = prevProgramButtonValue s1.

(** Every patch of the bank has its pattern lengths in [lo .. hi]. *)
Definition bank_lengths_within (lo hi : Z) (s : State) : Prop :=
  Forall (fun p => lengths_within lo hi (patternLength p)) (patches s).

(** *** The function inputs *)

(** One function input: a rise through [HALF_DAC_RANGE] rotates the
    pattern of its channel in the chosen patch. *)
Definition func_input (c : Channel) (fIn prevF : Z) (s : State)
  : result State :=
  if (fIn >? HALF_DAC_RANGE) && (prevF <? HALF_DAC_RANGE) then
    p ← read (patches s) (chosenPatchNumber s);
    q ← rotateLeft s (get (channelPattern p) c) c;
    let p := with_channelPattern (put (channelPattern p) c q) p in
    ps ← write (patches s) (chosenPatchNumber s) p;
    Ok (with_patches ps s)
  else Ok s.

(** The four function inputs, F1 to F4, for the channels D to A; the
    readings become [prevF1] to [prevF4]. *)
Definition func_inputs (fIn prevF : arr4 Z) (s : State)
  : result (State * arr4 Z) :=
  s ← func_input TRIG_D (get fIn TRIG_D) (get prevF TRIG_D) s;
  s ← func_input TRIG_C (get fIn TRIG_C) (get prevF TRIG_C) s;
  s ← func_input TRIG_B (get fIn TRIG_B) (get prevF TRIG_B) s;
  s ← func_input TRIG_A (get fIn TRIG_A) (get prevF TRIG_A) s;
  Ok (s, fIn).

(** *** Start-up *)

(** [readPatchesFromMemory]: the header, then the records.  The result is
    the patch number returned, with the values left in the four reference
    arguments. *)
Definition readPatchesFromMemory (ee : EEPROM) (patches : list Patch)
  : result (Z * list Patch * Z * Z * Channel) :=
  let selectedTriggerChannel := ee_selectedTriggerChannel ee in
  let chosenPatchNumber := ee_patchNumber ee in
  let memoryCellsInUse := ee_memoryCellsInUse ee in
  let delayTime := ee_delayTime ee in
  ps ← read_cells createEmptyPatch 16 0 0 memoryCellsInUse
         (ee_patches ee) patches;
  Ok (chosenPatchNumber, ps, memoryCellsInUse, delayTime,
      selectedTriggerChannel).

Definition writePatchesToMemory (patches : list Patch)
  (memoryCellsInUse patchNumber delayTime : Z)
  (selectedTriggerChannel : Channel) (ee : EEPROM) : result EEPROM :=
  rs ← write_cells 16 0 patches (ee_patches ee);
  Ok {| ee_selectedTriggerChannel := selectedTriggerChannel;
        ee_patchNumber := patchNumber;
        ee_memoryCellsInUse := memoryCellsInUse;
        ee_delayTime := delayTime;
        ee_patches := rs |}.

(** The loop of [initializePatchInEeprom] over the patches 1 to 15. *)
Fixpoint initialize_rest (n : nat) (patchNr : Z) (patches : list Patch)
  : result (list Patch) :=
  match n with
  | O => Ok patches
  | S n' =>
      ps ← write patches patchNr
             {| pulses := fill 0;
                patternLength := fill DEFAULT_PATTERN_LENGTH;
                channelPattern := fill 0;
                muteA := false; muteB := false;
                muteC := false; muteD := false |};
      initialize_rest n' (patchNr + 1) ps
  end.

(** [initializePatchInEeprom], run by [setup] when the sketch is compiled
    with [INITIALIZE]: one predefined patch in cell 0, fifteen empty
    cells, all written to the EEPROM. *)
Definition initializePatchInEeprom (patches : list Patch) (ee : EEPROM)
  : result EEPROM :=
  let memoryCellsInUse := 0 in
  let selectedTriggerChannel := TRIG_A in
  let delayTime := 95 in
  let initialPatchNr := 0 in
  ps ← write patches initialPatchNr
         {| pulses := Arr4 5 5 3 4;
            patternLength := fill DEFAULT_PATTERN_LENGTH;
            channelPattern := Arr4 10532 18724 16912 2340;
            muteA := false; muteB := false;
            muteC := false; muteD := false |};
  bit ← shl 1 initialPatchNr;
  let memoryCellsInUse := Z.lor memoryCellsInUse bit in
  ps ← initialize_rest 15 1 ps;
  writePatchesToMemory ps memoryCellsInUse initialPatchNr delayTime
    selectedTriggerChannel ee.

(** [setup] without [INITIALIZE]: the globals are read from the EEPROM
    into the zero-initialised bank, and the step counters are zeroed.  The
    [static] locals of [loop] have their initial values; [m] is the mode
    [loop] starts in. *)
Definition setup (m : Z) (ee : EEPROM) : result State :=
  '(chosen, ps, mem, dt, sel) ←
    readPatchesFromMemory ee (replicate 16 zeroPatch);
  Ok {| patches := ps;
        delayTime := dt;
        memoryCellsInUse := mem;
        chosenPatchNumber := chosen;
        candidatePatchNumber := 0;
        selectedTriggerChannel := sel;
        step := fill 0;
        mode := m;
        oldPosition := 0;
        prevProgramButtonValue := 0;
        prevExtClk := 0;
        prevTime := 0;
        eeprom := ee |}.

(** *** The whole of [loop] *)

Definition with_mode (v : Z) (s : State) : State :=
  {| patches := patches s; delayTime := delayTime s;
     memoryCellsInUse := memoryCellsInUse s;
     chosenPatchNumber := chosenPatchNumber s;
     candidatePatchNumber := candidatePatchNumber s;
     selectedTriggerChannel := selectedTriggerChannel s;
     step := step s; mode := v; oldPosition := oldPosition s;
     prevProgramButtonValue := prevProgramButtonValue s;
     prevExtClk := prevExtClk s; prevTime := prevTime s; eeprom := eeprom s |}.

Definition with_selectedTriggerChannel (v : Channel) (s : State) : State :=
  {| patches := patches s; delayTime := delayTime s;
     memoryCellsInUse := memoryCellsInUse s;
     chosenPatchNumber := chosenPatchNumber s;
     candidatePatchNumber := candidatePatchNumber s;
     selectedTriggerChannel := v;
     step := step s; mode := mode s; oldPosition := oldPosition s;
     prevProgramButtonValue := prevProgramButtonValue s;
     prevExtClk := prevExtClk s; prevTime := prevTime s; eeprom := eeprom s |}.

Definition writeTriggerChannelToMemory (triggerChannel : Channel)
  (ee : EEPROM) : EEPROM :=
  {| ee_selectedTriggerChannel := triggerChannel;
     ee_patchNumber := ee_patchNumber ee;
     ee_memoryCellsInUse := ee_memoryCellsInUse ee;
     ee_delayTime := ee_delayTime ee;
     ee_patches := ee_patches ee |}.

(** The variables of the sketch: those of [State], the other [static]
    locals of [loop] and of [checkButtons]. *)
Record Sketch : Type := {
  state : State;
  mode1Pos : Z;
  prog : bool;
  prevF : arr4 Z;
  prevResetPinIn : Z;
  allowMuteButtons : bool;
  previousSelectedChannel : Z;
  change : bool
}.

(** The variables as [loop] finds them at its first pass. *)
Definition start (s : State) : Sketch :=
  {| state := s; mode1Pos := 0; prog := false; prevF := fill 0;
     prevResetPinIn := 0; allowMuteButtons := true;
     previousSelectedChannel := -1; change := false |}.

(** The [if] on the mode at the head of [loop]: the program buttons in
    [PROGRAM_MODE], the channel selection in the other modes, which
    writes the channel to the EEPROM when [checkButtons] returns true.
    With the state come [programButtonName] and the two [static] locals
    of [checkButtons]. *)
Definition trigger_buttons (inp : Input) (previousSelectedChannel : Z)
  (change : bool) (s : State) : State * option Channel * Z * bool :=
  if mode s =? PROGRAM_MODE then
    (match button inp with
     | None => with_prevProgramButtonValue 0 s
     | Some _ => s
     end, button inp, previousSelectedChannel, change)
  else
    let '(channel, previousSelectedChannel, change) :=
      checkButtons (button inp) (escapeButton inp)
        (selectedTriggerChannel s) previousSelectedChannel change in
    let s := with_selectedTriggerChannel channel s in
    let s :=
      if change
      then with_eeprom (writeTriggerChannelToMemory channel (eeprom s)) s
      else s in
    (s, None, previousSelectedChannel, change).

Definition toggle_mute (b : Channel) (p : Patch) : Patch :=
  {| pulses := pulses p; patternLength := patternLength p;
     channelPattern := channelPattern p;
     muteA := match b with TRIG_A => negb (muteA p) | _ => muteA p end;
     muteB := match b with TRIG_B => negb (muteB p) | _ => muteB p end;
     muteC := match b with TRIG_C => negb (muteC p) | _ => muteC p end;
     muteD := match b with TRIG_D => negb (muteD p) | _ => muteD p end |}.

(** The mute block: with the modifier held, a button toggles the mute of
    its channel in the chosen patch and closes the block until
    [muteButtonDelay] has finished. *)
Definition mute_buttons (r : Readings) (allowMuteButtons : bool) (s : State)
  : result (State * bool) :=
  let allowMuteButtons :=
    if muteDelayFinished r then true else allowMuteButtons in
  if escapeButton (base r) && allowMuteButtons then
    match muteButton r with
    | Some b =>
        p ← read (patches s) (chosenPatchNumber s);
        ps ← write (patches s) (chosenPatchNumber s) (toggle_mute b p);
        Ok (with_patches ps s, false)
    | None => Ok (s, allowMuteButtons)
    end
  else Ok (s, allowMuteButtons).

Section WholeLoop.

Variable ALLOW_PATTERN_LENGTH_CHANGE : bool.

(** One pass of [loop], block by block in the order of the source. *)
Definition loop (r : Readings) (k : Sketch) : result Sketch :=
  let inp := base r in
  let '(s, programButtonName, previousSelectedChannel, change) :=
    trigger_buttons inp (previousSelectedChannel k) (change k) (state k) in
  '(s, allowMuteButtons) ← mute_buttons r (allowMuteButtons k) s;
  let '(v, newPosition) :=
    mode_change ALLOW_PATTERN_LENGTH_CHANGE (progPin r) (escapeButton inp)
      (newPosition inp)
      {| mv_mode := mode s; mv_mode1Pos := mode1Pos k;
         mv_oldPosition := oldPosition s; mv_prog := prog k |} in
  let s := with_oldPosition (mv_oldPosition v) (with_mode (mv_mode v) s) in
  '(s, prevF) ← func_inputs (fIn r) (prevF k) s;
  let '(st, prevResetPinIn) :=
    reset_input (Z.b2z (resetPin r)) (prevResetPinIn k) (step s) in
  let s := with_step st s in
  let inp := seen newPosition programButtonName inp in
  s ← mode_switch ALLOW_PATTERN_LENGTH_CHANGE inp s;
  let '(s, triggered) := clock inp s in
  s ← (if triggered then trigger inp s else Ok s);
  Ok {| state := s; mode1Pos := mv_mode1Pos v; prog := mv_prog v;
        prevF := prevF; prevResetPinIn := prevResetPinIn;
        allowMuteButtons := allowMuteButtons;
        previousSelectedChannel := previousSelectedChannel;
        change := change |}.

Fixpoint loop_run (rs : list Readings) (k : Sketch) : result Sketch :=
  match rs with
  | [] => Ok k
  | r :: rest => k' ← loop r k; loop_run rest k'
  end.

End WholeLoop.

(** A pass in which the blocks before the [switch] have nothing to do:
    the encoder switch is not pressed, no function input is above half
    of its range, the reset pin is low, and the mute block sees no button
    or the modifier released. *)
Definition quiet (r : Readings) : Prop :=
  progPin r = false /\
  (forall c, get (fIn r) c <= HALF_DAC_RANGE) /\
  resetPin r = false /\
  (escapeButton (base r) = false \/ muteButton r = None).

(** [prevResetPinIn] holds the last level of the reset pin. *)
Definition reset_seen (k : Sketch) : Prop :=
  prevResetPinIn k = 0 \/ prevResetPinIn k = 1.

End V11.

(** ** Version 1.0 of the sketch (the earlier variant, without mutes)

    This variant plays and edits a separate [currentPatch]; the bank
    [patches] is only read by a recall and written by a store or a clear. *)

Module V10.
Import Word16.

Record Patch : Type := {
  pulses : arr4 Z;
  patternLength : arr4 Z;
  channelPattern : arr4 Z
}.

Definition with_pulses (v : arr4 Z) (p : Patch) : Patch :=
  {| pulses := v; patternLength := patternLength p;
     channelPattern := channelPattern p |}.

Definition with_patternLength (v : arr4 Z) (p : Patch) : Patch :=
  {| pulses := pulses p; patternLength := v;
     channelPattern := channelPattern p |}.

Definition with_channelPattern (v : arr4 Z) (p : Patch) : Patch :=
  {| pulses := pulses p; patternLength := patternLength p;
     channelPattern := v |}.

(** [copyPatch(srcPatch, dstPatch)] assigns the three arrays of the
    destination, element by element. *)
Definition copyPatch (srcPatch dstPatch : Patch) : Patch :=
  {| pulses := Arr4 (get (pulses srcPatch) TRIG_D) (get (pulses srcPatch) TRIG_C)
                    (get (pulses srcPatch) TRIG_B) (get (pulses srcPatch) TRIG_A);
     patternLength :=
       Arr4 (get (patternLength srcPatch) TRIG_D) (get (patternLength srcPatch) TRIG_C)
            (get (patternLength srcPatch) TRIG_B) (get (patternLength srcPatch) TRIG_A);
     channelPattern :=
       Arr4 (get (channelPattern srcPatch) TRIG_D) (get (channelPattern srcPatch) TRIG_C)
            (get (channelPattern srcPatch) TRIG_B) (get (channelPattern srcPatch) TRIG_A) |}.

(** [createEmptyPatch] of this variant zeroes the pattern lengths too. *)
Definition createEmptyPatch (_ : Patch) : Patch :=
  {| pulses := fill 0; patternLength := fill 0; channelPattern := fill 0 |}.

Definition zeroPatch : Patch :=
  {| pulses := fill 0; patternLength := fill 0; channelPattern := fill 0 |}.

(** The global [emptyPatch], filled by [setup] and never assigned again. *)
Definition emptyPatch : Patch := createEmptyPatch zeroPatch.

Definition euclid (thisPatch : Patch) (channelNumber : Channel) : result Z :=
  Bits.euclid (get (pulses thisPatch) channelNumber)
              (get (patternLength thisPatch) channelNumber).

(** [rotateLeft(thisPatch, channelNumber)] rotates the channel's pattern
    inside the patch. *)
Definition rotateLeft (thisPatch : Patch) (channelNumber : Channel)
  : result Patch :=
  q ← Bits.rotateLeft (get (channelPattern thisPatch) channelNumber)
                      (get (patternLength thisPatch) channelNumber);
  Ok (with_channelPattern (put (channelPattern thisPatch) channelNumber q)
        thisPatch).

Definition rotateRight (thisPatch : Patch) (channelNumber : Channel)
  : result Patch :=
  q ← Bits.rotateRight (get (channelPattern thisPatch) channelNumber)
                       (get (patternLength thisPatch) channelNumber);
  Ok (with_channelPattern (put (channelPattern thisPatch) channelNumber q)
        thisPatch).

Record EEPROM : Type := {
  ee_selectedTriggerChannel : Channel;
  ee_patchNumber : Z;
  ee_memoryCellsInUse : Z;
  ee_delayTime : Z;
  ee_patches : list Patch
}.

Definition writePatchToEEPROM (thisPatch : Patch) (memoryCellsInUse : Z)
  (patchNumber delayTime : Z) (selectedTriggerChannel : Channel)
  (ee : EEPROM) : EEPROM :=
  {| ee_selectedTriggerChannel := selectedTriggerChannel;
     ee_patchNumber := patchNumber;
     ee_memoryCellsInUse := memoryCellsInUse;
     ee_delayTime := delayTime;
     ee_patches :=
       if (0 <=? patchNumber) && (patchNumber <? NR_OF_MEMORY_CELLS)
       then <[Z.to_nat patchNumber := thisPatch]> (ee_patches ee)
       else ee_patches ee |}.

Definition writePatchNumberToEEPROM (patchNumber : Z) (ee : EEPROM) : EEPROM :=
  {| ee_selectedTriggerChannel := ee_selectedTriggerChannel ee;
     ee_patchNumber := patchNumber;
     ee_memoryCellsInUse := ee_memoryCellsInUse ee;
     ee_delayTime := ee_delayTime ee;
     ee_patches := ee_patches ee |}.

Record State : Type := {
  currentPatch : Patch;
  patches : list Patch;
  delayTime : Z;
  memoryCellsInUse : Z;
  chosenPatchNumber : Z;
  candidatePatchNumber : Z;
  selectedTriggerChannel : Channel;
  step : arr4 Z;
  mode : Z;
  oldPosition : Z;
  prevProgramButtonValue : Z;
  prevExtClk : Z;
  prevTime : Z;
  eeprom : EEPROM
}.

Definition with_currentPatch (v : Patch) (s : State) : State :=
  {| currentPatch := v; patches := patches s; delayTime := delayTime s;
     memoryCellsInUse := memoryCellsInUse s;
     chosenPatchNumber := chosenPatchNumber s;
     candidatePatchNumber := candidatePatchNumber s;
     selectedTriggerChannel := selectedTriggerChannel s; step := step s;
     mode := mode s; oldPosition := oldPosition s;
     prevProgramButtonValue := prevProgramButtonValue s;
     prevExtClk := prevExtClk s; prevTime := prevTime s;
     eeprom := eeprom s |}.

Definition with_patches (v : list Patch) (s : State) : State :=
  {| currentPatch := currentPatch s; patches := v;
     delayTime := delayTime s; memoryCellsInUse := memoryCellsInUse s;
     chosenPatchNumber := chosenPatchNumber s;
     candidatePatchNumber := candidatePatchNumber s;
     selectedTriggerChannel := selectedTriggerChannel s; step := step s;
     mode := mode s; oldPosition := oldPosition s;
     prevProgramButtonValue := prevProgramButtonValue s;
     prevExtClk := prevExtClk s; prevTime := prevTime s;
     eeprom := eeprom s |}.

Definition with_delayTime (v : Z) (s : State) : State :=
  {| currentPatch := currentPatch s; patches := patches s; delayTime := v;
     memoryCellsInUse := memoryCellsInUse s;
     chosenPatchNumber := chosenPatchNumber s;
     candidatePatchNumber := candidatePatchNumber s;
     selectedTriggerChannel := selectedTriggerChannel s; step := step s;
     mode := mode s; oldPosition := oldPosition s;
     prevProgramButtonValue := prevProgramButtonValue s;
     prevExtClk := prevExtClk s; prevTime := prevTime s;
     eeprom := eeprom s |}.

Definition with_memoryCellsInUse (v : Z) (s : State) : State :=
  {| currentPatch := currentPatch s; patches := patches s;
     delayTime := delayTime s; memoryCellsInUse := v;
     chosenPatchNumber := chosenPatchNumber s;
     candidatePatchNumber := candidatePatchNumber s;
     selectedTriggerChannel := selectedTriggerChannel s; step := step s;
     mode := mode s; oldPosition := oldPosition s;
     prevProgramButtonValue := prevProgramButtonValue s;
     prevExtClk := prevExtClk s; prevTime := prevTime s;
     eeprom := eeprom s |}.

Definition with_chosenPatchNumber (v : Z) (s : State) : State :=
  {| currentPatch := currentPatch s; patches := patches s;
     delayTime := delayTime s; memoryCellsInUse := memoryCellsInUse s;
     chosenPatchNumber := v;
     candidatePatchNumber := candidatePatchNumber s;
     selectedTriggerChannel := selectedTriggerChannel s; step := step s;
     mode := mode s; oldPosition := oldPosition s;
     prevProgramButtonValue := prevProgramButtonValue s;
     prevExtClk := prevExtClk s; prevTime := prevTime s;
     eeprom := eeprom s |}.

Definition with_candidatePatchNumber (v : Z) (s : State) : State :=
  {| currentPatch := currentPatch s; patches := patches s;
     delayTime := delayTime s; memoryCellsInUse := memoryCellsInUse s;
     chosenPatchNumber := chosenPatchNumber s; candidatePatchNumber := v;
     selectedTriggerChannel := selectedTriggerChannel s; step := step s;
     mode := mode s; oldPosition := oldPosition s;
     prevProgramButtonValue := prevProgramButtonValue s;
     prevExtClk := prevExtClk s; prevTime := prevTime s;
     eeprom := eeprom s |}.

Definition with_step (v : arr4 Z) (s : State) : State :=
  {| currentPatch := currentPatch s; patches := patches s;
     delayTime := delayTime s; memoryCellsInUse := memoryCellsInUse s;
     chosenPatchNumber := chosenPatchNumber s;
     candidatePatchNumber := candidatePatchNumber s;
     selectedTriggerChannel := selectedTriggerChannel s; step := v;
     mode := mode s; oldPosition := oldPosition s;
     prevProgramButtonValue := prevProgramButtonValue s;
     prevExtClk := prevExtClk s; prevTime := prevTime s;
     eeprom := eeprom s |}.

Definition with_oldPosition (v : Z) (s : State) : State :=
  {| currentPatch := currentPatch s; patches := patches s;
     delayTime := delayTime s; memoryCellsInUse := memoryCellsInUse s;
     chosenPatchNumber := chosenPatchNumber s;
     candidatePatchNumber := candidatePatchNumber s;
     selectedTriggerChannel := selectedTriggerChannel s; step := step s;
     mode := mode s; oldPosition := v;
     prevProgramButtonValue := prevProgramButtonValue s;
     prevExtClk := prevExtClk s; prevTime := prevTime s;
     eeprom := eeprom s |}.

Definition with_prevProgramButtonValue (v : Z) (s : State) : State :=
  {| currentPatch := currentPatch s; patches := patches s;
     delayTime := delayTime s; memoryCellsInUse := memoryCellsInUse s;
     chosenPatchNumber := chosenPatchNumber s;
     candidatePatchNumber := candidatePatchNumber s;
     selectedTriggerChannel := selectedTriggerChannel s; step := step s;
     mode := mode s; oldPosition := oldPosition s;
     prevProgramButtonValue := v; prevExtClk := prevExtClk s;
     prevTime := prevTime s; eeprom := eeprom s |}.

Definition with_prevExtClk (v : Z) (s : State) : State :=
  {| currentPatch := currentPatch s; patches := patches s;
     delayTime := delayTime s; memoryCellsInUse := memoryCellsInUse s;
     chosenPatchNumber := chosenPatchNumber s;
     candidatePatchNumber := candidatePatchNumber s;
     selectedTriggerChannel := selectedTriggerChannel s; step := step s;
     mode := mode s; oldPosition := oldPosition s;
     prevProgramButtonValue := prevProgramButtonValue s; prevExtClk := v;
     prevTime := prevTime s; eeprom := eeprom s |}.

Definition with_prevTime (v : Z) (s : State) : State :=
  {| currentPatch := currentPatch s; patches := patches s;
     delayTime := delayTime s; memoryCellsInUse := memoryCellsInUse s;
     chosenPatchNumber := chosenPatchNumber s;
     candidatePatchNumber := candidatePatchNumber s;
     selectedTriggerChannel := selectedTriggerChannel s; step := step s;
     mode := mode s; oldPosition := oldPosition s;
     prevProgramButtonValue := prevProgramButtonValue s;
     prevExtClk := prevExtClk s; prevTime := v; eeprom := eeprom s |}.

Definition with_eeprom (v : EEPROM) (s : State) : State :=
  {| currentPatch := currentPatch s; patches := patches s;
     delayTime := delayTime s; memoryCellsInUse := memoryCellsInUse s;
     chosenPatchNumber := chosenPatchNumber s;
     candidatePatchNumber := candidatePatchNumber s;
     selectedTriggerChannel := selectedTriggerChannel s; step := step s;
     mode := mode s; oldPosition := oldPosition s;
     prevProgramButtonValue := prevProgramButtonValue s;
     prevExtClk := prevExtClk s; prevTime := prevTime s; eeprom := v |}.

Definition resetSteps (step : arr4 Z) : arr4 Z := fill 0.

(** *** The blocks of [loop], in the order of the source *)

(** [checkProgramButtons] knows the buttons D, B and A only; a pass in
    which it reports no button re-arms the program buttons. *)
Definition program_buttons (inp : Input) (s : State) : State :=
  if mode s =? PROGRAM_MODE then
    match button inp with
    | None | Some TRIG_C => with_prevProgramButtonValue 0 s
    | Some _ => s
    end
  else s.

(** [case PATTERN_LENGTH_MODE], modifier held: the tempo edit. *)
Definition tempo_edit (inp : Input) (s : State) : State :=
  if newPosition inp <? oldPosition s - 3 then
    let d := wrap (delayTime s - 1) in
    let d := if d <? 10 then 10 else d in
    with_oldPosition (newPosition inp) (with_delayTime d s)
  else if newPosition inp >? oldPosition s + 3 then
    let d := wrap (delayTime s + 1) in
    let d := if d >? MAX_DELAY_TIME then MAX_DELAY_TIME else d in
    with_oldPosition (newPosition inp) (with_delayTime d s)
  else s.

(** [case PATTERN_LENGTH_MODE], modifier released. *)
Definition length_edit (inp : Input) (s : State) : result State :=
  let ch := selectedTriggerChannel s in
  let p := currentPatch s in
  if newPosition inp <? oldPosition s - 3 then
    let l := get (patternLength p) ch + 1 in
    let l := if l >? NUM_NEOP_LEDS then NUM_NEOP_LEDS else l in
    let p := with_patternLength (put (patternLength p) ch l) p in
    n ← euclid p ch;
    let p := with_channelPattern (put (channelPattern p) ch n) p in
    Ok (with_step (resetSteps (step s))
          (with_oldPosition (newPosition inp) (with_currentPatch p s)))
  else if newPosition inp >? oldPosition s + 3 then
    let l := get (patternLength p) ch - 1 in
    let l := if l <? 0 then 0 else l in
    let p := with_patternLength (put (patternLength p) ch l) p in
    n ← euclid p ch;
    let p := with_channelPattern (put (channelPattern p) ch n) p in
    Ok (with_step (resetSteps (step s))
          (with_oldPosition (newPosition inp) (with_currentPatch p s)))
  else Ok s.

(** [case NUM_PULSE_MODE]: the modifier is not consulted. *)
Definition pulses_edit (inp : Input) (s : State) : result State :=
  let ch := selectedTriggerChannel s in
  let p := currentPatch s in
  if newPosition inp <? oldPosition s - 3 then
    let n := get (pulses p) ch + 1 in
    let n := if n >? get (patternLength p) ch
             then get (patternLength p) ch else n in
    let p := with_pulses (put (pulses p) ch n) p in
    e ← euclid p ch;
    let p := with_channelPattern (put (channelPattern p) ch e) p in
    Ok (with_step (resetSteps (step s))
          (with_oldPosition (newPosition inp) (with_currentPatch p s)))
  else if newPosition inp >? oldPosition s + 3 then
    let n := get (pulses p) ch - 1 in
    let n := if n <? 0 then 0 else n in
    let p := with_pulses (put (pulses p) ch n) p in
    e ← euclid p ch;
    let p := with_channelPattern (put (channelPattern p) ch e) p in
    Ok (with_step (resetSteps (step s))
          (with_oldPosition (newPosition inp) (with_currentPatch p s)))
  else Ok s.

(** [case ROTATE_MODE]: the modifier is not consulted. *)
Definition rotate_edit (inp : Input) (s : State) : result State :=
  let ch := selectedTriggerChannel s in
  if newPosition inp >? oldPosition s + 3 then
    let s := with_oldPosition (newPosition inp) s in
    p ← rotateRight (currentPatch s) ch;
    Ok (with_currentPatch p s)
  else if newPosition inp <? oldPosition s - 3 then
    let s := with_oldPosition (newPosition inp) s in
    p ← rotateLeft (currentPatch s) ch;
    Ok (with_currentPatch p s)
  else Ok s.

(** [case PROGRAM_MODE]: the encoder moves the candidate patch number. *)
Definition candidate_edit (inp : Input) (s : State) : State :=
  if newPosition inp >? oldPosition s + 3 then
    let c := candidatePatchNumber s - 1 in
    let c := if c <? 0 then NR_OF_MEMORY_CELLS - 1 else c in
    with_candidatePatchNumber c (with_oldPosition (newPosition inp) s)
  else if newPosition inp <? oldPosition s - 3 then
    let c := candidatePatchNumber s + 1 in
    let c := if c >? NR_OF_MEMORY_CELLS - 1 then 0 else c in
    with_candidatePatchNumber c (with_oldPosition (newPosition inp) s)
  else s.

(** [case TRIG_A]: copy the candidate cell of the bank into the current
    patch. *)
Definition recall (s : State) : result State :=
  if prevProgramButtonValue s =? 0 then
    let s := with_prevProgramButtonValue 1 s in
    let s := with_chosenPatchNumber (candidatePatchNumber s) s in
    src ← read (patches s) (chosenPatchNumber s);
    let s := with_currentPatch (copyPatch src (currentPatch s)) s in
    let s := with_step (fill 0) s in
    Ok (with_eeprom
          (writePatchNumberToEEPROM (chosenPatchNumber s) (eeprom s)) s)
  else Ok s.

(** [case TRIG_B]: wipe the candidate cell; the current patch stays. *)
Definition clear (s : State) : result State :=
  if prevProgramButtonValue s =? 0 then
    let s := with_prevProgramButtonValue 1 s in
    bit ← shl 1 (candidatePatchNumber s);
    let s := with_memoryCellsInUse
               (Z.land (memoryCellsInUse s) (lnot bit)) s in
    dst ← read (patches s) (candidatePatchNumber s);
    ps ← write (patches s) (candidatePatchNumber s) (copyPatch emptyPatch dst);
    let s := with_patches ps s in
    Ok (with_eeprom
          (writePatchToEEPROM emptyPatch (memoryCellsInUse s)
             (candidatePatchNumber s) (delayTime s)
             (selectedTriggerChannel s) (eeprom s)) s)
  else Ok s.

(** [case TRIG_D]: store the current patch in the candidate cell. *)
Definition store (s : State) : result State :=
  if prevProgramButtonValue s =? 0 then
    let s := with_prevProgramButtonValue 1 s in
    bit ← shl 1 (candidatePatchNumber s);
    let s := with_memoryCellsInUse (Z.lor (memoryCellsInUse s) bit) s in
    let s := with_eeprom
               (writePatchToEEPROM (currentPatch s) (memoryCellsInUse s)
                  (candidatePatchNumber s) (delayTime s)
                  (selectedTriggerChannel s) (eeprom s)) s in
    dst ← read (patches s) (candidatePatchNumber s);
    ps ← write (patches s) (candidatePatchNumber s)
           (copyPatch (currentPatch s) dst);
    Ok (with_patches ps s)
  else Ok s.

(** The [switch (mode)] of [loop]. *)
Definition mode_switch (inp : Input) (s : State) : result State :=
  if mode s =? PATTERN_LENGTH_MODE then
    if escapeButton inp then Ok (tempo_edit inp s) else length_edit inp s
  else if mode s =? NUM_PULSE_MODE then pulses_edit inp s
  else if mode s =? ROTATE_MODE then rotate_edit inp s
  else if mode s =? PROGRAM_MODE then
    let s := candidate_edit inp s in
    match button inp with
    | Some TRIG_A => recall s
    | Some TRIG_B => clear s
    | Some TRIG_D => store s
    | _ => Ok s
    end
  else Ok s.

(** The clock block. *)
Definition clock (inp : Input) (s : State) : State * bool :=
  if clkPin inp then
    let '(s, triggered) :=
      if (extClkV inp >? 512) && (prevExtClk s <? 128) then
        (with_delayTime (wrap (elapsed (thisTime inp) (prevTime s))) s, true)
      else (s, false) in
    (with_prevExtClk (extClkV inp) s, triggered)
  else
    (s, elapsed (thisTime inp) (prevTime s) >? delayTime s).

Definition advance (len : arr4 Z) (st : arr4 Z) (c : Channel) : Z :=
  let n := get st c + 1 in
  if n >? get len c - 1 then 0 else n.

Definition trigger (inp : Input) (s : State) : State :=
  let s := with_prevTime (thisTime inp) s in
  let len := patternLength (currentPatch s) in
  with_step (Arr4 (advance len (step s) TRIG_D)
                  (advance len (step s) TRIG_C)
                  (advance len (step s) TRIG_B)
                  (advance len (step s) TRIG_A)) s.

(** One pass of [loop] over these blocks.  The blocks for the mode
    change, the channel selection, the function inputs and the reset input
    are not part of a pass (the mode change, the function inputs and the
    reset input are given on their own): within a run the mode and the
    selected channel stay as they are.  [loop], further down, is the pass
    over all blocks. *)
Definition pass (inp : Input) (s : State) : result State :=
  s ← mode_switch inp (program_buttons inp s);
  let '(s, triggered) := clock inp s in
  Ok (if triggered then trigger inp s else s).

Fixpoint run (inps : list Input) (s : State) : result State :=
  match inps with
  | [] => Ok s
  | inp :: rest => s' ← pass inp s; run rest s'
  end.

Definition wf (s : State) : Prop :=
  length (patches s) = 16%nat /\
  0 <= chosenPatchNumber s < NR_OF_MEMORY_CELLS /\
  0 <= candidatePatchNumber s < NR_OF_MEMORY_CELLS.

(** The state [setup] leaves when the EEPROM holds what
    [initializePatchInEeprom] wrote. *)
Definition initialPatch : Patch :=
  {| pulses := Arr4 5 5 3 4;
     patternLength := Arr4 14 15 15 12;
     channelPattern := Arr4 10532 18724 16912 2340 |}.

Definition initialBank : list Patch := initialPatch :: replicate 15 emptyPatch.

Definition after_setup (m : Z) : State :=
  {| currentPatch := copyPatch initialPatch zeroPatch;
     patches := initialBank;
     delayTime := 95;
     memoryCellsInUse := 1;
     chosenPatchNumber := 0;
     candidatePatchNumber := 0;
     selectedTriggerChannel := TRIG_A;
     step := fill 0;
     mode := m;
     oldPosition := 0;
     prevProgramButtonValue := 0;
     prevExtClk := 0;
     prevTime := 0;
     eeprom := {| ee_selectedTriggerChannel := TRIG_A;
                  ee_patchNumber := 0;
                  ee_memoryCellsInUse := 1;
                  ee_delayTime := 95;
                  ee_patches := initialBank |} |}.

(** What the program buttons work on is the same in two states. *)
Definition same_program_state (s1 s2 : State) : Prop :=
  currentPatch s2 = currentPatch s1 /\
  patches s2 = patches s1 /\
  memoryCellsInUse s2 = memoryCellsInUse s1 /\
  chosenPatchNumber s2 = chosenPatchNumber s1 /\
  candidatePatchNumber s2 = candidatePatchNumber s1 /\
  mode s2 = mode s1 /\
  oldPosition s2 = oldPosition s1 /\
  prevProgramButtonValue s2 = prevProgramButtonValue s1.

(** The current patch and every patch of the bank have their pattern
    lengths in [lo .. hi]. *)
Definition all_lengths_within (lo hi : Z) (s : State) : Prop :=
  lengths_within lo hi (patternLength (currentPatch s)) /\
  Forall (fun p => lengths_within lo hi (patternLength p)) (patches s).

(** *** The function inputs *)

Definition func_input (c : Channel) (fIn prevF : Z) (s : State)
  : result State :=
  if (fIn >? HALF_DAC_RANGE) && (prevF <? HALF_DAC_RANGE) then
    p ← rotateLeft (currentPatch s) c;
    Ok (with_currentPatch p s)
  else Ok s.

Definition func_inputs (fIn prevF : arr4 Z) (s : State)
  : result (State * arr4 Z) :=
  s ← func_input TRIG_D (get fIn TRIG_D) (get prevF TRIG_D) s;
  s ← func_input TRIG_C (get fIn TRIG_C) (get prevF TRIG_C) s;
  s ← func_input TRIG_B (get fIn TRIG_B) (get prevF TRIG_B) s;
  s ← func_input TRIG_A (get fIn TRIG_A) (get prevF TRIG_A) s;
  Ok (s, fIn).

(** *** Start-up *)

Definition readPatchesFromEEPROM (ee : EEPROM) (patches : list Patch)
  : result (Z * list Patch * Z * Z * Channel) :=
  let selectedTriggerChannel := ee_selectedTriggerChannel ee in
  let chosenPatchNumber := ee_patchNumber ee in
  let memoryCellsInUse := ee_memoryCellsInUse ee in
  let delayTime := ee_delayTime ee in
  ps ← read_cells createEmptyPatch 16 0 0 memoryCellsInUse
         (ee_patches ee) patches;
  Ok (chosenPatchNumber, ps, memoryCellsInUse, delayTime,
      selectedTriggerChannel).

Definition writePatchesToEEPROM (patches : list Patch)
  (memoryCellsInUse patchNumber delayTime : Z)
  (selectedTriggerChannel : Channel) (ee : EEPROM) : result EEPROM :=
  rs ← write_cells 16 0 patches (ee_patches ee);
  Ok {| ee_selectedTriggerChannel := selectedTriggerChannel;
        ee_patchNumber := patchNumber;
        ee_memoryCellsInUse := memoryCellsInUse;
        ee_delayTime := delayTime;
        ee_patches := rs |}.

(** The loop of [initializePatchInEeprom] over the patches 1 to 15. *)
Fixpoint initialize_rest (n : nat) (patchNr : Z) (patches : list Patch)
  : result (list Patch) :=
  match n with
  | O => Ok patches
  | S n' =>
      ps ← write patches patchNr
             {| pulses := fill 0; patternLength := fill 0;
                channelPattern := fill 0 |};
      initialize_rest n' (patchNr + 1) ps
  end.

Definition initializePatchInEeprom (patches : list Patch) (ee : EEPROM)
  : result EEPROM :=
  let memoryCellsInUse := 0 in
  let selectedTriggerChannel := TRIG_A in
  let delayTime := 95 in
  let initialPatchNr := 0 in
  ps ← write patches initialPatchNr
         {| pulses := Arr4 5 5 3 4;
            patternLength := Arr4 14 15 15 12;
            channelPattern := Arr4 10532 18724 16912 2340 |};
  bit ← shl 1 initialPatchNr;
  let memoryCellsInUse := Z.lor memoryCellsInUse bit in
  ps ← initialize_rest 15 1 ps;
  writePatchesToEEPROM ps memoryCellsInUse initialPatchNr delayTime
    selectedTriggerChannel ee.

(** [setup] without [INITIALIZE]: the globals are read from the EEPROM
    into the zero-initialised bank, the candidate patch number follows the
    chosen one, and the chosen cell is copied into the current patch. *)
Definition setup (m : Z) (ee : EEPROM) : result State :=
  '(chosen, ps, mem, dt, sel) ←
    readPatchesFromEEPROM ee (replicate 16 zeroPatch);
  src ← read ps chosen;
  Ok {| currentPatch := copyPatch src zeroPatch;
        patches := ps;
        delayTime := dt;
        memoryCellsInUse := mem;
        chosenPatchNumber := chosen;
        candidatePatchNumber := chosen;
        selectedTriggerChannel := sel;
        step := fill 0;
        mode := m;
        oldPosition := 0;
        prevProgramButtonValue := 0;
        prevExtClk := 0;
        prevTime := 0;
        eeprom := ee |}.

(** *** The whole of [loop] *)

Definition with_mode (v : Z) (s : State) : State :=
  {| currentPatch := currentPatch s; patches := patches s;
     delayTime := delayTime s; memoryCellsInUse := memoryCellsInUse s;
     chosenPatchNumber := chosenPatchNumber s;
     candidatePatchNumber := candidatePatchNumber s;
     selectedTriggerChannel := selectedTriggerChannel s; step := step s;
     mode := v; oldPosition := oldPosition s;
     prevProgramButtonValue := prevProgramButtonValue s;
     prevExtClk := prevExtClk s; prevTime := prevTime s; eeprom := eeprom s |}.

Definition with_selectedTriggerChannel (v : Channel) (s : State) : State :=
  {| currentPatch := currentPatch s; patches := patches s;
     delayTime := delayTime s; memoryCellsInUse := memoryCellsInUse s;
     chosenPatchNumber := chosenPatchNumber s;
     candidatePatchNumber := candidatePatchNumber s;
     selectedTriggerChannel := v; step := step s;
     mode := mode s; oldPosition := oldPosition s;
     prevProgramButtonValue := prevProgramButtonValue s;
     prevExtClk := prevExtClk s; prevTime := prevTime s; eeprom := eeprom s |}.

Definition writeTriggerChannelToEEPROM (triggerChannel : Channel)
  (ee : EEPROM) : EEPROM :=
  {| ee_selectedTriggerChannel := triggerChannel;
     ee_patchNumber := ee_patchNumber ee;
     ee_memoryCellsInUse := ee_memoryCellsInUse ee;
     ee_delayTime := ee_delayTime ee;
     ee_patches := ee_patches ee |}.

(** [checkProgramButtons] reports the buttons D, B and A; with any other
    reading [selectedProgramButtonName] becomes -1. *)
Definition checkProgramButtons (button : option Channel) : option Channel :=
  match button with
  | Some TRIG_C => None
  | b => b
  end.

(** The variables of the sketch: those of [State], the other [static]
    locals of [loop] and of [checkButtons]. *)
Record Sketch : Type := {
  state : State;
  mode1Pos : Z;
  prog : bool;
  prevF : arr4 Z;
  prevResetPinIn : Z;
  previousSelectedChannel : Z;
  change : bool
}.

(** The variables as [loop] finds them at its first pass. *)
Definition start (s : State) : Sketch :=
  {| state := s; mode1Pos := 0; prog := false; prevF := fill 0;
     prevResetPinIn := 0; previousSelectedChannel := -1; change := false |}.

(** The [if] on the mode at the head of [loop]: the program buttons in
    [PROGRAM_MODE], the channel selection in the other modes, which
    writes the channel to the EEPROM when [checkButtons] returns true.
    With the state come [programButtonName] and the two [static] locals
    of [checkButtons]. *)
Definition trigger_buttons (inp : Input) (previousSelectedChannel : Z)
  (change : bool) (s : State) : State * option Channel * Z * bool :=
  if mode s =? PROGRAM_MODE then
    (match checkProgramButtons (button inp) with
     | None => with_prevProgramButtonValue 0 s
     | Some _ => s
     end, checkProgramButtons (button inp), previousSelectedChannel, change)
  else
    let '(channel, previousSelectedChannel, change) :=
      checkButtons (button inp) (escapeButton inp)
        (selectedTriggerChannel s) previousSelectedChannel change in
    let s := with_selectedTriggerChannel channel s in
    let s :=
      if change
      then with_eeprom (writeTriggerChannelToEEPROM channel (eeprom s)) s
      else s in
    (s, None, previousSelectedChannel, change).

(** One pass of [loop], block by block in the order of the source.  The
    mode change has the body that version 1.1 has with
    [ALLOW_PATTERN_LENGTH_CHANGE]; the readings of the mute block are not
    used. *)
Definition loop (r : Readings) (k : Sketch) : result Sketch :=
  let inp := base r in
  let '(s, programButtonName, previousSelectedChannel, change) :=
    trigger_buttons inp (previousSelectedChannel k) (change k) (state k) in
  let '(v, newPosition) :=
    mode_change true (progPin r) (escapeButton inp) (newPosition inp)
      {| mv_mode := mode s; mv_mode1Pos := mode1Pos k;
         mv_oldPosition := oldPosition s; mv_prog := prog k |} in
  let s := with_oldPosition (mv_oldPosition v) (with_mode (mv_mode v) s) in
  '(s, prevF) ← func_inputs (fIn r) (prevF k) s;
  let '(st, prevResetPinIn) :=
    reset_input (Z.b2z (resetPin r)) (prevResetPinIn k) (step s) in
  let s := with_step st s in
  let inp := seen newPosition programButtonName inp in
  s ← mode_switch inp s;
  let '(s, triggered) := clock inp s in
  let s := if triggered then trigger inp s else s in
  Ok {| state := s; mode1Pos := mv_mode1Pos v; prog := mv_prog v;
        prevF := prevF; prevResetPinIn := prevResetPinIn;
        previousSelectedChannel := previousSelectedChannel;
        change := change |}.

Fixpoint loop_run (rs : list Readings) (k : Sketch) : result Sketch :=
  match rs with
  | [] => Ok k
  | r :: rest => k' ← loop r k; loop_run rest k'
  end.

(** A pass in which the blocks before the [switch] have nothing to do:
    the encoder switch is not pressed, no function input is above half
    of its range and the reset pin is low. *)
Definition quiet (r : Readings) : Prop :=
  progPin r = false /\
  (forall c, get (fIn r) c <= HALF_DAC_RANGE) /\
  resetPin r = false.

(** [prevResetPinIn] holds the last level of the reset pin. *)
Definition reset_seen (k : Sketch) : Prop :=
  prevResetPinIn k = 0 \/ prevResetPinIn k = 1.

End V10.

(** ** Notions used to state further properties *)

(** The encoder has moved by at least a detent since [oldPosition]. *)
Definition detent (oldPosition : Z) (inp : Input) : Prop :=
  newPosition inp < oldPosition - 3 \/ newPosition inp > oldPosition + 3.

(** Two occupancy words agree on every cell except cell [k]. *)
Definition same_cells_except (k m m' : Z) : Prop :=
  forall j, 0 <= j < 16 -> j <> k -> Z.testbit m' j = Z.testbit m j.

(** Two arrays agree on every channel except [c]. *)
Definition same_except {A} (c : Channel) (a a' : arr4 A) : Prop :=
  forall d, d <> c -> get a' d = get a d.


(** * Properties *)

(** Case analysis on every integer comparison of the goal. *)
Ltac zbool :=
  repeat match goal with
    | |- context [?a <=? ?b] => destruct (Z.leb_spec a b)
    | |- context [?a <? ?b] => destruct (Z.ltb_spec a b)
    | |- context [?a >=? ?b] => destruct (Z.geb_spec a b)
    | |- context [?a >? ?b] => destruct (Z.gtb_spec a b)
    | |- context [?a =? ?b] => destruct (Z.eqb_spec a b)
    end;
  simpl; try reflexivity; try lia.

(** Inverts a computation in [result] that is known to succeed. *)
Ltac invert_Ok :=
  repeat match goal with
    | H : Ok _ = Ok _ |- _ => injection H as H; try subst
    | H : Undef _ = Ok _ |- _ => discriminate H
    | H : (?m ≫= _) = Ok _ |- _ =>
        let E := fresh "E" in
        destruct m eqn:E; cbn [mbind result_bind] in H; [|discriminate H]
    | H : (if ?b then _ else _) = Ok _ |- _ =>
        let E := fresh "E" in destruct b eqn:E
    end.

(** ** Bits of the word operations *)

Section WordBits.

Lemma int16_small x : - 2 ^ 15 <= x < 2 ^ 15 -> Word16.int16 x = x.
Proof.
  intros Hx. unfold Word16.int16, Word16.modulus, Word16.width.
  rewrite Z.mod_small; lia.
Qed.
Import Word16.

Lemma testbit_wrap x i : Z.testbit (wrap x) i = (i <? 16) && Z.testbit x i.
Proof. unfold wrap, modulus, width. apply Z.testbit_mod_pow2. lia. Qed.

Lemma wrap_range x : in_range (wrap x).
Proof. unfold in_range, wrap, modulus, width. apply Z.mod_pos_bound. lia. Qed.

Lemma testbit_one i : Z.testbit 1 i = (i =? 0).
Proof.
  change 1 with (2 ^ 0). rewrite Z.pow2_bits_eqb by lia. apply Z.eqb_sym.
Qed.

Lemma shl_Ok x n : 0 <= n < 16 -> shl x n = Ok (wrap (Z.shiftl x n)).
Proof.
  intros Hn. unfold shl, width.
  destruct (Z.ltb_spec n 0); [lia|]. destruct (Z.leb_spec 16 n); [lia|]. done.
Qed.

Lemma shr_Ok x n : 0 <= n < 16 -> shr x n = Ok (Z.shiftr x n).
Proof.
  intros Hn. unfold shr, width.
  destruct (Z.ltb_spec n 0); [lia|]. destruct (Z.leb_spec 16 n); [lia|]. done.
Qed.

Lemma shl_negative x n : n < 0 -> shl x n = Undef ShiftNegative.
Proof. intros Hn. unfold shl. destruct (Z.ltb_spec n 0); [done|lia]. Qed.

Lemma shr_negative x n : n < 0 -> shr x n = Undef ShiftNegative.
Proof. intros Hn. unfold shr. destruct (Z.ltb_spec n 0); [done|lia]. Qed.

(** Bit [i] of [1 << n] on 16 bits. *)
Lemma testbit_bit n i :
  0 <= n < 16 -> Z.testbit (wrap (Z.shiftl 1 n)) i = (i =? n).
Proof.
  intros Hn. rewrite testbit_wrap, Z.shiftl_1_l, Z.pow2_bits_eqb by lia.
  destruct (Z.eqb_spec n i), (Z.eqb_spec i n), (Z.ltb_spec i 16);
    simpl; try reflexivity; lia.
Qed.

Lemma testbit_lnot x i :
  0 <= i -> Z.testbit (lnot x) i = (i <? 16) && negb (Z.testbit x i).
Proof. intros Hi. unfold lnot. by rewrite testbit_wrap, Z.lnot_spec. Qed.

End WordBits.

(** ** The rotations, bit by bit *)

Section Rotations.
Import Word16 Bits.

(** Closes [r = a mod n] or [a mod n = r] from the quotient [k]. *)
Ltac mod_by k :=
  first [ apply Z.mod_unique with (q := k); lia
        | symmetry; apply Z.mod_unique with (q := k); lia ].

(** One [rotateLeft]: bit [i] of the result is bit [i-1] of the pattern,
    around the ring of [len] positions. *)
Lemma rotateLeft_bits pattern len :
  1 <= len <= 16 ->
  exists q, rotateLeft pattern len = Ok q /\
    forall i, 0 <= i < len ->
      Z.testbit q i = Z.testbit pattern ((i - 1) mod len).
Proof.
  intros Hlen. unfold rotateLeft.
  rewrite shr_Ok, shl_Ok by lia. simpl.
  eexists; split; [reflexivity|]. intros i Hi.
  rewrite Z.lor_spec, testbit_wrap, Z.land_spec, testbit_one.
  rewrite Z.shiftl_spec, Z.shiftr_spec by lia.
  destruct (Z.eqb_spec i 0) as [->|Hne].
  - rewrite Z.testbit_neg_r with (n := 0 - 1) by lia.
    rewrite andb_false_r, andb_true_r. simpl.
    f_equal. mod_by (-1).
  - rewrite andb_false_r, orb_false_r.
    destruct (Z.ltb_spec i 16); [|lia]. simpl.
    f_equal. mod_by 0.
Qed.

(** One [rotateRight]: bit [i] of the result is bit [i+1] of the
    pattern, around the ring of [len] positions. *)
Lemma rotateRight_bits pattern len :
  1 <= len <= 16 ->
  exists q, rotateRight pattern len = Ok q /\
    forall i, 0 <= i < len ->
      Z.testbit q i = Z.testbit pattern ((i + 1) mod len).
Proof.
  intros Hlen. unfold rotateRight.
  rewrite shr_Ok by lia. simpl. rewrite !shl_Ok by lia. simpl.
  eexists; split; [reflexivity|]. intros i Hi.
  rewrite Z.lor_spec, Z.land_spec, testbit_lnot, testbit_bit by lia.
  rewrite testbit_wrap, Z.shiftr_spec, Z.shiftl_spec by lia.
  rewrite Z.land_spec, testbit_one.
  destruct (Z.ltb_spec i 16); [|lia]. simpl.
  destruct (Z.eqb_spec i (len - 1)) as [->|Hne].
  - simpl. rewrite andb_false_r. simpl.
    replace (len - 1 - (len - 1)) with 0 by lia.
    replace (len - 1 + 1) with len by lia.
    rewrite Z.mod_same by lia. simpl. by rewrite andb_true_r.
  - simpl. rewrite andb_true_r.
    destruct (Z.eqb_spec (i - (len - 1)) 0); [lia|].
    rewrite andb_false_r, orb_false_r.
    f_equal. mod_by 0.
Qed.

Lemma iterate_rotateLeft_bits len :
  1 <= len <= 16 ->
  forall k pattern,
  exists q, iterate k (fun p => rotateLeft p len) pattern = Ok q /\
    forall i, 0 <= i < len ->
      Z.testbit q i = Z.testbit pattern ((i - Z.of_nat k) mod len).
Proof.
  intros Hlen. induction k as [|k IH]; intros pattern; simpl.
  - eexists; split; [reflexivity|]. intros i Hi.
    f_equal. mod_by 0.
  - destruct (rotateLeft_bits pattern len Hlen) as (q1 & -> & Hq1). simpl.
    destruct (IH q1) as (q & -> & Hq).
    eexists; split; [reflexivity|]. intros i Hi.
    rewrite Hq by lia. rewrite Hq1 by (apply Z.mod_pos_bound; lia).
    rewrite Zminus_mod_idemp_l. f_equal. f_equal. lia.
Qed.

Lemma iterate_rotateRight_bits len :
  1 <= len <= 16 ->
  forall k pattern,
  exists q, iterate k (fun p => rotateRight p len) pattern = Ok q /\
    forall i, 0 <= i < len ->
      Z.testbit q i = Z.testbit pattern ((i + Z.of_nat k) mod len).
Proof.
  intros Hlen. induction k as [|k IH]; intros pattern; simpl.
  - eexists; split; [reflexivity|]. intros i Hi.
    f_equal. mod_by 0.
  - destruct (rotateRight_bits pattern len Hlen) as (q1 & -> & Hq1). simpl.
    destruct (IH q1) as (q & -> & Hq).
    eexists; split; [reflexivity|]. intros i Hi.
    rewrite Hq by lia. rewrite Hq1 by (apply Z.mod_pos_bound; lia).
    rewrite Zplus_mod_idemp_l. f_equal. f_equal. lia.
Qed.

(** C4: for every pattern and every length from 1 to 16, [length]
    applications of [rotateLeft], and likewise of [rotateRight], are
    defined and give a pattern that agrees with the original one on the
    low [length] bits. *)
Theorem rotate_length_times_restores (pattern len : Z) :
  1 <= len <= 16 ->
  (exists q, iterate (Z.to_nat len) (fun p => rotateLeft p len) pattern = Ok q
             /\ low_bits_eq len q pattern) /\
  (exists q, iterate (Z.to_nat len) (fun p => rotateRight p len) pattern = Ok q
             /\ low_bits_eq len q pattern).
Proof.
  intros Hlen. split.
  - destruct (iterate_rotateLeft_bits len Hlen (Z.to_nat len) pattern)
      as (q & Hq & Hbits).
    exists q. split; [exact Hq|]. intros i Hi. rewrite Hbits by lia.
    f_equal. mod_by (-1).
  - destruct (iterate_rotateRight_bits len Hlen (Z.to_nat len) pattern)
      as (q & Hq & Hbits).
    exists q. split; [exact Hq|]. intros i Hi. rewrite Hbits by lia.
    f_equal. mod_by 1.
Qed.

Lemma rotate_length_times_restores_witness :
  (exists q, iterate (Z.to_nat 5) (fun p => rotateLeft p 5) 19 = Ok q
             /\ low_bits_eq 5 q 19) /\
  (exists q, iterate (Z.to_nat 5) (fun p => rotateRight p 5) 19 = Ok q
             /\ low_bits_eq 5 q 19).
Proof. apply (rotate_length_times_restores 19 5). lia. Defined.

(** C5, as the sketches compute it: for a length from 1 to 16 both
    rotations are defined (every shift amount lies in 0..15), and with
    length 1 they leave bit 0, the whole ring, unchanged; nothing guards a
    length of 0 or less, where the shift by [length - 1] is a shift by a
    negative amount. *)
Theorem rotate_shift_amounts (pattern len : Z) :
  len <= 16 ->
  (1 <= len ->
   exists ql qr,
     rotateLeft pattern len = Ok ql /\ rotateRight pattern len = Ok qr /\
     (len = 1 -> low_bits_eq 1 ql pattern /\ low_bits_eq 1 qr pattern)) /\
  (len <= 0 ->
   rotateLeft pattern len = Undef ShiftNegative /\
   rotateRight pattern len = Undef ShiftNegative).
Proof.
  intros Hmax. split.
  - intros Hmin.
    destruct (rotateLeft_bits pattern len) as (ql & Hl & Hlb); [lia|].
    destruct (rotateRight_bits pattern len) as (qr & Hr & Hrb); [lia|].
    exists ql, qr. split; [exact Hl|]. split; [exact Hr|].
    intros ->. split; intros i Hi; assert (i = 0) as -> by lia.
    + by rewrite Hlb by lia.
    + by rewrite Hrb by lia.
  - intros Hneg. unfold rotateLeft, rotateRight.
    split.
    + by rewrite shr_negative by lia.
    + rewrite shr_Ok by lia. simpl.
      by rewrite (shl_negative 1) by lia.
Qed.

Lemma rotate_shift_amounts_witness :
  exists ql qr,
    rotateLeft 3 1 = Ok ql /\ rotateRight 3 1 = Ok qr /\
    (1 = 1 -> low_bits_eq 1 ql 3 /\ low_bits_eq 1 qr 3).
Proof.
  destruct (rotate_shift_amounts 3 1) as [Hdefined _]; [lia|].
  apply Hdefined. lia.
Defined.

(** C5, as stated, fails: with length 0 both rotations shift by -1. *)
Lemma rotate_length_zero_undefined :
  rotateLeft 1 0 = Undef ShiftNegative /\
  rotateRight 1 0 = Undef ShiftNegative.
Proof. split; reflexivity. Qed.

End Rotations.


(** ** The generator *)

Section Generator.
Import Word16 Bits.

Variables pulses len : Z.
Hypothesis Hpulses : 0 <= pulses <= len.
Hypothesis Hlen : 0 < len <= 16.

(** The bucket after one more step. *)
Lemma bucket_step i :
  0 <= i ->
  (if (i * pulses) mod len + pulses >=? len
   then (i * pulses) mod len + pulses - len
   else (i * pulses) mod len + pulses) = ((i + 1) * pulses) mod len.
Proof.
  intros Hi.
  pose proof (Z.mod_pos_bound (i * pulses) len ltac:(lia)) as Hb.
  pose proof (Z.div_mod (i * pulses) len ltac:(lia)) as Hdm.
  destruct (Z.geb_spec ((i * pulses) mod len + pulses) len).
  - apply Z.mod_unique with (q := (i * pulses) / len + 1); lia.
  - apply Z.mod_unique with (q := (i * pulses) / len); lia.
Qed.

(** The loop of [euclid], entered at step [i] with the bucket of that
    step: it sets exactly the bits of the steps that fire. *)
Lemma euclid_loop_bits steps :
  forall i number,
  0 <= i -> i + Z.of_nat steps <= 16 ->
  exists n,
    euclid_loop steps pulses len i ((i * pulses) mod len) number = Ok n /\
    forall j, 0 <= j ->
      Z.testbit n j =
      Z.testbit number j
      || ((i <=? j) && (j <? i + Z.of_nat steps) && fires pulses len j).
Proof.
  induction steps as [|steps IH]; intros i number Hi Hsteps.
  - simpl. eexists; split; [reflexivity|]. intros j Hj.
    replace ((i <=? j) && (j <? i + Z.of_nat 0)) with false by zbool.
    simpl. by rewrite orb_false_r.
  - cbn [euclid_loop].
    pose proof (bucket_step i Hi) as Hb.
    pose proof (Z.mod_pos_bound (i * pulses) len ltac:(lia)) as Hrange.
    rewrite (int16_small ((i * pulses) mod len + pulses)) by lia.
    destruct (Z.geb_spec ((i * pulses) mod len + pulses) len) as [Hge|Hlt].
    + rewrite (int16_small ((i * pulses) mod len + pulses - len)) by lia.
      rewrite shl_Ok by lia. simpl. rewrite Hb.
      destruct (IH (i + 1) (Z.lor number (wrap (Z.shiftl 1 i))))
        as (n & -> & Hn); [lia|lia|].
      eexists; split; [reflexivity|]. intros j Hj.
      rewrite Hn, Z.lor_spec, testbit_bit by lia.
      destruct (Z.eqb_spec j i) as [->|Hne].
      * replace (fires pulses len i) with true by (unfold fires; zbool).
        replace ((i <=? i) && (i <? i + Z.of_nat (S steps))) with true by zbool.
        simpl. by rewrite !orb_true_r.
      * rewrite orb_false_r. f_equal. f_equal. zbool.
    + rewrite Hb.
      destruct (IH (i + 1) number) as (n & -> & Hn); [lia|lia|].
      eexists; split; [reflexivity|]. intros j Hj.
      rewrite Hn by lia. f_equal.
      destruct (Z.eqb_spec j i) as [->|Hne].
      * replace (fires pulses len i) with false by (unfold fires; zbool).
        by rewrite !andb_false_r.
      * f_equal. zbool.
Qed.

(** [euclid] is defined, and bit [j] of its result is set exactly when
    [j] is a step of the pattern that fires. *)
Lemma euclid_bits :
  exists n, euclid pulses len = Ok n /\
    forall j, 0 <= j ->
      Z.testbit n j = (j <? len) && fires pulses len j.
Proof.
  unfold euclid.
  destruct (euclid_loop_bits (Z.to_nat len) 0 0) as (n & Hn & Hbits);
    [lia|lia|].
  change (0 * pulses) with 0 in Hn. rewrite Z.mod_0_l in Hn by lia.
  exists n. split; [exact Hn|]. intros j Hj.
  rewrite Hbits, Z.testbit_0_l by lia. simpl.
  destruct (Z.leb_spec 0 j); [|lia]. simpl.
  by replace (Z.of_nat (Z.to_nat len)) with len by lia.
Qed.

(** The number of steps that fire among the first [k] is the quotient of
    [k * pulses] by [len]. *)
Lemma popcount_fires n (k : nat) :
  (forall j, 0 <= j -> Z.testbit n j = (j <? len) && fires pulses len j) ->
  Z.of_nat k <= len ->
  Z.of_nat (popcount k n) = (Z.of_nat k * pulses) / len.
Proof.
  intros Hbits. induction k as [|k IH]; intros Hk.
  - simpl. by rewrite Z.div_0_l by lia.
  - cbn [popcount]. rewrite Nat2Z.inj_add, IH by lia.
    rewrite Hbits by lia.
    destruct (Z.ltb_spec (Z.of_nat k) len); [|lia]. simpl. unfold fires.
    pose proof (Z.mod_pos_bound (Z.of_nat k * pulses) len ltac:(lia)) as Hb.
    pose proof (Z.div_mod (Z.of_nat k * pulses) len ltac:(lia)) as Hdm.
    destruct (Z.geb_spec ((Z.of_nat k * pulses) mod len + pulses) len).
    + apply Z.div_unique
        with (r := (Z.of_nat k * pulses) mod len + pulses - len); lia.
    + apply Z.div_unique
        with (r := (Z.of_nat k * pulses) mod len + pulses); lia.
Qed.

End Generator.

Section GeneratorProperties.
Import Word16 Bits.

(** Bits that are clear from position [w] on do not count. *)
Lemma popcount_high n (w k : nat) :
  (forall j, (w <= j)%nat -> Z.testbit n (Z.of_nat j) = false) ->
  popcount (w + k) n = popcount w n.
Proof.
  intros Hhigh. induction k as [|k IH].
  - by rewrite Nat.add_0_r.
  - rewrite Nat.add_succ_r. cbn [popcount].
    rewrite Hhigh by lia. by rewrite IH.
Qed.

(** C1, as the sketches compute it: with 5 pulses over 16 steps the
    generator returns the pattern 37448, whose set bits are exactly the
    positions 3, 6, 9, 12 and 15. *)
Theorem euclid_5_16_positions :
  exists n, euclid 5 16 = Ok n /\ in_range n /\
            bit_positions 16 n = [3; 6; 9; 12; 15].
Proof.
  exists 37448. split; [reflexivity|]. split; [|reflexivity].
  unfold in_range, modulus, width. lia.
Qed.

(** C1, as stated, fails: the positions set for 5 pulses over 16 steps are
    not 0, 3, 6, 9, 12 and 14. *)
Lemma euclid_5_16_not_0_3_6_9_12_14 :
  euclid 5 16 = Ok 37448 /\ bit_positions 16 37448 <> [0; 3; 6; 9; 12; 14].
Proof. split; [reflexivity|]. vm_compute. discriminate. Qed.

(** C2: for 0 <= pulses <= length <= 16 the generator returns a pattern
    with exactly [pulses] bits set among its low [length] bits, and no bit
    set above them. *)
Theorem euclid_popcount (pulses len : Z) :
  0 <= pulses <= len -> len <= 16 ->
  exists n, euclid pulses len = Ok n /\
            popcount (Z.to_nat len) n = Z.to_nat pulses /\
            popcount 16 n = Z.to_nat pulses.
Proof.
  intros Hp Hl.
  destruct (Z.eq_dec len 0) as [->|Hne].
  - assert (pulses = 0) as -> by lia. exists 0. by vm_compute.
  - destruct (euclid_bits pulses len) as (n & Hn & Hbits); [lia|lia|].
    exists n. split; [exact Hn|].
    assert (popcount (Z.to_nat len) n = Z.to_nat pulses) as Hlow.
    { apply Nat2Z.inj.
      rewrite (popcount_fires pulses len) by (done || lia).
      rewrite Z2Nat.id by lia. rewrite Z.mul_comm, Z.div_mul by lia. lia. }
    split; [exact Hlow|].
    replace 16%nat with (Z.to_nat len + (16 - Z.to_nat len))%nat by lia.
    rewrite popcount_high; [exact Hlow|].
    intros j Hj. rewrite Hbits by lia.
    by destruct (Z.ltb_spec (Z.of_nat j) len); [lia|].
Qed.

Lemma euclid_popcount_witness :
  exists n, euclid 3 8 = Ok n /\
            popcount (Z.to_nat 8) n = Z.to_nat 3 /\
            popcount 16 n = Z.to_nat 3.
Proof. apply (euclid_popcount 3 8); lia. Defined.

(** C3, as the sketches compute it: for 1 <= pulses <= length <= 16 bit 0
    of the generated pattern is set exactly when pulses = length. *)
Theorem euclid_bit0 (pulses len : Z) :
  1 <= pulses <= len -> len <= 16 ->
  exists n, euclid pulses len = Ok n /\
            (Z.testbit n 0 = true <-> pulses = len).
Proof.
  intros Hp Hl.
  destruct (euclid_bits pulses len) as (n & Hn & Hbits); [lia|lia|].
  exists n. split; [exact Hn|].
  rewrite Hbits by lia. unfold fires.
  change (0 * pulses) with 0. rewrite Z.mod_0_l by lia.
  destruct (Z.ltb_spec 0 len); [|lia].
  destruct (Z.geb_spec (0 + pulses) len); simpl; split; intros; lia || done.
Qed.

Lemma euclid_bit0_witness :
  exists n, euclid 4 4 = Ok n /\ (Z.testbit n 0 = true <-> 4 = 4).
Proof. apply (euclid_bit0 4 4); lia. Defined.

(** C3, as stated, fails: with 5 pulses over 16 steps bit 0 is clear. *)
Lemma first_step_silent_5_16 :
  euclid 5 16 = Ok 37448 /\ Z.testbit 37448 0 = false.
Proof. split; reflexivity. Qed.

(** C10: for 1 <= pulses <= length <= 16 bit [length - 1] of the generated
    pattern is set: the rhythm fires on the last step. *)
Theorem euclid_last_bit (pulses len : Z) :
  1 <= pulses <= len -> len <= 16 ->
  exists n, euclid pulses len = Ok n /\ Z.testbit n (len - 1) = true.
Proof.
  intros Hp Hl.
  destruct (euclid_bits pulses len) as (n & Hn & Hbits); [lia|lia|].
  exists n. split; [exact Hn|].
  rewrite Hbits by lia. unfold fires.
  replace (((len - 1) * pulses) mod len) with (len - pulses)
    by (apply Z.mod_unique with (q := pulses - 1); lia).
  zbool.
Qed.

Lemma euclid_last_bit_witness :
  exists n, euclid 5 16 = Ok n /\ Z.testbit n (16 - 1) = true.
Proof. apply (euclid_last_bit 5 16); lia. Defined.

(** The patterns that [initializePatchInEeprom] of version 1.0 stores with
    its first patch are the ones the generator computes for the stored
    pulse counts and pattern lengths. *)
Example initial_patterns_generated :
  V10.euclid V10.initialPatch TRIG_D = Ok 10532 /\
  V10.euclid V10.initialPatch TRIG_C = Ok 18724 /\
  V10.euclid V10.initialPatch TRIG_B = Ok 16912 /\
  V10.euclid V10.initialPatch TRIG_A = Ok 2340.
Proof. repeat split. Qed.

End GeneratorProperties.

(** ** Arrays *)

Section Arrays.
Context {A : Type}.

Lemma index_ok_spec (l : list A) n :
  index_ok l n = true <-> 0 <= n < Z.of_nat (length l).
Proof. unfold index_ok. rewrite andb_true_iff, Z.leb_le, Z.ltb_lt. done. Qed.

Lemma read_Ok (l : list A) n :
  0 <= n < Z.of_nat (length l) ->
  exists x, read l n = Ok x /\ l !! Z.to_nat n = Some x.
Proof.
  intros Hn. unfold read.
  rewrite (proj2 (index_ok_spec l n) Hn).
  destruct (lookup_lt_is_Some_2 l (Z.to_nat n)) as [x Hx]; [lia|].
  exists x. by rewrite Hx.
Qed.

Lemma read_lookup (l : list A) n x :
  read l n = Ok x -> l !! Z.to_nat n = Some x.
Proof.
  unfold read. destruct (index_ok l n); [|done].
  destruct (l !! Z.to_nat n); [|done]. by intros [= ->].
Qed.

Lemma write_Ok (l : list A) n x :
  0 <= n < Z.of_nat (length l) ->
  write l n x = Ok (<[Z.to_nat n := x]> l).
Proof.
  intros Hn. unfold write. by rewrite (proj2 (index_ok_spec l n) Hn).
Qed.

Lemma read_write (l : list A) n x :
  0 <= n < Z.of_nat (length l) ->
  read (<[Z.to_nat n := x]> l) n = Ok x.
Proof.
  intros Hn. unfold read.
  rewrite (proj2 (index_ok_spec _ n)) by (by rewrite length_insert).
  by rewrite list_lookup_insert_eq by lia.
Qed.

Lemma read_Forall (P : A -> Prop) (l : list A) n x :
  Forall P l -> read l n = Ok x -> P x.
Proof.
  intros Hl Hr. eapply Forall_lookup_1; [exact Hl|]. by apply read_lookup.
Qed.

Lemma write_Forall (P : A -> Prop) (l l' : list A) n x :
  Forall P l -> P x -> write l n x = Ok l' -> Forall P l'.
Proof.
  intros Hl Hx. unfold write. destruct (index_ok l n); [|done].
  intros [= <-]. by apply Forall_insert.
Qed.

End Arrays.

Lemma get_put {A} (a : arr4 A) c x : get (put a c x) c = x.
Proof. by destruct c. Qed.

Lemma get_put_ne {A} (a : arr4 A) c d x : c <> d -> get (put a c x) d = get a d.
Proof. by destruct c, d. Qed.

Lemma lengths_within_put lo hi len c x :
  lengths_within lo hi len -> lo <= x <= hi ->
  lengths_within lo hi (put len c x).
Proof.
  intros Hlen Hx d. specialize (Hlen d). by destruct c, d; simpl in *.
Qed.

(** [euclid] is defined for every pattern length up to 16, whatever the
    pulse count. *)
Lemma euclid_loop_defined pulses len steps :
  forall i bucket number,
  0 <= i -> i + Z.of_nat steps <= 16 ->
  is_Ok (Bits.euclid_loop steps pulses len i bucket number).
Proof.
  induction steps as [|steps IH]; intros i bucket number Hi Hsteps.
  - by eexists.
  - cbn [Bits.euclid_loop].
    destruct (Word16.int16 (bucket + pulses) >=? len).
    + rewrite shl_Ok by lia. simpl. apply IH; lia.
    + apply IH; lia.
Qed.

Lemma euclid_defined pulses len : len <= 16 -> is_Ok (Bits.euclid pulses len).
Proof. intros Hlen. apply euclid_loop_defined; lia. Qed.

(** ** Version 1.1: the editing blocks *)

Section V11Blocks.
Import Word16 V11.

(** The pattern-length edit is defined on a well-formed state, keeps the
    pattern lengths of the bank within 0..16, and moves the length of the
    selected channel by one step, stopping at 16 and at 0. *)
Lemma V11_length_edit_clamps inp s :
  wf s -> bank_lengths_within 0 16 s ->
  exists s' p p',
    length_edit inp s = Ok s' /\
    bank_lengths_within 0 16 s' /\
    read (patches s) (chosenPatchNumber s) = Ok p /\
    read (patches s') (chosenPatchNumber s) = Ok p' /\
    get (patternLength p') (selectedTriggerChannel s) =
      (if newPosition inp <? oldPosition s - 3
       then Z.min 16 (get (patternLength p) (selectedTriggerChannel s) + 1)
       else if newPosition inp >? oldPosition s + 3
       then Z.max 0 (get (patternLength p) (selectedTriggerChannel s) - 1)
       else get (patternLength p) (selectedTriggerChannel s)).
Proof.
  intros (Hlen & Hch & Hca) Hbank.
  unfold NR_OF_MEMORY_CELLS, NUM_NEOP_LEDS in *.
  destruct (read_Ok (patches s) (chosenPatchNumber s)) as (p & Hr & Hlk);
    [lia|].
  pose proof (Forall_lookup_1 _ _ _ _ Hbank Hlk) as Hp.
  pose proof (Hp (selectedTriggerChannel s)) as Hsel.
  unfold length_edit.
  destruct (Z.ltb_spec (newPosition inp) (oldPosition s - 3));
    [|destruct (Z.gtb_spec (newPosition inp) (oldPosition s + 3))].
  - rewrite Hr. cbn [mbind result_bind]. unfold euclid. cbn.
    rewrite !get_put.
    set (l := if _ >? NUM_NEOP_LEDS then _ else _).
    assert (l = Z.min 16 (get (patternLength p) (selectedTriggerChannel s) + 1))
      as Hl by (subst l; unfold NUM_NEOP_LEDS; zbool).
    destruct (euclid_defined (get (pulses p) (selectedTriggerChannel s)) l)
      as [n ->]; [lia|].
    cbn. rewrite write_Ok by lia. cbn.
    eexists _, p, _. split; [reflexivity|]. cbn.
    split; [|split; [done|split; [apply read_write; lia|]]].
    + apply Forall_insert; [done|]. cbn.
      apply lengths_within_put; [done|lia].
    + cbn. by rewrite get_put.
  - rewrite Hr. cbn [mbind result_bind]. unfold euclid. cbn.
    rewrite !get_put.
    set (l := if _ <? 0 then _ else _).
    assert (l = Z.max 0 (get (patternLength p) (selectedTriggerChannel s) - 1))
      as Hl by (subst l; zbool).
    destruct (euclid_defined (get (pulses p) (selectedTriggerChannel s)) l)
      as [n ->]; [lia|].
    cbn. rewrite write_Ok by lia. cbn.
    eexists _, p, _. split; [reflexivity|]. cbn.
    split; [|split; [done|split; [apply read_write; lia|]]].
    + apply Forall_insert; [done|]. cbn.
      apply lengths_within_put; [done|lia].
    + cbn. by rewrite get_put.
  - exists s, p, p. done.
Qed.


(** The tempo edit assigns [delayTime] and [oldPosition] only. *)
Lemma V11_tempo_edit_frame inp s :
  patches (tempo_edit inp s) = patches s /\
  memoryCellsInUse (tempo_edit inp s) = memoryCellsInUse s /\
  chosenPatchNumber (tempo_edit inp s) = chosenPatchNumber s /\
  candidatePatchNumber (tempo_edit inp s) = candidatePatchNumber s /\
  selectedTriggerChannel (tempo_edit inp s) = selectedTriggerChannel s /\
  step (tempo_edit inp s) = step s /\
  mode (tempo_edit inp s) = mode s /\
  eeprom (tempo_edit inp s) = eeprom s.
Proof.
  unfold tempo_edit.
  destruct (newPosition inp <? oldPosition s - 3);
    [|destruct (newPosition inp >? oldPosition s + 3)]; done.
Qed.

(** The tempo edit moves [delayTime] by one, stopping at 10 and at 500. *)
Lemma V11_tempo_edit_value inp s :
  10 <= delayTime s <= 500 ->
  delayTime (tempo_edit inp s) =
    (if newPosition inp <? oldPosition s - 3 then Z.max 10 (delayTime s - 1)
     else if newPosition inp >? oldPosition s + 3
     then Z.min 500 (delayTime s + 1)
     else delayTime s).
Proof.
  intros Hd. unfold tempo_edit, MAX_DELAY_TIME, wrap, modulus, width.
  destruct (newPosition inp <? oldPosition s - 3);
    [|destruct (newPosition inp >? oldPosition s + 3)]; cbn.
  - rewrite Z.mod_small by lia. zbool.
  - rewrite Z.mod_small by lia. zbool.
  - done.
Qed.

(** The parameter edits and the program buttons do not assign
    [delayTime]. *)
Lemma V11_edits_delayTime inp s s' :
  length_edit inp s = Ok s' \/ pulses_edit inp s = Ok s' \/
  rotate_edit inp s = Ok s' \/ recall s = Ok s' \/ clear s = Ok s' \/
  store s = Ok s' ->
  delayTime s' = delayTime s.
Proof.
  unfold length_edit, pulses_edit, rotate_edit, recall, clear, store.
  intros [H|[H|[H|[H|[H|H]]]]]; invert_Ok; done.
Qed.

Lemma V11_candidate_edit_delayTime inp s :
  delayTime (candidate_edit inp s) = delayTime s.
Proof.
  unfold candidate_edit.
  destruct (newPosition inp >? oldPosition s + 3);
    [|destruct (newPosition inp <? oldPosition s - 3)]; done.
Qed.

(** No case of the [switch] other than the tempo edit assigns
    [delayTime]. *)
Lemma V11_mode_switch_delayTime flag inp s s' :
  mode_switch flag inp s = Ok s' ->
  delayTime s' = delayTime s \/ delayTime s' = delayTime (tempo_edit inp s).
Proof.
  unfold mode_switch. intros H.
  repeat match type of H with
    | (if ?b then _ else _) = _ => destruct b
    end;
    try (injection H as <-; auto; fail);
    try (left; eapply (V11_edits_delayTime inp); eauto; fail).
  rewrite <- (V11_candidate_edit_delayTime inp s).
  destruct (button inp) as [[]|];
    try (injection H as <-; auto; fail);
    left; eapply (V11_edits_delayTime inp); eauto 10.
Qed.

(** The clock block with the internal clock selected, and the step
    counters, leave [delayTime] alone. *)
Lemma V11_pass_delayTime flag inp s s' :
  clkPin inp = false ->
  pass flag inp s = Ok s' ->
  delayTime s' = delayTime s \/ delayTime s' = delayTime (tempo_edit inp s).
Proof.
  intros Hclk. unfold pass, clock, trigger. rewrite Hclk. intros H.
  destruct (mode_switch flag inp (program_buttons inp s)) as [s1|] eqn:E;
    [|discriminate H].
  cbn [mbind result_bind] in H.
  assert (delayTime s' = delayTime s1) as ->.
  { destruct (elapsed (thisTime inp) (prevTime s1) >? delayTime s1);
      invert_Ok; done. }
  apply V11_mode_switch_delayTime in E.
  assert (delayTime (program_buttons inp s) = delayTime s) as Hd.
  { unfold program_buttons. destruct (mode s =? PROGRAM_MODE); [|done].
    by destruct (button inp). }
  assert (delayTime (tempo_edit inp (program_buttons inp s))
          = delayTime (tempo_edit inp s)) as Ht.
  { unfold program_buttons. destruct (mode s =? PROGRAM_MODE); [|done].
    destruct (button inp); [done|]. unfold tempo_edit. cbn.
    destruct (newPosition inp <? oldPosition s - 3); [done|].
    by destruct (newPosition inp >? oldPosition s + 3). }
  rewrite Hd, Ht in E. exact E.
Qed.

(** *** The pattern lengths along a run *)

(** The parameter edits and the program buttons keep every pattern
    length of the bank within 0..16. *)
Lemma V11_edits_lengths inp s s' :
  bank_lengths_within 0 16 s ->
  length_edit inp s = Ok s' \/ pulses_edit inp s = Ok s' \/
  rotate_edit inp s = Ok s' \/ recall s = Ok s' \/ clear s = Ok s' \/
  store s = Ok s' ->
  bank_lengths_within 0 16 s'.
Proof.
  unfold bank_lengths_within.
  unfold length_edit, pulses_edit, rotate_edit, recall, clear, store, copyPatch.
  intros Hbank [H|[H|[H|[H|[H|H]]]]]; invert_Ok; cbn in *;
    try exact Hbank;
    (eapply write_Forall; [exact Hbank| |eassumption]); cbn;
    try (intros []; cbn; unfold DEFAULT_PATTERN_LENGTH; lia);
    match goal with
    | Hr : read _ _ = Ok ?a |- _ =>
        pose proof (read_Forall
                      (fun p => lengths_within 0 16 (patternLength p))
                      _ _ _ Hbank Hr) as Hp; cbn in Hp
    end;
    try exact Hp.
  all: apply lengths_within_put; [exact Hp|].
  all: match goal with
       | |- context [get ?l ?c] => pose proof (Hp c)
       end; unfold NUM_NEOP_LEDS; zbool.
Qed.

Lemma V11_mode_switch_lengths flag inp s s' :
  bank_lengths_within 0 16 s ->
  mode_switch flag inp s = Ok s' ->
  bank_lengths_within 0 16 s'.
Proof.
  intros Hbank. unfold mode_switch. intros H.
  assert (bank_lengths_within 0 16 (tempo_edit inp s)) as Htempo.
  { unfold bank_lengths_within.
    by destruct (V11_tempo_edit_frame inp s) as (-> & _). }
  assert (bank_lengths_within 0 16 (candidate_edit inp s)) as Hcand.
  { unfold bank_lengths_within, candidate_edit.
    destruct (newPosition inp >? oldPosition s + 3);
      [|destruct (newPosition inp <? oldPosition s - 3)]; exact Hbank. }
  repeat match type of H with
    | (if ?b then _ else _) = _ => destruct b
    end;
    try (injection H as <-; done);
    try (eapply (V11_edits_lengths inp); [exact Hbank|]; eauto; fail).
  destruct (button inp) as [[]|];
    try (injection H as <-; done);
    (eapply (V11_edits_lengths inp); [exact Hcand|]; eauto 10).
Qed.

Lemma V11_pass_lengths flag inp s s' :
  bank_lengths_within 0 16 s ->
  pass flag inp s = Ok s' ->
  bank_lengths_within 0 16 s'.
Proof.
  intros Hbank. unfold pass. intros H.
  destruct (mode_switch flag inp (program_buttons inp s)) as [s1|] eqn:E;
    [|discriminate H].
  cbn [mbind result_bind] in H.
  apply V11_mode_switch_lengths in E.
  - unfold bank_lengths_within, clock, trigger in *.
    destruct (clkPin inp);
      [destruct ((extClkV inp >? 512) && (prevExtClk s1 <? 300))|
       destruct (elapsed (thisTime inp) (prevTime s1) >? delayTime s1)];
      invert_Ok; exact E.
  - unfold bank_lengths_within, program_buttons.
    destruct (mode s =? PROGRAM_MODE); [|exact Hbank].
    destruct (button inp); exact Hbank.
Qed.

Lemma V11_run_lengths flag inps :
  forall s s',
  bank_lengths_within 0 16 s ->
  run flag inps s = Ok s' ->
  bank_lengths_within 0 16 s'.
Proof.
  induction inps as [|inp inps IH]; intros s s' Hbank H; cbn in H.
  - by injection H as <-.
  - destruct (pass flag inp s) as [s1|] eqn:E; [|discriminate H].
    cbn in H. eapply IH; [|exact H]. by eapply V11_pass_lengths.
Qed.

(** *** The program buttons *)

(** Clearing bit [k] of the occupancy word. *)
Lemma testbit_clear_bit mem k :
  0 <= k < 16 ->
  Z.testbit (Z.land mem (lnot (wrap (Z.shiftl 1 k)))) k = false.
Proof.
  intros Hk. rewrite Z.land_spec, testbit_lnot, testbit_bit by lia.
  rewrite Z.eqb_refl. simpl. by rewrite !andb_false_r.
Qed.

Lemma land_bit_zero mem k :
  0 <= k < 16 -> Z.testbit mem k = false ->
  Z.land mem (wrap (Z.shiftl 1 k)) = 0.
Proof.
  intros Hk Hbit. apply Z.bits_inj'. intros i Hi.
  rewrite Z.land_spec, testbit_bit, Z.testbit_0_l by lia.
  destruct (Z.eqb_spec i k) as [->|]; [by rewrite Hbit|by rewrite andb_false_r].
Qed.

(** After the [switch], the clock block and the step counters leave the
    bank, the occupancy word and the patch numbers alone. *)
Lemma V11_pass_after_switch flag inp s s1 :
  mode_switch flag inp (program_buttons inp s) = Ok s1 ->
  wf s1 ->
  exists s2, pass flag inp s = Ok s2 /\ same_program_state s1 s2.
Proof.
  intros Hswitch (Hlen & Hch & Hca). unfold NR_OF_MEMORY_CELLS, NUM_NEOP_LEDS in *.
  unfold pass. rewrite Hswitch. cbn [mbind result_bind].
  unfold clock, trigger.
  destruct (read_Ok (patches s1) (chosenPatchNumber s1)) as (p & Hr & _);
    [lia|].
  destruct (clkPin inp);
    [destruct ((extClkV inp >? 512) && (prevExtClk s1 <? 300))|
     destruct (elapsed (thisTime inp) (prevTime s1) >? delayTime s1)];
    cbn; rewrite ?Hr; cbn; eexists; (split; [reflexivity|done]).
Qed.

(** A pass in [PROGRAM_MODE] with no button pressed and no detent
    re-arms the program buttons. *)
Lemma V11_idle_pass flag inp s :
  wf s -> mode s = PROGRAM_MODE -> button inp = None ->
  no_detent (oldPosition s) inp ->
  exists s', pass flag inp s = Ok s' /\
    same_program_state (with_prevProgramButtonValue 0 s) s'.
Proof.
  intros Hwf Hmode Hbutton [Hlo Hhi].
  apply V11_pass_after_switch; [|exact Hwf].
  unfold mode_switch, program_buttons, candidate_edit.
  rewrite Hmode, Hbutton. cbn. rewrite ?Hmode. cbn.
  destruct (Z.gtb_spec (newPosition inp) (oldPosition s + 3)); [lia|].
  destruct (Z.ltb_spec (newPosition inp) (oldPosition s - 3)); [lia|].
  by destruct flag.
Qed.

(** A fresh press of button B clears the occupancy bit of the candidate
    cell and leaves the bank in memory as it is. *)
Lemma V11_clear_pass flag inp s :
  wf s -> mode s = PROGRAM_MODE -> button inp = Some TRIG_B ->
  no_detent (oldPosition s) inp -> prevProgramButtonValue s = 0 ->
  exists s', pass flag inp s = Ok s' /\
    same_program_state
      (with_prevProgramButtonValue 1
         (with_memoryCellsInUse
            (Z.land (memoryCellsInUse s)
               (lnot (wrap (Z.shiftl 1 (candidatePatchNumber s))))) s)) s'.
Proof.
  intros Hwf Hmode Hbutton [Hlo Hhi] Hprev.
  pose proof Hwf as (Hlen & Hch & Hca).
  unfold NR_OF_MEMORY_CELLS, NUM_NEOP_LEDS in *.
  destruct (V11_pass_after_switch flag inp s
    (with_eeprom
       (writePatchToMemory emptyPatch
          (Z.land (memoryCellsInUse s)
             (lnot (wrap (Z.shiftl 1 (candidatePatchNumber s)))))
          (candidatePatchNumber s) (delayTime s) (selectedTriggerChannel s)
          (eeprom s))
       (with_prevProgramButtonValue 1
          (with_memoryCellsInUse
             (Z.land (memoryCellsInUse s)
                (lnot (wrap (Z.shiftl 1 (candidatePatchNumber s))))) s))))
    as (s' & Hpass & Hsame); [|exact Hwf|by exists s'].
  unfold mode_switch, program_buttons, candidate_edit.
  rewrite Hmode, Hbutton. cbn. rewrite ?Hmode. cbn.
  destruct (Z.gtb_spec (newPosition inp) (oldPosition s + 3)); [lia|].
  destruct (Z.ltb_spec (newPosition inp) (oldPosition s - 3)); [lia|].
  unfold clear. rewrite Hprev. cbn. rewrite shl_Ok by lia.
  by destruct flag.
Qed.

(** A fresh press of button A on a cell whose occupancy bit is clear
    chooses that cell and fills it with the empty patch. *)
Lemma V11_recall_pass flag inp s :
  wf s -> mode s = PROGRAM_MODE -> button inp = Some TRIG_A ->
  no_detent (oldPosition s) inp -> prevProgramButtonValue s = 0 ->
  Z.testbit (memoryCellsInUse s) (candidatePatchNumber s) = false ->
  exists s', pass flag inp s = Ok s' /\
    memoryCellsInUse s' = memoryCellsInUse s /\
    chosenPatchNumber s' = candidatePatchNumber s /\
    read (patches s') (chosenPatchNumber s') = Ok emptyPatch.
Proof.
  intros Hwf Hmode Hbutton [Hlo Hhi] Hprev Hbit.
  pose proof Hwf as (Hlen & Hch & Hca).
  unfold NR_OF_MEMORY_CELLS, NUM_NEOP_LEDS in *.
  destruct (read_Ok (patches s) (candidatePatchNumber s)) as (p & Hr & _);
    [lia|].
  assert (exists s1,
    mode_switch flag inp (program_buttons inp s) = Ok s1 /\
    patches s1 = <[Z.to_nat (candidatePatchNumber s) := emptyPatch]> (patches s) /\
    memoryCellsInUse s1 = memoryCellsInUse s /\
    chosenPatchNumber s1 = candidatePatchNumber s /\
    candidatePatchNumber s1 = candidatePatchNumber s) as (s1 & Hswitch & Hs1).
  { unfold mode_switch, program_buttons, candidate_edit.
    rewrite Hmode, Hbutton. cbn. rewrite ?Hmode. cbn.
    destruct (Z.gtb_spec (newPosition inp) (oldPosition s + 3)); [lia|].
    destruct (Z.ltb_spec (newPosition inp) (oldPosition s - 3)); [lia|].
    unfold recall. rewrite Hprev. cbn. rewrite shl_Ok by lia. cbn.
    rewrite land_bit_zero by (done || lia). cbn.
    rewrite Hr. cbn. rewrite write_Ok by lia. cbn.
    destruct flag; eexists; (split; [reflexivity|done]). }
  destruct Hs1 as (Hpatches & Hmem & Hchosen & Hcand).
  destruct (V11_pass_after_switch flag inp s s1 Hswitch)
    as (s' & Hpass & Hp' & Hm' & Hc' & _).
  { unfold wf, NR_OF_MEMORY_CELLS, NUM_NEOP_LEDS.
    rewrite Hpatches, length_insert, Hchosen, Hcand. lia. }
  exists s'. split; [exact Hpass|].
  rewrite Hm', Hc', Hp', Hmem, Hchosen, Hpatches.
  split; [done|]. split; [done|]. apply read_write. lia.
Qed.

End V11Blocks.

(** ** Version 1.0: the editing blocks *)

Section V10Blocks.
Import Word16 V10.

(** The pattern-length edit is defined, keeps the pattern lengths of the
    current patch within 0..16, and moves the length of the selected
    channel by one step, stopping at 16 and at 0. *)
Lemma V10_length_edit_clamps inp s :
  lengths_within 0 16 (patternLength (currentPatch s)) ->
  exists s',
    length_edit inp s = Ok s' /\
    lengths_within 0 16 (patternLength (currentPatch s')) /\
    patches s' = patches s /\
    get (patternLength (currentPatch s')) (selectedTriggerChannel s) =
      (if newPosition inp <? oldPosition s - 3
       then Z.min 16 (get (patternLength (currentPatch s))
                        (selectedTriggerChannel s) + 1)
       else if newPosition inp >? oldPosition s + 3
       then Z.max 0 (get (patternLength (currentPatch s))
                       (selectedTriggerChannel s) - 1)
       else get (patternLength (currentPatch s)) (selectedTriggerChannel s)).
Proof.
  intros Hp. pose proof (Hp (selectedTriggerChannel s)) as Hsel.
  unfold length_edit.
  destruct (Z.ltb_spec (newPosition inp) (oldPosition s - 3));
    [|destruct (Z.gtb_spec (newPosition inp) (oldPosition s + 3))].
  - unfold euclid. cbn. rewrite !get_put.
    set (l := if _ >? NUM_NEOP_LEDS then _ else _).
    assert (l = Z.min 16 (get (patternLength (currentPatch s))
                            (selectedTriggerChannel s) + 1))
      as Hl by (subst l; unfold NUM_NEOP_LEDS; zbool).
    destruct (euclid_defined
                (get (pulses (currentPatch s)) (selectedTriggerChannel s)) l)
      as [n ->]; [lia|].
    cbn. eexists. split; [reflexivity|]. cbn.
    split; [apply lengths_within_put; [done|lia]|].
    split; [done|]. by rewrite get_put.
  - unfold euclid. cbn. rewrite !get_put.
    set (l := if _ <? 0 then _ else _).
    assert (l = Z.max 0 (get (patternLength (currentPatch s))
                           (selectedTriggerChannel s) - 1))
      as Hl by (subst l; zbool).
    destruct (euclid_defined
                (get (pulses (currentPatch s)) (selectedTriggerChannel s)) l)
      as [n ->]; [lia|].
    cbn. eexists. split; [reflexivity|]. cbn.
    split; [apply lengths_within_put; [done|lia]|].
    split; [done|]. by rewrite get_put.
  - exists s. done.
Qed.


Lemma V10_tempo_edit_frame inp s :
  currentPatch (tempo_edit inp s) = currentPatch s /\
  patches (tempo_edit inp s) = patches s /\
  memoryCellsInUse (tempo_edit inp s) = memoryCellsInUse s /\
  chosenPatchNumber (tempo_edit inp s) = chosenPatchNumber s /\
  candidatePatchNumber (tempo_edit inp s) = candidatePatchNumber s /\
  selectedTriggerChannel (tempo_edit inp s) = selectedTriggerChannel s /\
  step (tempo_edit inp s) = step s /\
  mode (tempo_edit inp s) = mode s /\
  eeprom (tempo_edit inp s) = eeprom s.
Proof.
  unfold tempo_edit.
  destruct (newPosition inp <? oldPosition s - 3);
    [|destruct (newPosition inp >? oldPosition s + 3)]; done.
Qed.

Lemma V10_tempo_edit_value inp s :
  10 <= delayTime s <= 500 ->
  delayTime (tempo_edit inp s) =
    (if newPosition inp <? oldPosition s - 3 then Z.max 10 (delayTime s - 1)
     else if newPosition inp >? oldPosition s + 3
     then Z.min 500 (delayTime s + 1)
     else delayTime s).
Proof.
  intros Hd. unfold tempo_edit, MAX_DELAY_TIME, wrap, modulus, width.
  destruct (newPosition inp <? oldPosition s - 3);
    [|destruct (newPosition inp >? oldPosition s + 3)]; cbn.
  - rewrite Z.mod_small by lia. zbool.
  - rewrite Z.mod_small by lia. zbool.
  - done.
Qed.

Lemma V10_edits_delayTime inp s s' :
  length_edit inp s = Ok s' \/ pulses_edit inp s = Ok s' \/
  rotate_edit inp s = Ok s' \/ recall s = Ok s' \/ clear s = Ok s' \/
  store s = Ok s' ->
  delayTime s' = delayTime s.
Proof.
  unfold length_edit, pulses_edit, rotate_edit, recall, clear, store.
  intros [H|[H|[H|[H|[H|H]]]]]; invert_Ok; done.
Qed.

Lemma V10_candidate_edit_delayTime inp s :
  delayTime (candidate_edit inp s) = delayTime s.
Proof.
  unfold candidate_edit.
  destruct (newPosition inp >? oldPosition s + 3);
    [|destruct (newPosition inp <? oldPosition s - 3)]; done.
Qed.

Lemma V10_mode_switch_delayTime inp s s' :
  mode_switch inp s = Ok s' ->
  delayTime s' = delayTime s \/ delayTime s' = delayTime (tempo_edit inp s).
Proof.
  unfold mode_switch. intros H.
  repeat match type of H with
    | (if ?b then _ else _) = _ => destruct b
    end;
    try (injection H as <-; auto; fail);
    try (left; eapply (V10_edits_delayTime inp); eauto; fail).
  rewrite <- (V10_candidate_edit_delayTime inp s).
  destruct (button inp) as [[]|];
    try (injection H as <-; auto; fail);
    left; eapply (V10_edits_delayTime inp); eauto 10.
Qed.

Lemma V10_pass_delayTime inp s s' :
  clkPin inp = false ->
  pass inp s = Ok s' ->
  delayTime s' = delayTime s \/ delayTime s' = delayTime (tempo_edit inp s).
Proof.
  intros Hclk. unfold pass, clock, trigger. rewrite Hclk. intros H.
  destruct (mode_switch inp (program_buttons inp s)) as [s1|] eqn:E;
    [|discriminate H].
  cbn [mbind result_bind] in H.
  assert (delayTime s' = delayTime s1) as ->.
  { destruct (elapsed (thisTime inp) (prevTime s1) >? delayTime s1);
      invert_Ok; done. }
  apply V10_mode_switch_delayTime in E.
  assert (delayTime (program_buttons inp s) = delayTime s) as Hd.
  { unfold program_buttons. destruct (mode s =? PROGRAM_MODE); [|done].
    by destruct (button inp) as [[]|]. }
  assert (delayTime (tempo_edit inp (program_buttons inp s))
          = delayTime (tempo_edit inp s)) as Ht.
  { unfold program_buttons, tempo_edit.
    destruct (mode s =? PROGRAM_MODE); [|done].
    destruct (button inp) as [[]|]; cbn;
      (destruct (newPosition inp <? oldPosition s - 3); [done|]);
      by destruct (newPosition inp >? oldPosition s + 3). }
  rewrite Hd, Ht in E. exact E.
Qed.

(** *** The pattern lengths along a run *)

(** The parameter edits and the program buttons keep every pattern
    length of the current patch and of the bank within 0..16. *)
Lemma V10_edits_lengths inp s s' :
  all_lengths_within 0 16 s ->
  length_edit inp s = Ok s' \/ pulses_edit inp s = Ok s' \/
  rotate_edit inp s = Ok s' \/ recall s = Ok s' \/ clear s = Ok s' \/
  store s = Ok s' ->
  all_lengths_within 0 16 s'.
Proof.
  unfold all_lengths_within.
  unfold length_edit, pulses_edit, rotate_edit, rotateLeft, rotateRight,
    recall, clear, store.
  intros [Hcur Hbank] [H|[H|[H|[H|[H|H]]]]]; invert_Ok; cbn in *;
    try (split; [exact Hcur|exact Hbank]);
    (split; [|try exact Hbank]).
  - pose proof (Hcur (selectedTriggerChannel s)).
    apply lengths_within_put; [exact Hcur|]. unfold NUM_NEOP_LEDS. zbool.
  - pose proof (Hcur (selectedTriggerChannel s)).
    apply lengths_within_put; [exact Hcur|]. zbool.
  - match goal with
    | Hr : read _ _ = Ok ?a |- _ =>
        pose proof (read_Forall
                      (fun p => lengths_within 0 16 (patternLength p))
                      _ _ _ Hbank Hr) as Hp; cbn in Hp
    end.
    intros c. specialize (Hp c). by destruct c.
  - exact Hcur.
  - eapply write_Forall; [exact Hbank| |eassumption]. intros []; cbn; lia.
  - exact Hcur.
  - eapply write_Forall; [exact Hbank| |eassumption].
    intros c. specialize (Hcur c). by destruct c.
Qed.

Lemma V10_mode_switch_lengths inp s s' :
  all_lengths_within 0 16 s ->
  mode_switch inp s = Ok s' ->
  all_lengths_within 0 16 s'.
Proof.
  intros Hall. unfold mode_switch. intros H.
  assert (all_lengths_within 0 16 (tempo_edit inp s)) as Htempo.
  { unfold all_lengths_within.
    by destruct (V10_tempo_edit_frame inp s) as (-> & -> & _). }
  assert (all_lengths_within 0 16 (candidate_edit inp s)) as Hcand.
  { unfold all_lengths_within, candidate_edit.
    destruct (newPosition inp >? oldPosition s + 3);
      [|destruct (newPosition inp <? oldPosition s - 3)]; exact Hall. }
  repeat match type of H with
    | (if ?b then _ else _) = _ => destruct b
    end;
    try (injection H as <-; done);
    try (eapply (V10_edits_lengths inp); [exact Hall|]; eauto; fail).
  destruct (button inp) as [[]|];
    try (injection H as <-; done);
    (eapply (V10_edits_lengths inp); [exact Hcand|]; eauto 10).
Qed.

Lemma V10_pass_lengths inp s s' :
  all_lengths_within 0 16 s ->
  pass inp s = Ok s' ->
  all_lengths_within 0 16 s'.
Proof.
  intros Hall. unfold pass. intros H.
  destruct (mode_switch inp (program_buttons inp s)) as [s1|] eqn:E;
    [|discriminate H].
  cbn [mbind result_bind] in H.
  apply V10_mode_switch_lengths in E.
  - unfold all_lengths_within, clock, trigger in *.
    destruct (clkPin inp);
      [destruct ((extClkV inp >? 512) && (prevExtClk s1 <? 128))|
       destruct (elapsed (thisTime inp) (prevTime s1) >? delayTime s1)];
      invert_Ok; exact E.
  - unfold all_lengths_within, program_buttons.
    destruct (mode s =? PROGRAM_MODE); [|exact Hall].
    destruct (button inp) as [[]|]; exact Hall.
Qed.

Lemma V10_run_lengths inps :
  forall s s',
  all_lengths_within 0 16 s ->
  run inps s = Ok s' ->
  all_lengths_within 0 16 s'.
Proof.
  induction inps as [|inp inps IH]; intros s s' Hall H; cbn in H.
  - by injection H as <-.
  - destruct (pass inp s) as [s1|] eqn:E; [|discriminate H].
    cbn in H. eapply IH; [|exact H]. by eapply V10_pass_lengths.
Qed.

(** *** The program buttons *)

Lemma V10_pass_after_switch inp s s1 :
  mode_switch inp (program_buttons inp s) = Ok s1 ->
  exists s2, pass inp s = Ok s2 /\ same_program_state s1 s2.
Proof.
  intros Hswitch. unfold pass. rewrite Hswitch. cbn [mbind result_bind].
  unfold clock, trigger.
  destruct (clkPin inp);
    [destruct ((extClkV inp >? 512) && (prevExtClk s1 <? 128))|
     destruct (elapsed (thisTime inp) (prevTime s1) >? delayTime s1)];
    cbn; eexists; (split; [reflexivity|done]).
Qed.

Lemma V10_idle_pass inp s :
  mode s = PROGRAM_MODE -> button inp = None ->
  no_detent (oldPosition s) inp ->
  exists s', pass inp s = Ok s' /\
    same_program_state (with_prevProgramButtonValue 0 s) s'.
Proof.
  intros Hmode Hbutton [Hlo Hhi].
  apply V10_pass_after_switch.
  unfold mode_switch, program_buttons, candidate_edit.
  rewrite Hmode, Hbutton. cbn. rewrite ?Hmode. cbn.
  destruct (Z.gtb_spec (newPosition inp) (oldPosition s + 3)); [lia|].
  destruct (Z.ltb_spec (newPosition inp) (oldPosition s - 3)); [lia|].
  done.
Qed.

(** A fresh press of button B clears the occupancy bit of the candidate
    cell and overwrites the cell with this variant's empty patch. *)
Lemma V10_clear_pass inp s :
  wf s -> mode s = PROGRAM_MODE -> button inp = Some TRIG_B ->
  no_detent (oldPosition s) inp -> prevProgramButtonValue s = 0 ->
  exists s', pass inp s = Ok s' /\
    same_program_state
      (with_prevProgramButtonValue 1
         (with_patches
            (<[Z.to_nat (candidatePatchNumber s) := emptyPatch]> (patches s))
            (with_memoryCellsInUse
               (Z.land (memoryCellsInUse s)
                  (lnot (wrap (Z.shiftl 1 (candidatePatchNumber s))))) s)))
      s'.
Proof.
  intros (Hlen & Hch & Hca) Hmode Hbutton [Hlo Hhi] Hprev.
  unfold NR_OF_MEMORY_CELLS, NUM_NEOP_LEDS in *.
  destruct (read_Ok (patches s) (candidatePatchNumber s)) as (p & Hr & _);
    [lia|].
  assert (exists s1,
    mode_switch inp (program_buttons inp s) = Ok s1 /\
    same_program_state
      (with_prevProgramButtonValue 1
         (with_patches
            (<[Z.to_nat (candidatePatchNumber s) := emptyPatch]> (patches s))
            (with_memoryCellsInUse
               (Z.land (memoryCellsInUse s)
                  (lnot (wrap (Z.shiftl 1 (candidatePatchNumber s))))) s)))
      s1) as (s1 & Hswitch & Hs1).
  { unfold mode_switch, program_buttons, candidate_edit.
    rewrite Hmode, Hbutton. cbn. rewrite ?Hmode. cbn.
    destruct (Z.gtb_spec (newPosition inp) (oldPosition s + 3)); [lia|].
    destruct (Z.ltb_spec (newPosition inp) (oldPosition s - 3)); [lia|].
    unfold clear. rewrite Hprev. cbn. rewrite shl_Ok by lia. cbn.
    rewrite Hr. cbn. rewrite write_Ok by lia. cbn.
    eexists; (split; [reflexivity|done]). }
  destruct (V10_pass_after_switch inp s s1 Hswitch) as (s' & Hpass & Hsame).
  exists s'. split; [exact Hpass|].
  destruct Hs1 as (? & ? & ? & ? & ? & ? & ? & ?).
  destruct Hsame as (? & ? & ? & ? & ? & ? & ? & ?).
  repeat split; congruence.
Qed.

(** A fresh press of button A copies the candidate cell of the bank into
    the current patch. *)
Lemma V10_recall_pass inp s p :
  wf s -> mode s = PROGRAM_MODE -> button inp = Some TRIG_A ->
  no_detent (oldPosition s) inp -> prevProgramButtonValue s = 0 ->
  read (patches s) (candidatePatchNumber s) = Ok p ->
  exists s', pass inp s = Ok s' /\
    memoryCellsInUse s' = memoryCellsInUse s /\
    chosenPatchNumber s' = candidatePatchNumber s /\
    currentPatch s' = copyPatch p (currentPatch s).
Proof.
  intros (Hlen & Hch & Hca) Hmode Hbutton [Hlo Hhi] Hprev Hr.
  assert (exists s1,
    mode_switch inp (program_buttons inp s) = Ok s1 /\
    memoryCellsInUse s1 = memoryCellsInUse s /\
    chosenPatchNumber s1 = candidatePatchNumber s /\
    currentPatch s1 = copyPatch p (currentPatch s)) as (s1 & Hswitch & Hs1).
  { unfold mode_switch, program_buttons, candidate_edit.
    rewrite Hmode, Hbutton. cbn. rewrite ?Hmode. cbn.
    destruct (Z.gtb_spec (newPosition inp) (oldPosition s + 3)); [lia|].
    destruct (Z.ltb_spec (newPosition inp) (oldPosition s - 3)); [lia|].
    unfold recall. rewrite Hprev. cbn. rewrite Hr. cbn.
    eexists; (split; [reflexivity|done]). }
  destruct (V10_pass_after_switch inp s s1 Hswitch)
    as (s' & Hpass & Hcur & _ & Hm & Hc & _).
  exists s'. split; [exact Hpass|].
  destruct Hs1 as (Hm1 & Hc1 & Hcur1). by rewrite Hm, Hc, Hcur.
Qed.

End V10Blocks.

(** ** The editing state machine of both versions *)

Lemma V11_same_wf a b : V11.same_program_state a b -> V11.wf a -> V11.wf b.
Proof.
  intros (Hp & _ & Hc & Hca & _). unfold V11.wf. by rewrite Hp, Hc, Hca.
Qed.

Lemma V10_same_wf a b : V10.same_program_state a b -> V10.wf a -> V10.wf b.
Proof.
  intros (_ & Hp & _ & Hc & Hca & _). unfold V10.wf. by rewrite Hp, Hc, Hca.
Qed.

(** Clear, then recall, in version 1.1. *)
Lemma V11_clear_then_recall flag s i1 i2 i3 i4 :
  V11.wf s -> V11.mode s = PROGRAM_MODE ->
  button i1 = None -> button i2 = Some TRIG_B ->
  button i3 = None -> button i4 = Some TRIG_A ->
  no_detent (V11.oldPosition s) i1 -> no_detent (V11.oldPosition s) i2 ->
  no_detent (V11.oldPosition s) i3 -> no_detent (V11.oldPosition s) i4 ->
  exists s',
    V11.run flag [i1; i2; i3; i4] s = Ok s' /\
    Z.testbit (V11.memoryCellsInUse s') (V11.candidatePatchNumber s) = false /\
    V11.chosenPatchNumber s' = V11.candidatePatchNumber s /\
    read (V11.patches s') (V11.chosenPatchNumber s') = Ok V11.emptyPatch.
Proof.
  intros Hwf Hmode Hb1 Hb2 Hb3 Hb4 Hd1 Hd2 Hd3 Hd4.
  destruct (V11_idle_pass flag i1 s) as (s1 & Hp1 & Hs1); [done..|].
  pose proof (V11_same_wf _ _ Hs1 Hwf) as Hwf1.
  destruct Hs1 as (P1 & M1 & C1 & K1 & O1 & Q1 & R1). cbn in *.
  destruct (V11_clear_pass flag i2 s1) as (s2 & Hp2 & Hs2);
    [done|congruence|done|by rewrite Q1|done|].
  pose proof (V11_same_wf _ _ Hs2 Hwf1) as Hwf2.
  destruct Hs2 as (P2 & M2 & C2 & K2 & O2 & Q2 & R2). cbn in *.
  destruct (V11_idle_pass flag i3 s2) as (s3 & Hp3 & Hs3);
    [done|congruence|done|by rewrite Q2, Q1|].
  pose proof (V11_same_wf _ _ Hs3 Hwf2) as Hwf3.
  destruct Hs3 as (P3 & M3 & C3 & K3 & O3 & Q3 & R3). cbn in *.
  assert (0 <= V11.candidatePatchNumber s < 16) as Hk
    by (destruct Hwf as (_ & _ & Hk); exact Hk).
  assert (Z.testbit (V11.memoryCellsInUse s3) (V11.candidatePatchNumber s)
          = false) as Hbit.
  { rewrite M3, M2, K1. by apply testbit_clear_bit. }
  destruct (V11_recall_pass flag i4 s3) as (s4 & Hp4 & M4 & C4 & Hr4);
    [done|congruence|done|by rewrite Q3, Q2, Q1|done|by rewrite K3, K2, K1|].
  exists s4. cbn [V11.run]. rewrite Hp1. cbn. rewrite Hp2. cbn.
  rewrite Hp3. cbn. rewrite Hp4. cbn.
  split; [done|]. split; [by rewrite M4|].
  split; [by rewrite C4, K3, K2, K1|exact Hr4].
Qed.

(** Clear, then recall, in version 1.0. *)
Lemma V10_clear_then_recall s i1 i2 i3 i4 :
  V10.wf s -> V10.mode s = PROGRAM_MODE ->
  button i1 = None -> button i2 = Some TRIG_B ->
  button i3 = None -> button i4 = Some TRIG_A ->
  no_detent (V10.oldPosition s) i1 -> no_detent (V10.oldPosition s) i2 ->
  no_detent (V10.oldPosition s) i3 -> no_detent (V10.oldPosition s) i4 ->
  exists s',
    V10.run [i1; i2; i3; i4] s = Ok s' /\
    Z.testbit (V10.memoryCellsInUse s') (V10.candidatePatchNumber s) = false /\
    V10.chosenPatchNumber s' = V10.candidatePatchNumber s /\
    V10.currentPatch s' = V10.emptyPatch.
Proof.
  intros Hwf Hmode Hb1 Hb2 Hb3 Hb4 Hd1 Hd2 Hd3 Hd4.
  destruct (V10_idle_pass i1 s) as (s1 & Hp1 & Hs1); [done..|].
  pose proof (V10_same_wf _ _ Hs1 Hwf) as Hwf1.
  destruct Hs1 as (U1 & P1 & M1 & C1 & K1 & O1 & Q1 & R1). cbn in *.
  destruct (V10_clear_pass i2 s1) as (s2 & Hp2 & Hs2);
    [done|congruence|done|by rewrite Q1|done|].
  assert (0 <= V10.candidatePatchNumber s < 16) as Hk
    by (destruct Hwf as (_ & _ & Hk); exact Hk).
  assert (length (V10.patches s) = 16%nat) as Hlen
    by (destruct Hwf as (Hlen & _); exact Hlen).
  destruct Hs2 as (U2 & P2 & M2 & C2 & K2 & O2 & Q2 & R2). cbn in *.
  assert (V10.wf s2) as Hwf2.
  { destruct Hwf1 as (? & ? & ?).
    unfold V10.wf. rewrite P2, C2, K2, length_insert. done. }
  destruct (V10_idle_pass i3 s2) as (s3 & Hp3 & Hs3);
    [congruence|done|by rewrite Q2, Q1|].
  pose proof (V10_same_wf _ _ Hs3 Hwf2) as Hwf3.
  destruct Hs3 as (U3 & P3 & M3 & C3 & K3 & O3 & Q3 & R3). cbn in *.
  destruct (V10_recall_pass i4 s3 V10.emptyPatch)
    as (s4 & Hp4 & M4 & C4 & U4);
    [done|congruence|done|by rewrite Q3, Q2, Q1|done| |].
  { rewrite P3, P2, K3, K2, K1, P1. apply read_write. lia. }
  exists s4. cbn [V10.run]. rewrite Hp1. cbn. rewrite Hp2. cbn.
  rewrite Hp3. cbn. rewrite Hp4. cbn.
  split; [done|]. split; [|split; [by rewrite C4, K3, K2, K1|by rewrite U4]].
  rewrite M4, M3, M2, K1. by apply testbit_clear_bit.
Qed.

(** The states [setup] leaves have their pattern lengths within 0..16. *)
Lemma after_setup_lengths m :
  V11.bank_lengths_within 0 16 (V11.after_setup m) /\
  V10.all_lengths_within 0 16 (V10.after_setup m).
Proof.
  unfold V11.bank_lengths_within, V10.all_lengths_within. simpl.
  split; [|split; [intros []; simpl; lia|]];
    repeat (apply Forall_cons; split;
            [intros []; simpl; unfold V11.DEFAULT_PATTERN_LENGTH; lia|]);
    by apply Forall_nil.
Qed.

(** C6, as the sketches compute it: 0 <= patternLength[c] <= 16 holds for
    every channel in every state reached from one in which it holds (the
    state [setup] leaves is one), and a pattern-length detent edit in
    [PATTERN_LENGTH_MODE] is defined and moves the length of the selected
    channel up by one but not above 16, or down by one but not below 0.
    In version 1.1 the edited patch is the chosen patch of the bank (and
    the mode exists only with [ALLOW_PATTERN_LENGTH_CHANGE]), in version
    1.0 it is the current patch. *)
Theorem pattern_length_within_0_16 :
  (forall flag inps s s',
     V11.bank_lengths_within 0 16 s ->
     V11.run flag inps s = Ok s' ->
     V11.bank_lengths_within 0 16 s') /\
  (forall inps s s',
     V10.all_lengths_within 0 16 s ->
     V10.run inps s = Ok s' ->
     V10.all_lengths_within 0 16 s') /\
  (forall inp s,
     V11.wf s -> V11.bank_lengths_within 0 16 s ->
     V11.mode s = PATTERN_LENGTH_MODE -> escapeButton inp = false ->
     exists s' p p',
       V11.mode_switch true inp s = Ok s' /\
       V11.bank_lengths_within 0 16 s' /\
       read (V11.patches s) (V11.chosenPatchNumber s) = Ok p /\
       read (V11.patches s') (V11.chosenPatchNumber s) = Ok p' /\
       get (V11.patternLength p') (V11.selectedTriggerChannel s) =
         (if newPosition inp <? V11.oldPosition s - 3
          then Z.min 16 (get (V11.patternLength p)
                           (V11.selectedTriggerChannel s) + 1)
          else if newPosition inp >? V11.oldPosition s + 3
          then Z.max 0 (get (V11.patternLength p)
                          (V11.selectedTriggerChannel s) - 1)
          else get (V11.patternLength p) (V11.selectedTriggerChannel s))) /\
  (forall inp s,
     V10.all_lengths_within 0 16 s ->
     V10.mode s = PATTERN_LENGTH_MODE -> escapeButton inp = false ->
     exists s',
       V10.mode_switch inp s = Ok s' /\
       V10.all_lengths_within 0 16 s' /\
       get (V10.patternLength (V10.currentPatch s'))
           (V10.selectedTriggerChannel s) =
         (if newPosition inp <? V10.oldPosition s - 3
          then Z.min 16 (get (V10.patternLength (V10.currentPatch s))
                           (V10.selectedTriggerChannel s) + 1)
          else if newPosition inp >? V10.oldPosition s + 3
          then Z.max 0 (get (V10.patternLength (V10.currentPatch s))
                          (V10.selectedTriggerChannel s) - 1)
          else get (V10.patternLength (V10.currentPatch s))
                   (V10.selectedTriggerChannel s))).
Proof.
  split; [|split; [|split]].
  - intros flag inps. apply V11_run_lengths.
  - intros inps. apply V10_run_lengths.
  - intros inp s Hwf Hbank Hmode Hesc.
    unfold V11.mode_switch. rewrite Hmode, Hesc. cbn.
    by apply V11_length_edit_clamps.
  - intros inp s [Hcur Hbank] Hmode Hesc.
    unfold V10.mode_switch. rewrite Hmode, Hesc. cbn.
    destruct (V10_length_edit_clamps inp s Hcur)
      as (s' & Hedit & Hcur' & Hbank' & Hlen).
    exists s'. split; [exact Hedit|]. split; [|exact Hlen].
    split; [exact Hcur'|]. by rewrite Hbank'.
Qed.

Lemma pattern_length_within_0_16_witness :
  exists s',
    V10.mode_switch (turn 4 false 0) (V10.after_setup PATTERN_LENGTH_MODE)
      = Ok s' /\
    V10.all_lengths_within 0 16 s' /\
    get (V10.patternLength (V10.currentPatch s')) TRIG_A = 11.
Proof.
  destruct pattern_length_within_0_16 as (_ & _ & _ & Hv10).
  apply (Hv10 (turn 4 false 0) (V10.after_setup PATTERN_LENGTH_MODE)).
  - apply after_setup_lengths.
  - reflexivity.
  - reflexivity.
Defined.

(** C6, as stated, fails: the decrement stops at 0, not at 1.  From the
    state [setup] leaves, twelve detents in version 1.0 (sixteen in
    version 1.1, compiled with the pattern-length mode) bring the pattern
    length of the selected channel from within 1..16 down to 0. *)
Lemma pattern_length_reaches_zero :
  (lengths_within 1 16
     (V10.patternLength (V10.currentPatch (V10.after_setup PATTERN_LENGTH_MODE)))
   /\ exists s',
        V10.run (detents_up 12) (V10.after_setup PATTERN_LENGTH_MODE) = Ok s'
        /\ get (V10.patternLength (V10.currentPatch s')) TRIG_A = 0) /\
  (V11.bank_lengths_within 1 16 (V11.after_setup PATTERN_LENGTH_MODE)
   /\ exists s' p,
        V11.run true (detents_up 16) (V11.after_setup PATTERN_LENGTH_MODE)
          = Ok s'
        /\ read (V11.patches s') (V11.chosenPatchNumber s') = Ok p
        /\ get (V11.patternLength p) TRIG_A = 0).
Proof.
  split; split.
  - intros []; simpl; lia.
  - eexists. split; [vm_compute; reflexivity|reflexivity].
  - unfold V11.bank_lengths_within. simpl.
    repeat (apply Forall_cons; split; [intros []; simpl; unfold V11.DEFAULT_PATTERN_LENGTH; lia|]).
    apply Forall_nil. done.
  - eexists _, _. split; [vm_compute; reflexivity|].
    split; reflexivity.
Qed.






(** C8, as the sketches compute it: starting from a tempo within 10..500,
    the tempo edit, and every pass with the internal clock selected, keep
    the tempo within 10..500; a rising edge of the external clock assigns
    the measured interval, reduced to 16 bits, without clamping it. *)
Theorem tempo_within_10_500 (flag : bool) (inp : Input)
    (s : V11.State) (t : V10.State) :
  10 <= V11.delayTime s <= 500 -> 10 <= V10.delayTime t <= 500 ->
  (10 <= V11.delayTime (V11.tempo_edit inp s) <= 500 /\
   (clkPin inp = false ->
    forall s', V11.pass flag inp s = Ok s' -> 10 <= V11.delayTime s' <= 500) /\
   (clkPin inp = true -> extClkV inp > 512 -> V11.prevExtClk s < 300 ->
    V11.delayTime (fst (V11.clock inp s))
      = Word16.wrap (elapsed (thisTime inp) (V11.prevTime s)))) /\
  (10 <= V10.delayTime (V10.tempo_edit inp t) <= 500 /\
   (clkPin inp = false ->
    forall t', V10.pass inp t = Ok t' -> 10 <= V10.delayTime t' <= 500) /\
   (clkPin inp = true -> extClkV inp > 512 -> V10.prevExtClk t < 128 ->
    V10.delayTime (fst (V10.clock inp t))
      = Word16.wrap (elapsed (thisTime inp) (V10.prevTime t)))).
Proof.
  intros Hs Ht.
  assert (10 <= V11.delayTime (V11.tempo_edit inp s) <= 500) as Hes
    by (rewrite V11_tempo_edit_value by done; zbool).
  assert (10 <= V10.delayTime (V10.tempo_edit inp t) <= 500) as Het
    by (rewrite V10_tempo_edit_value by done; zbool).
  split; (split; [done|split]).
  - intros Hclk s' Hpass.
    destruct (V11_pass_delayTime flag inp s s' Hclk Hpass) as [->| ->]; done.
  - intros Hclk Hhigh Hlow. unfold V11.clock. rewrite Hclk.
    destruct (Z.gtb_spec (extClkV inp) 512); [|lia].
    destruct (Z.ltb_spec (V11.prevExtClk s) 300); [|lia]. reflexivity.
  - intros Hclk t' Hpass.
    destruct (V10_pass_delayTime inp t t' Hclk Hpass) as [->| ->]; done.
  - intros Hclk Hhigh Hlow. unfold V10.clock. rewrite Hclk.
    destruct (Z.gtb_spec (extClkV inp) 512); [|lia].
    destruct (Z.ltb_spec (V10.prevExtClk t) 128); [|lia]. reflexivity.
Qed.

Lemma tempo_within_10_500_witness :
  10 <= V11.delayTime
          (V11.tempo_edit (turn 4 true 0) (V11.after_setup NUM_PULSE_MODE))
     <= 500.
Proof.
  destruct (tempo_within_10_500 false (turn 4 true 0)
              (V11.after_setup NUM_PULSE_MODE)
              (V10.after_setup PATTERN_LENGTH_MODE))
    as [[Hedit _] _]; [simpl; lia|simpl; lia|].
  exact Hedit.
Defined.

(** C8, as stated, fails: from the state [setup] leaves (tempo 95), one
    pass with the external clock selected and a rising clock edge 1000 ms
    after the previous trigger sets the tempo to 1000. *)
Lemma external_clock_sets_tempo_1000 :
  10 <= V11.delayTime (V11.after_setup NUM_PULSE_MODE) <= 500 /\
  exists s',
    V11.pass false (clock_pulse 0 1000) (V11.after_setup NUM_PULSE_MODE)
      = Ok s' /\
    V11.delayTime s' = 1000.
Proof.
  split; [simpl; lia|].
  eexists. split; [vm_compute; reflexivity|reflexivity].
Qed.

(** C9, as the sketches compute it: with the candidate patch number at a
    slot k of 0..15, a clear followed by a recall (each a fresh button
    press with the encoder at rest) is defined, leaves occupancy bit k
    clear, chooses slot k and makes the live patch the empty patch of the
    version: zero pulses and zero pattern bits in both, with every pattern
    length [DEFAULT_PATTERN_LENGTH] = 16 in version 1.1 and 0 in version
    1.0. *)
Theorem clear_then_recall_yields_empty_patch :
  (forall flag s i1 i2 i3 i4,
     V11.wf s -> V11.mode s = PROGRAM_MODE ->
     button i1 = None -> button i2 = Some TRIG_B ->
     button i3 = None -> button i4 = Some TRIG_A ->
     no_detent (V11.oldPosition s) i1 -> no_detent (V11.oldPosition s) i2 ->
     no_detent (V11.oldPosition s) i3 -> no_detent (V11.oldPosition s) i4 ->
     exists s' live,
       V11.run flag [i1; i2; i3; i4] s = Ok s' /\
       Z.testbit (V11.memoryCellsInUse s') (V11.candidatePatchNumber s)
         = false /\
       V11.chosenPatchNumber s' = V11.candidatePatchNumber s /\
       read (V11.patches s') (V11.chosenPatchNumber s') = Ok live /\
       V11.pulses live = fill 0 /\
       V11.channelPattern live = fill 0 /\
       V11.patternLength live = fill 16) /\
  (forall s i1 i2 i3 i4,
     V10.wf s -> V10.mode s = PROGRAM_MODE ->
     button i1 = None -> button i2 = Some TRIG_B ->
     button i3 = None -> button i4 = Some TRIG_A ->
     no_detent (V10.oldPosition s) i1 -> no_detent (V10.oldPosition s) i2 ->
     no_detent (V10.oldPosition s) i3 -> no_detent (V10.oldPosition s) i4 ->
     exists s',
       V10.run [i1; i2; i3; i4] s = Ok s' /\
       Z.testbit (V10.memoryCellsInUse s') (V10.candidatePatchNumber s)
         = false /\
       V10.chosenPatchNumber s' = V10.candidatePatchNumber s /\
       V10.pulses (V10.currentPatch s') = fill 0 /\
       V10.channelPattern (V10.currentPatch s') = fill 0 /\
       V10.patternLength (V10.currentPatch s') = fill 0).
Proof.
  split.
  - intros flag s i1 i2 i3 i4 Hwf Hmode Hb1 Hb2 Hb3 Hb4 Hd1 Hd2 Hd3 Hd4.
    destruct (V11_clear_then_recall flag s i1 i2 i3 i4)
      as (s' & Hrun & Hbit & Hchosen & Hlive); [done..|].
    exists s', V11.emptyPatch. done.
  - intros s i1 i2 i3 i4 Hwf Hmode Hb1 Hb2 Hb3 Hb4 Hd1 Hd2 Hd3 Hd4.
    destruct (V10_clear_then_recall s i1 i2 i3 i4)
      as (s' & Hrun & Hbit & Hchosen & Hlive); [done..|].
    exists s'. rewrite Hlive. done.
Qed.

Lemma clear_then_recall_yields_empty_patch_witness :
  exists s' live,
    V11.run false (clear_then_recall 0) (V11.after_setup PROGRAM_MODE)
      = Ok s' /\
    Z.testbit (V11.memoryCellsInUse s') 0 = false /\
    V11.chosenPatchNumber s' = 0 /\
    read (V11.patches s') (V11.chosenPatchNumber s') = Ok live /\
    V11.pulses live = fill 0 /\
    V11.channelPattern live = fill 0 /\
    V11.patternLength live = fill 16.
Proof.
  destruct clear_then_recall_yields_empty_patch as [Hv11 _].
  apply (Hv11 false (V11.after_setup PROGRAM_MODE)
           (turn 0 false 0) (press TRIG_B 0 0)
           (turn 0 false 0) (press TRIG_A 0 0));
    try reflexivity;
    try (unfold no_detent; simpl; lia).
  unfold V11.wf. simpl. unfold NR_OF_MEMORY_CELLS, NUM_NEOP_LEDS. lia.
Defined.

(** C9, as stated, fails in version 1.0: after a clear and a recall of
    slot 0 the occupancy bit is clear, but the pattern lengths of the live
    patch are 0, not 16. *)
Lemma recalled_empty_patch_has_length_zero_in_V10 :
  exists s',
    V10.run (clear_then_recall 0) (V10.after_setup PROGRAM_MODE) = Ok s' /\
    Z.testbit (V10.memoryCellsInUse s') 0 = false /\
    V10.chosenPatchNumber s' = 0 /\
    V10.patternLength (V10.currentPatch s') = fill 0 /\
    V10.patternLength (V10.currentPatch s') <> fill 16.
Proof.
  eexists. split; [vm_compute; reflexivity|].
  repeat split. discriminate.
Qed.

(** * Further properties of the generator and the rotations *)

Section GeneratorShape.
Import Word16 Bits.

(** With no pulses the loop never sets a bit. *)
Lemma euclid_loop_no_pulses len steps :
  0 < len ->
  forall i number, euclid_loop steps 0 len i 0 number = Ok number.
Proof.
  intros Hlen. induction steps as [|steps IH]; intros i number; [done|].
  cbn [euclid_loop]. rewrite (int16_small (0 + 0)) by lia.
  destruct (Z.geb_spec (0 + 0) len); [lia|]. apply IH.
Qed.

Lemma lor_ones_bit i : 0 <= i -> Z.lor (2 ^ i - 1) (2 ^ i) = 2 ^ (i + 1) - 1.
Proof.
  intros Hi.
  replace (2 ^ i - 1) with (Z.ones i) by (rewrite Z.ones_equiv; lia).
  replace (2 ^ (i + 1) - 1) with (Z.ones (i + 1))
    by (rewrite Z.ones_equiv; lia).
  apply Z.bits_inj'. intros j Hj.
  rewrite Z.lor_spec, !Z.testbit_ones_nonneg, Z.pow2_bits_eqb by lia.
  zbool.
Qed.

(** With at least [len] pulses every step fires, as long as the bucket
    stays within an [int]: it grows by [pulses - len] with each step. *)
Lemma euclid_loop_full pulses len steps :
  0 < len -> len <= pulses ->
  forall i bucket,
  0 <= bucket -> 0 <= i -> i + Z.of_nat steps <= 16 ->
  bucket + Z.of_nat steps * (pulses - len) + len <= 32767 ->
  euclid_loop steps pulses len i bucket (2 ^ i - 1)
    = Ok (2 ^ (i + Z.of_nat steps) - 1).
Proof.
  intros Hlen Hp. induction steps as [|steps IH]; intros i bucket Hb Hi Hs Hmax.
  - simpl. by rewrite Z.add_0_r.
  - cbn [euclid_loop].
    assert (0 <= Z.of_nat steps * (pulses - len)) as Hrest by nia.
    rewrite (int16_small (bucket + pulses)) by nia.
    destruct (Z.geb_spec (bucket + pulses) len); [|lia].
    rewrite (int16_small (bucket + pulses - len)) by nia.
    rewrite shl_Ok by lia. cbn [mbind result_bind].
    rewrite Z.shiftl_1_l. unfold wrap, modulus, width.
    rewrite (Z.mod_small (2 ^ i)).
    + rewrite lor_ones_bit by lia. rewrite IH by nia. do 3 f_equal. lia.
    + split; [lia|]. apply Z.pow_lt_mono_r; lia.
Qed.

(** X1: the pulses are spread evenly.  For 0 <= pulses <= length <= 16,
    any [w] consecutive steps of the generated pattern, from step [a] on,
    hold either the integer part of [w * pulses / length] pulses or one
    more. *)
Theorem euclid_evenly_spread (pulses len : Z) (a w : nat) :
  0 <= pulses <= len -> 0 < len <= 16 -> Z.of_nat (a + w) <= len ->
  exists n, euclid pulses len = Ok n /\
    (Z.of_nat w * pulses) / len
      <= Z.of_nat (popcount (a + w) n) - Z.of_nat (popcount a n)
      <= (Z.of_nat w * pulses) / len + 1.
Proof.
  intros Hp Hlen Hwin.
  destruct (euclid_bits pulses len Hp Hlen) as (n & Hn & Hbits).
  exists n. split; [exact Hn|].
  rewrite !(popcount_fires pulses len Hp Hlen n) by (done || lia).
  rewrite Nat2Z.inj_add, Z.mul_add_distr_r.
  generalize (Z.of_nat a * pulses) (Z.of_nat w * pulses)
             (Nat2Z.is_nonneg a) (Nat2Z.is_nonneg w).
  intros A W Ha Hw.
  pose proof (Z.div_mod A len ltac:(lia)).
  pose proof (Z.div_mod W len ltac:(lia)).
  pose proof (Z.div_mod (A + W) len ltac:(lia)).
  pose proof (Z.mod_pos_bound A len ltac:(lia)).
  pose proof (Z.mod_pos_bound W len ltac:(lia)).
  pose proof (Z.mod_pos_bound (A + W) len ltac:(lia)).
  nia.
Qed.

Lemma euclid_evenly_spread_witness :
  exists n, euclid 5 16 = Ok n /\
    (Z.of_nat 4 * 5) / 16
      <= Z.of_nat (popcount (3 + 4) n) - Z.of_nat (popcount 3 n)
      <= (Z.of_nat 4 * 5) / 16 + 1.
Proof. apply (euclid_evenly_spread 5 16 3 4); simpl; lia. Defined.

(** X2: the degenerate patterns.  With no pulses, or with a length of 0
    or less, the generator returns the empty pattern.  With a length of
    1..16 and at least as many pulses as steps (which a length edit can
    produce, since it leaves the pulse count alone) it returns the full
    pattern, all [length] low bits set, as long as the bucket, which then
    grows by [pulses - length] with every step, stays within an [int]:
    [(length - 1) * (pulses - length) + pulses <= 32767].  This is so for
    every pulse count up to 2062. *)
Theorem euclid_empty_and_full (pulses len : Z) :
  (pulses = 0 \/ len <= 0 -> euclid pulses len = Ok 0) /\
  (0 < len <= 16 -> len <= pulses ->
   (len - 1) * (pulses - len) + pulses <= 32767 ->
   euclid pulses len = Ok (2 ^ len - 1)) /\
  (0 < len <= 16 -> len <= pulses <= 2062 ->
   euclid pulses len = Ok (2 ^ len - 1)).
Proof.
  assert (0 < len <= 16 -> len <= pulses ->
          (len - 1) * (pulses - len) + pulses <= 32767 ->
          euclid pulses len = Ok (2 ^ len - 1)) as Hfull.
  { intros Hlen Hp Hmax. unfold euclid.
    change 0 with (2 ^ 0 - 1) at 3.
    rewrite (euclid_loop_full pulses len) by (rewrite ?Z2Nat.id; lia).
    do 3 f_equal. lia. }
  split; [|split].
  - intros Hempty. unfold euclid.
    destruct (Z.leb_spec len 0) as [Hle|Hgt].
    + by replace (Z.to_nat len) with 0%nat by lia.
    + destruct Hempty as [->|]; [|lia]. by apply euclid_loop_no_pulses.
  - exact Hfull.
  - intros Hlen Hp. apply Hfull; [done|lia|nia].
Qed.

(** Bits that move up by one position are counted alike. *)
Lemma popcount_shifted p q (k : nat) :
  (forall j, (j < k)%nat ->
     Z.testbit q (Z.of_nat (S j)) = Z.testbit p (Z.of_nat j)) ->
  popcount (S k) q
    = ((if Z.testbit q 0 then 1 else 0) + popcount k p)%nat.
Proof.
  induction k as [|k IH]; intros Hshift; [simpl; lia|].
  change (popcount (S (S k)) q)
    with ((if Z.testbit q (Z.of_nat (S k)) then 1 else 0)
          + popcount (S k) q)%nat.
  rewrite IH by (intros j Hj; apply Hshift; lia).
  rewrite Hshift by lia. cbn [popcount]. lia.
Qed.

(** X3: [rotateRight] undoes [rotateLeft] and [rotateLeft] undoes
    [rotateRight] on the low [length] bits, for every pattern and every
    length of 1..16. *)
Theorem rotations_are_inverse (pattern len : Z) :
  1 <= len <= 16 ->
  (exists q r, rotateLeft pattern len = Ok q /\ rotateRight q len = Ok r /\
               low_bits_eq len r pattern) /\
  (exists q r, rotateRight pattern len = Ok q /\ rotateLeft q len = Ok r /\
               low_bits_eq len r pattern).
Proof.
  intros Hlen. split.
  - destruct (rotateLeft_bits pattern len Hlen) as (q & Hq & Hqb).
    destruct (rotateRight_bits q len Hlen) as (r & Hr & Hrb).
    exists q, r. split; [exact Hq|]. split; [exact Hr|]. intros i Hi.
    rewrite Hrb by lia. rewrite Hqb by (apply Z.mod_pos_bound; lia).
    rewrite Zminus_mod_idemp_l. f_equal.
    replace (i + 1 - 1) with i by lia. apply Z.mod_small. lia.
  - destruct (rotateRight_bits pattern len Hlen) as (q & Hq & Hqb).
    destruct (rotateLeft_bits q len Hlen) as (r & Hr & Hrb).
    exists q, r. split; [exact Hq|]. split; [exact Hr|]. intros i Hi.
    rewrite Hrb by lia. rewrite Hqb by (apply Z.mod_pos_bound; lia).
    rewrite Zplus_mod_idemp_l. f_equal.
    replace (i - 1 + 1) with i by lia. apply Z.mod_small. lia.
Qed.

Lemma rotations_are_inverse_witness :
  (exists q r, rotateLeft 37448 16 = Ok q /\ rotateRight q 16 = Ok r /\
               low_bits_eq 16 r 37448) /\
  (exists q r, rotateRight 37448 16 = Ok q /\ rotateLeft q 16 = Ok r /\
               low_bits_eq 16 r 37448).
Proof. apply (rotations_are_inverse 37448 16). lia. Defined.

(** One rotation keeps the number of pulses on the ring. *)
Lemma rotateLeft_popcount pattern len :
  1 <= len <= 16 ->
  exists q, rotateLeft pattern len = Ok q /\
    popcount (Z.to_nat len) q = popcount (Z.to_nat len) pattern.
Proof.
  intros Hlen.
  destruct (rotateLeft_bits pattern len Hlen) as (q & Hq & Hqb).
  exists q. split; [exact Hq|].
  destruct (Z.to_nat len) as [|k] eqn:Hk; [lia|].
  rewrite (popcount_shifted pattern q k).
  - cbn [popcount]. rewrite (Hqb 0) by lia.
    replace ((0 - 1) mod len) with (Z.of_nat k); [done|].
    apply Z.mod_unique with (q := -1); lia.
  - intros j Hj. rewrite Hqb by lia. f_equal.
    symmetry. apply Z.mod_unique with (q := 0); lia.
Qed.

Lemma rotateRight_popcount pattern len :
  1 <= len <= 16 ->
  exists q, rotateRight pattern len = Ok q /\
    popcount (Z.to_nat len) q = popcount (Z.to_nat len) pattern.
Proof.
  intros Hlen.
  destruct (rotateRight_bits pattern len Hlen) as (q & Hq & Hqb).
  exists q. split; [exact Hq|].
  destruct (Z.to_nat len) as [|k] eqn:Hk; [lia|].
  rewrite (popcount_shifted q pattern k).
  - cbn [popcount]. rewrite (Hqb (Z.of_nat k)) by lia.
    replace ((Z.of_nat k + 1) mod len) with 0; [done|].
    apply Z.mod_unique with (q := 1); lia.
  - intros j Hj. rewrite Hqb by lia. f_equal.
    apply Z.mod_unique with (q := 0); lia.
Qed.

(** X4: a rotation keeps the number of pulses.  For every pattern and
    every length of 1..16, [rotateLeft] and [rotateRight] return a pattern
    with as many bits set among the low [length] bits as the argument. *)
Theorem rotations_keep_pulse_count (pattern len : Z) :
  1 <= len <= 16 ->
  (exists q, rotateLeft pattern len = Ok q /\
     popcount (Z.to_nat len) q = popcount (Z.to_nat len) pattern) /\
  (exists q, rotateRight pattern len = Ok q /\
     popcount (Z.to_nat len) q = popcount (Z.to_nat len) pattern).
Proof.
  intros Hlen. split.
  - by apply rotateLeft_popcount.
  - by apply rotateRight_popcount.
Qed.

Lemma rotations_keep_pulse_count_witness :
  (exists q, rotateLeft 2340 12 = Ok q /\
     popcount (Z.to_nat 12) q = popcount (Z.to_nat 12) 2340) /\
  (exists q, rotateRight 2340 12 = Ok q /\
     popcount (Z.to_nat 12) q = popcount (Z.to_nat 12) 2340).
Proof. apply (rotations_keep_pulse_count 2340 12). lia. Defined.

End GeneratorShape.

(** * Further properties of the edits *)

Lemma same_except_put {A} (a : arr4 A) c x : same_except c a (put a c x).
Proof. intros d Hd. by destruct c, d. Qed.

Section V11Edits.
Import Word16 V11.

(** What a pulse-count detent edit computes. *)
Lemma V11_pulses_edit_shape inp s p :
  wf s -> read (patches s) (chosenPatchNumber s) = Ok p ->
  get (patternLength p) (selectedTriggerChannel s) <= 16 ->
  detent (oldPosition s) inp ->
  exists n e,
    n = (if newPosition inp <? oldPosition s - 3
         then Z.min (get (patternLength p) (selectedTriggerChannel s))
                    (get (pulses p) (selectedTriggerChannel s) + 1)
         else Z.max 0 (get (pulses p) (selectedTriggerChannel s) - 1)) /\
    Bits.euclid n (get (patternLength p) (selectedTriggerChannel s)) = Ok e /\
    pulses_edit inp s =
      Ok (with_oldPosition (newPosition inp)
            (with_patches
               (<[Z.to_nat (chosenPatchNumber s) :=
                    with_channelPattern
                      (put (channelPattern p) (selectedTriggerChannel s) e)
                      (with_pulses
                         (put (pulses p) (selectedTriggerChannel s) n) p)]>
                  (patches s)) s)).
Proof.
  intros (Hlen & Hch & Hca) Hr Hl Hdet.
  unfold NR_OF_MEMORY_CELLS, NUM_NEOP_LEDS in *.
  unfold pulses_edit.
  destruct (Z.ltb_spec (newPosition inp) (oldPosition s - 3));
    [|destruct (Z.gtb_spec (newPosition inp) (oldPosition s + 3));
      [|destruct Hdet; lia]].
  - rewrite Hr. cbn [mbind result_bind]. unfold euclid. cbn.
    rewrite !get_put.
    set (n := if _ >? _ then _ else _).
    assert (n = Z.min (get (patternLength p) (selectedTriggerChannel s))
                      (get (pulses p) (selectedTriggerChannel s) + 1))
      as Hn by (subst n; zbool).
    destruct (euclid_defined n
                (get (patternLength p) (selectedTriggerChannel s)) Hl)
      as [e He].
    rewrite He. cbn. rewrite write_Ok by lia. cbn.
    exists n, e. done.
  - rewrite Hr. cbn [mbind result_bind]. unfold euclid. cbn.
    rewrite !get_put.
    set (n := if _ <? 0 then _ else _).
    assert (n = Z.max 0 (get (pulses p) (selectedTriggerChannel s) - 1))
      as Hn by (subst n; zbool).
    destruct (euclid_defined n
                (get (patternLength p) (selectedTriggerChannel s)) Hl)
      as [e He].
    rewrite He. cbn. rewrite write_Ok by lia. cbn.
    exists n, e. done.
Qed.

(** What a pattern-length detent edit computes. *)
Lemma V11_length_edit_shape inp s p :
  wf s -> read (patches s) (chosenPatchNumber s) = Ok p ->
  get (patternLength p) (selectedTriggerChannel s) <= 16 ->
  detent (oldPosition s) inp ->
  exists l e,
    l = (if newPosition inp <? oldPosition s - 3
         then Z.min 16 (get (patternLength p) (selectedTriggerChannel s) + 1)
         else Z.max 0 (get (patternLength p) (selectedTriggerChannel s) - 1)) /\
    Bits.euclid (get (pulses p) (selectedTriggerChannel s)) l = Ok e /\
    length_edit inp s =
      Ok (with_oldPosition (newPosition inp)
            (with_patches
               (<[Z.to_nat (chosenPatchNumber s) :=
                    with_channelPattern
                      (put (channelPattern p) (selectedTriggerChannel s) e)
                      (with_patternLength
                         (put (patternLength p) (selectedTriggerChannel s) l)
                         p)]>
                  (patches s)) s)).
Proof.
  intros (Hlen & Hch & Hca) Hr Hl Hdet.
  unfold NR_OF_MEMORY_CELLS, NUM_NEOP_LEDS in *.
  unfold length_edit.
  destruct (Z.ltb_spec (newPosition inp) (oldPosition s - 3));
    [|destruct (Z.gtb_spec (newPosition inp) (oldPosition s + 3));
      [|destruct Hdet; lia]].
  - rewrite Hr. cbn [mbind result_bind]. unfold euclid. cbn.
    rewrite !get_put.
    set (l := if _ >? _ then _ else _).
    assert (l = Z.min 16 (get (patternLength p) (selectedTriggerChannel s) + 1))
      as Hl' by (subst l; unfold NUM_NEOP_LEDS; zbool).
    destruct (euclid_defined (get (pulses p) (selectedTriggerChannel s)) l)
      as [e He]; [lia|].
    rewrite He. cbn. rewrite write_Ok by lia. cbn.
    exists l, e. done.
  - rewrite Hr. cbn [mbind result_bind]. unfold euclid. cbn.
    rewrite !get_put.
    set (l := if _ <? 0 then _ else _).
    assert (l = Z.max 0 (get (patternLength p) (selectedTriggerChannel s) - 1))
      as Hl' by (subst l; zbool).
    destruct (euclid_defined (get (pulses p) (selectedTriggerChannel s)) l)
      as [e He]; [lia|].
    rewrite He. cbn. rewrite write_Ok by lia. cbn.
    exists l, e. done.
Qed.

End V11Edits.

Section V11EditProperties.
Import Word16 V11.

Lemma V11_rotate_edit_shape inp s p :
  wf s -> read (patches s) (chosenPatchNumber s) = Ok p ->
  1 <= get (patternLength p) (selectedTriggerChannel s) <= 16 ->
  detent (oldPosition s) inp ->
  exists q,
    (if newPosition inp >? oldPosition s + 3
     then Bits.rotateRight
     else Bits.rotateLeft)
      (get (channelPattern p) (selectedTriggerChannel s))
      (get (patternLength p) (selectedTriggerChannel s)) = Ok q /\
    popcount (Z.to_nat (get (patternLength p) (selectedTriggerChannel s))) q
      = popcount (Z.to_nat (get (patternLength p) (selectedTriggerChannel s)))
          (get (channelPattern p) (selectedTriggerChannel s)) /\
    rotate_edit inp s =
      Ok (with_patches
            (<[Z.to_nat (chosenPatchNumber s) :=
                 with_channelPattern
                   (put (channelPattern p) (selectedTriggerChannel s) q) p]>
               (patches s))
            (with_oldPosition (newPosition inp) s)).
Proof.
  intros (Hlen & Hch & Hca) Hr Hl Hdet.
  unfold NR_OF_MEMORY_CELLS, NUM_NEOP_LEDS in *.
  unfold rotate_edit, rotateRight, rotateLeft.
  destruct (Z.gtb_spec (newPosition inp) (oldPosition s + 3));
    [|destruct (Z.ltb_spec (newPosition inp) (oldPosition s - 3));
      [|destruct Hdet; lia]].
  - destruct (rotateRight_popcount
                (get (channelPattern p) (selectedTriggerChannel s))
                (get (patternLength p) (selectedTriggerChannel s)) Hl)
      as (q & Hq & Hpop).
    exists q. split; [exact Hq|]. split; [exact Hpop|].
    cbn [patches chosenPatchNumber selectedTriggerChannel with_oldPosition].
    rewrite !Hr. cbn [mbind result_bind]. rewrite ?Hr.
    cbn [mbind result_bind]. rewrite Hq. cbn [mbind result_bind].
    rewrite write_Ok by lia. reflexivity.
  - destruct (rotateLeft_popcount
                (get (channelPattern p) (selectedTriggerChannel s))
                (get (patternLength p) (selectedTriggerChannel s)) Hl)
      as (q & Hq & Hpop).
    exists q. split; [exact Hq|]. split; [exact Hpop|].
    cbn [patches chosenPatchNumber selectedTriggerChannel with_oldPosition].
    rewrite !Hr. cbn [mbind result_bind]. rewrite ?Hr.
    cbn [mbind result_bind]. rewrite Hq. cbn [mbind result_bind].
    rewrite write_Ok by lia. reflexivity.
Qed.

End V11EditProperties.

Section V10EditProperties.
Import Word16 V10.

Lemma V10_pulses_edit_shape inp s :
  get (patternLength (currentPatch s)) (selectedTriggerChannel s) <= 16 ->
  detent (oldPosition s) inp ->
  exists n e,
    n = (if newPosition inp <? oldPosition s - 3
         then Z.min (get (patternLength (currentPatch s))
                       (selectedTriggerChannel s))
                    (get (pulses (currentPatch s))
                       (selectedTriggerChannel s) + 1)
         else Z.max 0 (get (pulses (currentPatch s))
                         (selectedTriggerChannel s) - 1)) /\
    Bits.euclid n (get (patternLength (currentPatch s))
                     (selectedTriggerChannel s)) = Ok e /\
    pulses_edit inp s =
      Ok (with_step (fill 0)
            (with_oldPosition (newPosition inp)
               (with_currentPatch
                  (with_channelPattern
                     (put (channelPattern (currentPatch s))
                        (selectedTriggerChannel s) e)
                     (with_pulses
                        (put (pulses (currentPatch s))
                           (selectedTriggerChannel s) n)
                        (currentPatch s))) s))).
Proof.
  intros Hl Hdet. unfold pulses_edit.
  destruct (Z.ltb_spec (newPosition inp) (oldPosition s - 3));
    [|destruct (Z.gtb_spec (newPosition inp) (oldPosition s + 3));
      [|destruct Hdet; lia]].
  - unfold euclid. cbn. rewrite !get_put.
    set (n := if _ >? _ then _ else _).
    assert (n = Z.min (get (patternLength (currentPatch s))
                         (selectedTriggerChannel s))
                      (get (pulses (currentPatch s))
                         (selectedTriggerChannel s) + 1))
      as Hn by (subst n; zbool).
    destruct (euclid_defined n
                (get (patternLength (currentPatch s))
                   (selectedTriggerChannel s)) Hl) as [e He].
    rewrite He. cbn. exists n, e. done.
  - unfold euclid. cbn. rewrite !get_put.
    set (n := if _ <? 0 then _ else _).
    assert (n = Z.max 0 (get (pulses (currentPatch s))
                           (selectedTriggerChannel s) - 1))
      as Hn by (subst n; zbool).
    destruct (euclid_defined n
                (get (patternLength (currentPatch s))
                   (selectedTriggerChannel s)) Hl) as [e He].
    rewrite He. cbn. exists n, e. done.
Qed.

Lemma V10_length_edit_shape inp s :
  get (patternLength (currentPatch s)) (selectedTriggerChannel s) <= 16 ->
  detent (oldPosition s) inp ->
  exists l e,
    l = (if newPosition inp <? oldPosition s - 3
         then Z.min 16 (get (patternLength (currentPatch s))
                          (selectedTriggerChannel s) + 1)
         else Z.max 0 (get (patternLength (currentPatch s))
                         (selectedTriggerChannel s) - 1)) /\
    Bits.euclid (get (pulses (currentPatch s)) (selectedTriggerChannel s)) l
      = Ok e /\
    length_edit inp s =
      Ok (with_step (fill 0)
            (with_oldPosition (newPosition inp)
               (with_currentPatch
                  (with_channelPattern
                     (put (channelPattern (currentPatch s))
                        (selectedTriggerChannel s) e)
                     (with_patternLength
                        (put (patternLength (currentPatch s))
                           (selectedTriggerChannel s) l)
                        (currentPatch s))) s))).
Proof.
  intros Hl Hdet. unfold length_edit.
  destruct (Z.ltb_spec (newPosition inp) (oldPosition s - 3));
    [|destruct (Z.gtb_spec (newPosition inp) (oldPosition s + 3));
      [|destruct Hdet; lia]].
  - unfold euclid. cbn. rewrite !get_put.
    set (l := if _ >? _ then _ else _).
    assert (l = Z.min 16 (get (patternLength (currentPatch s))
                            (selectedTriggerChannel s) + 1))
      as Hl' by (subst l; unfold NUM_NEOP_LEDS; zbool).
    destruct (euclid_defined
                (get (pulses (currentPatch s)) (selectedTriggerChannel s)) l)
      as [e He]; [lia|].
    rewrite He. cbn. exists l, e. done.
  - unfold euclid. cbn. rewrite !get_put.
    set (l := if _ <? 0 then _ else _).
    assert (l = Z.max 0 (get (patternLength (currentPatch s))
                           (selectedTriggerChannel s) - 1))
      as Hl' by (subst l; zbool).
    destruct (euclid_defined
                (get (pulses (currentPatch s)) (selectedTriggerChannel s)) l)
      as [e He]; [lia|].
    rewrite He. cbn. exists l, e. done.
Qed.

Lemma V10_rotate_edit_shape inp s :
  1 <= get (patternLength (currentPatch s)) (selectedTriggerChannel s) <= 16 ->
  detent (oldPosition s) inp ->
  exists q,
    (if newPosition inp >? oldPosition s + 3
     then Bits.rotateRight
     else Bits.rotateLeft)
      (get (channelPattern (currentPatch s)) (selectedTriggerChannel s))
      (get (patternLength (currentPatch s)) (selectedTriggerChannel s))
      = Ok q /\
    popcount (Z.to_nat (get (patternLength (currentPatch s))
                          (selectedTriggerChannel s))) q
      = popcount (Z.to_nat (get (patternLength (currentPatch s))
                              (selectedTriggerChannel s)))
          (get (channelPattern (currentPatch s)) (selectedTriggerChannel s)) /\
    rotate_edit inp s =
      Ok (with_currentPatch
            (with_channelPattern
               (put (channelPattern (currentPatch s))
                  (selectedTriggerChannel s) q)
               (currentPatch s))
            (with_oldPosition (newPosition inp) s)).
Proof.
  intros Hl Hdet. unfold rotate_edit, rotateRight, rotateLeft.
  destruct (Z.gtb_spec (newPosition inp) (oldPosition s + 3));
    [|destruct (Z.ltb_spec (newPosition inp) (oldPosition s - 3));
      [|destruct Hdet; lia]].
  - destruct (rotateRight_popcount
                (get (channelPattern (currentPatch s))
                   (selectedTriggerChannel s))
                (get (patternLength (currentPatch s))
                   (selectedTriggerChannel s)) Hl)
      as (q & Hq & Hpop).
    exists q. split; [exact Hq|]. split; [exact Hpop|].
    cbn [currentPatch selectedTriggerChannel with_oldPosition].
    rewrite Hq. reflexivity.
  - destruct (rotateLeft_popcount
                (get (channelPattern (currentPatch s))
                   (selectedTriggerChannel s))
                (get (patternLength (currentPatch s))
                   (selectedTriggerChannel s)) Hl)
      as (q & Hq & Hpop).
    exists q. split; [exact Hq|]. split; [exact Hpop|].
    cbn [currentPatch selectedTriggerChannel with_oldPosition].
    rewrite Hq. reflexivity.
Qed.

End V10EditProperties.

(** The cases of the [switch] by mode and modifier. *)
Lemma V11_switch_length inp s :
  V11.mode s = PATTERN_LENGTH_MODE -> escapeButton inp = false ->
  V11.mode_switch true inp s = V11.length_edit inp s.
Proof. intros Hmode Hesc. unfold V11.mode_switch. by rewrite Hmode, Hesc. Qed.

Lemma V11_switch_pulses flag inp s :
  V11.mode s = NUM_PULSE_MODE -> escapeButton inp = false ->
  V11.mode_switch flag inp s = V11.pulses_edit inp s.
Proof.
  intros Hmode Hesc. unfold V11.mode_switch. rewrite Hmode, Hesc.
  by destruct flag.
Qed.

Lemma V11_switch_rotate flag inp s :
  V11.mode s = ROTATE_MODE -> escapeButton inp = false ->
  V11.mode_switch flag inp s = V11.rotate_edit inp s.
Proof.
  intros Hmode Hesc. unfold V11.mode_switch. rewrite Hmode, Hesc.
  by destruct flag.
Qed.

Lemma V11_switch_program flag inp s :
  V11.mode s = PROGRAM_MODE ->
  V11.mode_switch flag inp s =
    match button inp with
    | Some TRIG_A => V11.recall (V11.candidate_edit inp s)
    | Some TRIG_B => V11.clear (V11.candidate_edit inp s)
    | Some TRIG_D => V11.store (V11.candidate_edit inp s)
    | _ => Ok (V11.candidate_edit inp s)
    end.
Proof.
  intros Hmode. unfold V11.mode_switch. rewrite Hmode. by destruct flag.
Qed.

Lemma V10_switch_length inp s :
  V10.mode s = PATTERN_LENGTH_MODE -> escapeButton inp = false ->
  V10.mode_switch inp s = V10.length_edit inp s.
Proof. intros Hmode Hesc. unfold V10.mode_switch. by rewrite Hmode, Hesc. Qed.

Lemma V10_switch_pulses inp s :
  V10.mode s = NUM_PULSE_MODE ->
  V10.mode_switch inp s = V10.pulses_edit inp s.
Proof. intros Hmode. unfold V10.mode_switch. by rewrite Hmode. Qed.

Lemma V10_switch_rotate inp s :
  V10.mode s = ROTATE_MODE ->
  V10.mode_switch inp s = V10.rotate_edit inp s.
Proof. intros Hmode. unfold V10.mode_switch. by rewrite Hmode. Qed.

Lemma V10_switch_program inp s :
  V10.mode s = PROGRAM_MODE ->
  V10.mode_switch inp s =
    match button inp with
    | Some TRIG_A => V10.recall (V10.candidate_edit inp s)
    | Some TRIG_B => V10.clear (V10.candidate_edit inp s)
    | Some TRIG_D => V10.store (V10.candidate_edit inp s)
    | _ => Ok (V10.candidate_edit inp s)
    end.
Proof. intros Hmode. unfold V10.mode_switch. by rewrite Hmode. Qed.

(** X5: a pulse-count edit.  In the [switch], in [NUM_PULSE_MODE] (in
    version 1.1 with the modifier released, in version 1.0 whether it is
    held or not), a detent on a channel whose pulse count and pattern
    length are within 0..16 is defined and moves the pulse count of the
    selected channel by one: up to [min (patternLength, pulses + 1)], down
    to [max (0, pulses - 1)], which stays within 0..16.  It replaces the
    channel's pattern by the generator's output for the new count and
    leaves the tempo, the pattern lengths and the other channels
    untouched.  Version 1.0 also restarts all step counters at 0; version
    1.1 leaves them alone. *)
Theorem pulse_edit_regenerates_pattern :
  (forall flag inp s p,
     V11.wf s -> V11.mode s = NUM_PULSE_MODE -> escapeButton inp = false ->
     read (V11.patches s) (V11.chosenPatchNumber s) = Ok p ->
     0 <= get (V11.pulses p) (V11.selectedTriggerChannel s) <= 16 ->
     0 <= get (V11.patternLength p) (V11.selectedTriggerChannel s) <= 16 ->
     detent (V11.oldPosition s) inp ->
     exists s' p',
       V11.mode_switch flag inp s = Ok s' /\
       read (V11.patches s') (V11.chosenPatchNumber s) = Ok p' /\
       get (V11.pulses p') (V11.selectedTriggerChannel s) =
         (if newPosition inp <? V11.oldPosition s - 3
          then Z.min (get (V11.patternLength p) (V11.selectedTriggerChannel s))
                     (get (V11.pulses p) (V11.selectedTriggerChannel s) + 1)
          else Z.max 0 (get (V11.pulses p) (V11.selectedTriggerChannel s) - 1)) /\
       0 <= get (V11.pulses p') (V11.selectedTriggerChannel s) <= 16 /\
       V11.euclid p' (V11.selectedTriggerChannel s)
         = Ok (get (V11.channelPattern p') (V11.selectedTriggerChannel s)) /\
       V11.patternLength p' = V11.patternLength p /\
       same_except (V11.selectedTriggerChannel s) (V11.pulses p) (V11.pulses p') /\
       same_except (V11.selectedTriggerChannel s)
         (V11.channelPattern p) (V11.channelPattern p') /\
       V11.delayTime s' = V11.delayTime s /\
       V11.step s' = V11.step s) /\
  (forall inp s,
     V10.mode s = NUM_PULSE_MODE ->
     0 <= get (V10.pulses (V10.currentPatch s)) (V10.selectedTriggerChannel s)
       <= 16 ->
     0 <= get (V10.patternLength (V10.currentPatch s))
            (V10.selectedTriggerChannel s) <= 16 ->
     detent (V10.oldPosition s) inp ->
     exists s',
       V10.mode_switch inp s = Ok s' /\
       get (V10.pulses (V10.currentPatch s')) (V10.selectedTriggerChannel s) =
         (if newPosition inp <? V10.oldPosition s - 3
          then Z.min (get (V10.patternLength (V10.currentPatch s))
                        (V10.selectedTriggerChannel s))
                     (get (V10.pulses (V10.currentPatch s))
                        (V10.selectedTriggerChannel s) + 1)
          else Z.max 0 (get (V10.pulses (V10.currentPatch s))
                          (V10.selectedTriggerChannel s) - 1)) /\
       0 <= get (V10.pulses (V10.currentPatch s')) (V10.selectedTriggerChannel s)
         <= 16 /\
       V10.euclid (V10.currentPatch s') (V10.selectedTriggerChannel s)
         = Ok (get (V10.channelPattern (V10.currentPatch s'))
                 (V10.selectedTriggerChannel s)) /\
       V10.patternLength (V10.currentPatch s')
         = V10.patternLength (V10.currentPatch s) /\
       same_except (V10.selectedTriggerChannel s)
         (V10.pulses (V10.currentPatch s)) (V10.pulses (V10.currentPatch s')) /\
       same_except (V10.selectedTriggerChannel s)
         (V10.channelPattern (V10.currentPatch s))
         (V10.channelPattern (V10.currentPatch s')) /\
       V10.patches s' = V10.patches s /\
       V10.delayTime s' = V10.delayTime s /\
       V10.step s' = fill 0).
Proof.
  split.
  - intros flag inp s p Hwf Hmode Hesc Hr Hp Hl Hdet.
    rewrite V11_switch_pulses by done.
    destruct (V11_pulses_edit_shape inp s p Hwf Hr (proj2 Hl) Hdet)
      as (n & e & Hn & He & Hedit).
    destruct Hwf as (Hlen & Hch & _).
    unfold NR_OF_MEMORY_CELLS, NUM_NEOP_LEDS in Hch.
    eexists _, _. split; [exact Hedit|].
    cbn [V11.patches V11.with_patches V11.with_oldPosition V11.step
         V11.delayTime].
    split; [apply read_write; lia|].
    unfold V11.euclid.
    cbn [V11.pulses V11.patternLength V11.channelPattern
         V11.with_channelPattern V11.with_pulses].
    rewrite !get_put.
    split; [exact Hn|]. split; [rewrite Hn; zbool|]. split; [exact He|].
    split; [done|]. split; [apply same_except_put|].
    split; [apply same_except_put|done].
  - intros inp s Hmode Hp Hl Hdet.
    rewrite V10_switch_pulses by done.
    destruct (V10_pulses_edit_shape inp s (proj2 Hl) Hdet)
      as (n & e & Hn & He & Hedit).
    eexists. split; [exact Hedit|].
    unfold V10.euclid.
    cbn [V10.currentPatch V10.with_currentPatch V10.with_oldPosition
         V10.with_step V10.step V10.patches V10.delayTime
         V10.pulses V10.patternLength V10.channelPattern
         V10.with_channelPattern V10.with_pulses].
    rewrite !get_put.
    split; [exact Hn|]. split; [rewrite Hn; zbool|]. split; [exact He|].
    split; [done|]. split; [apply same_except_put|].
    split; [apply same_except_put|done].
Qed.

Lemma pulse_edit_regenerates_pattern_witness :
  exists s',
    V10.mode_switch (turn (-4) true 0) (V10.after_setup NUM_PULSE_MODE)
      = Ok s' /\
    get (V10.pulses (V10.currentPatch s')) TRIG_A = 5 /\
    0 <= get (V10.pulses (V10.currentPatch s')) TRIG_A <= 16 /\
    V10.euclid (V10.currentPatch s') TRIG_A
      = Ok (get (V10.channelPattern (V10.currentPatch s')) TRIG_A) /\
    V10.patternLength (V10.currentPatch s')
      = V10.patternLength (V10.currentPatch (V10.after_setup NUM_PULSE_MODE)) /\
    same_except TRIG_A
      (V10.pulses (V10.currentPatch (V10.after_setup NUM_PULSE_MODE)))
      (V10.pulses (V10.currentPatch s')) /\
    same_except TRIG_A
      (V10.channelPattern (V10.currentPatch (V10.after_setup NUM_PULSE_MODE)))
      (V10.channelPattern (V10.currentPatch s')) /\
    V10.patches s' = V10.patches (V10.after_setup NUM_PULSE_MODE) /\
    V10.delayTime s' = 95 /\
    V10.step s' = fill 0.
Proof.
  destruct pulse_edit_regenerates_pattern as [_ Hv10].
  apply (Hv10 (turn (-4) true 0) (V10.after_setup NUM_PULSE_MODE)).
  - reflexivity.
  - simpl. lia.
  - simpl. lia.
  - left. simpl. lia.
Defined.

Lemma euclid_full pulses len :
  0 < len <= 16 -> len <= pulses <= 16 ->
  Bits.euclid pulses len = Ok (2 ^ len - 1).
Proof.
  intros Hlen Hp. unfold Bits.euclid.
  change 0 with (2 ^ 0 - 1) at 3.
  rewrite (euclid_loop_full pulses len) by (rewrite ?Z2Nat.id; nia).
  do 3 f_equal. lia.
Qed.

(** X6: a pattern-length edit.  In the [switch], in
    [PATTERN_LENGTH_MODE] with the modifier released (in version 1.1 the
    mode exists only with [ALLOW_PATTERN_LENGTH_CHANGE]), a detent on a
    channel whose pattern length is at most 16 is defined and moves the
    pattern length of the selected channel by one: up to
    [min (16, length + 1)], down to [max (0, length - 1)].  It replaces
    the pattern of the selected channel by the generator's output for the
    new length and leaves every pulse count as it is, also when the new
    length is below the pulse count: for a pulse count of at most 16 the
    pattern is then full, all of its steps fire.  The other channels are
    untouched.  Version 1.0 also restarts all step counters at 0; version
    1.1 leaves them alone. *)
Theorem length_edit_regenerates_pattern :
  (forall inp s p,
     V11.wf s -> V11.mode s = PATTERN_LENGTH_MODE ->
     escapeButton inp = false ->
     read (V11.patches s) (V11.chosenPatchNumber s) = Ok p ->
     get (V11.patternLength p) (V11.selectedTriggerChannel s) <= 16 ->
     detent (V11.oldPosition s) inp ->
     exists s' p',
       V11.mode_switch true inp s = Ok s' /\
       read (V11.patches s') (V11.chosenPatchNumber s) = Ok p' /\
       V11.pulses p' = V11.pulses p /\
       get (V11.patternLength p') (V11.selectedTriggerChannel s) =
         (if newPosition inp <? V11.oldPosition s - 3
          then Z.min 16 (get (V11.patternLength p)
                           (V11.selectedTriggerChannel s) + 1)
          else Z.max 0 (get (V11.patternLength p)
                          (V11.selectedTriggerChannel s) - 1)) /\
       V11.euclid p' (V11.selectedTriggerChannel s)
         = Ok (get (V11.channelPattern p') (V11.selectedTriggerChannel s)) /\
       (1 <= get (V11.patternLength p') (V11.selectedTriggerChannel s)
          <= get (V11.pulses p') (V11.selectedTriggerChannel s) ->
        get (V11.pulses p') (V11.selectedTriggerChannel s) <= 16 ->
        get (V11.channelPattern p') (V11.selectedTriggerChannel s)
          = 2 ^ get (V11.patternLength p') (V11.selectedTriggerChannel s) - 1) /\
       same_except (V11.selectedTriggerChannel s)
         (V11.patternLength p) (V11.patternLength p') /\
       same_except (V11.selectedTriggerChannel s)
         (V11.channelPattern p) (V11.channelPattern p') /\
       V11.step s' = V11.step s) /\
  (forall inp s,
     V10.mode s = PATTERN_LENGTH_MODE -> escapeButton inp = false ->
     get (V10.patternLength (V10.currentPatch s))
       (V10.selectedTriggerChannel s) <= 16 ->
     detent (V10.oldPosition s) inp ->
     exists s',
       V10.mode_switch inp s = Ok s' /\
       V10.pulses (V10.currentPatch s') = V10.pulses (V10.currentPatch s) /\
       get (V10.patternLength (V10.currentPatch s'))
           (V10.selectedTriggerChannel s) =
         (if newPosition inp <? V10.oldPosition s - 3
          then Z.min 16 (get (V10.patternLength (V10.currentPatch s))
                           (V10.selectedTriggerChannel s) + 1)
          else Z.max 0 (get (V10.patternLength (V10.currentPatch s))
                          (V10.selectedTriggerChannel s) - 1)) /\
       V10.euclid (V10.currentPatch s') (V10.selectedTriggerChannel s)
         = Ok (get (V10.channelPattern (V10.currentPatch s'))
                 (V10.selectedTriggerChannel s)) /\
       (1 <= get (V10.patternLength (V10.currentPatch s'))
               (V10.selectedTriggerChannel s)
          <= get (V10.pulses (V10.currentPatch s'))
               (V10.selectedTriggerChannel s) ->
        get (V10.pulses (V10.currentPatch s'))
          (V10.selectedTriggerChannel s) <= 16 ->
        get (V10.channelPattern (V10.currentPatch s'))
            (V10.selectedTriggerChannel s)
          = 2 ^ get (V10.patternLength (V10.currentPatch s'))
                  (V10.selectedTriggerChannel s) - 1) /\
       same_except (V10.selectedTriggerChannel s)
         (V10.patternLength (V10.currentPatch s))
         (V10.patternLength (V10.currentPatch s')) /\
       same_except (V10.selectedTriggerChannel s)
         (V10.channelPattern (V10.currentPatch s))
         (V10.channelPattern (V10.currentPatch s')) /\
       V10.patches s' = V10.patches s /\
       V10.step s' = fill 0).
Proof.
  split.
  - intros inp s p Hwf Hmode Hesc Hr Hl Hdet.
    rewrite V11_switch_length by done.
    destruct (V11_length_edit_shape inp s p Hwf Hr Hl Hdet)
      as (l & e & Hl' & He & Hedit).
    destruct Hwf as (Hlen & Hch & _).
    unfold NR_OF_MEMORY_CELLS, NUM_NEOP_LEDS in Hch.
    eexists _, _. split; [exact Hedit|].
    cbn [V11.patches V11.with_patches V11.with_oldPosition V11.step].
    split; [apply read_write; lia|].
    unfold V11.euclid.
    cbn [V11.pulses V11.patternLength V11.channelPattern
         V11.with_channelPattern V11.with_patternLength].
    rewrite !get_put.
    split; [done|]. split; [exact Hl'|]. split; [exact He|].
    split; [|split; [apply same_except_put|split; [apply same_except_put|done]]].
    intros Hfull Hmax.
    rewrite euclid_full in He by (split; [rewrite Hl'; zbool|lia]).
    by injection He as <-.
  - intros inp s Hmode Hesc Hl Hdet.
    rewrite V10_switch_length by done.
    destruct (V10_length_edit_shape inp s Hl Hdet)
      as (l & e & Hl' & He & Hedit).
    eexists. split; [exact Hedit|].
    unfold V10.euclid.
    cbn [V10.currentPatch V10.with_currentPatch V10.with_oldPosition
         V10.with_step V10.step V10.patches
         V10.pulses V10.patternLength V10.channelPattern
         V10.with_channelPattern V10.with_patternLength].
    rewrite !get_put.
    split; [done|]. split; [exact Hl'|]. split; [exact He|].
    split; [|split; [apply same_except_put|split; [apply same_except_put|done]]].
    intros Hfull Hmax.
    rewrite euclid_full in He by (split; [rewrite Hl'; zbool|lia]).
    by injection He as <-.
Qed.

Lemma length_edit_regenerates_pattern_witness :
  exists s',
    V10.mode_switch (turn 4 false 0) (V10.after_setup PATTERN_LENGTH_MODE)
      = Ok s' /\
    V10.pulses (V10.currentPatch s') = Arr4 5 5 3 4 /\
    get (V10.patternLength (V10.currentPatch s')) TRIG_A = 11 /\
    V10.euclid (V10.currentPatch s') TRIG_A
      = Ok (get (V10.channelPattern (V10.currentPatch s')) TRIG_A) /\
    (1 <= get (V10.patternLength (V10.currentPatch s')) TRIG_A
       <= get (V10.pulses (V10.currentPatch s')) TRIG_A ->
     get (V10.pulses (V10.currentPatch s')) TRIG_A <= 16 ->
     get (V10.channelPattern (V10.currentPatch s')) TRIG_A
       = 2 ^ get (V10.patternLength (V10.currentPatch s')) TRIG_A - 1) /\
    same_except TRIG_A (Arr4 14 15 15 12)
      (V10.patternLength (V10.currentPatch s')) /\
    same_except TRIG_A (Arr4 10532 18724 16912 2340)
      (V10.channelPattern (V10.currentPatch s')) /\
    V10.patches s' = V10.initialBank /\
    V10.step s' = fill 0.
Proof.
  destruct length_edit_regenerates_pattern as [_ Hv10].
  apply (Hv10 (turn 4 false 0) (V10.after_setup PATTERN_LENGTH_MODE)).
  - reflexivity.
  - reflexivity.
  - simpl. lia.
  - right. simpl. lia.
Defined.

(** X7: a rotation edit.  In the [switch], in [ROTATE_MODE] (in version
    1.1 with the modifier released, in version 1.0 whether it is held or
    not) and with a pattern length of 1..16, a detent is defined and
    rotates the pattern of the selected channel by one step
    ([rotateRight] when the encoder count went up, [rotateLeft] when it
    went down), which keeps the number of pulses on the ring; pulse
    counts, pattern lengths and the patterns of the other channels are
    untouched. *)
Theorem rotate_edit_rotates_selected_channel :
  (forall flag inp s p,
     V11.wf s -> V11.mode s = ROTATE_MODE -> escapeButton inp = false ->
     read (V11.patches s) (V11.chosenPatchNumber s) = Ok p ->
     1 <= get (V11.patternLength p) (V11.selectedTriggerChannel s) <= 16 ->
     detent (V11.oldPosition s) inp ->
     exists s' p',
       V11.mode_switch flag inp s = Ok s' /\
       read (V11.patches s') (V11.chosenPatchNumber s) = Ok p' /\
       (if newPosition inp >? V11.oldPosition s + 3
        then Bits.rotateRight else Bits.rotateLeft)
         (get (V11.channelPattern p) (V11.selectedTriggerChannel s))
         (get (V11.patternLength p) (V11.selectedTriggerChannel s))
         = Ok (get (V11.channelPattern p') (V11.selectedTriggerChannel s)) /\
       popcount (Z.to_nat (get (V11.patternLength p)
                             (V11.selectedTriggerChannel s)))
                (get (V11.channelPattern p') (V11.selectedTriggerChannel s))
         = popcount (Z.to_nat (get (V11.patternLength p)
                                 (V11.selectedTriggerChannel s)))
                    (get (V11.channelPattern p) (V11.selectedTriggerChannel s)) /\
       V11.pulses p' = V11.pulses p /\
       V11.patternLength p' = V11.patternLength p /\
       same_except (V11.selectedTriggerChannel s)
         (V11.channelPattern p) (V11.channelPattern p')) /\
  (forall inp s,
     V10.mode s = ROTATE_MODE ->
     1 <= get (V10.patternLength (V10.currentPatch s))
            (V10.selectedTriggerChannel s) <= 16 ->
     detent (V10.oldPosition s) inp ->
     exists s',
       V10.mode_switch inp s = Ok s' /\
       (if newPosition inp >? V10.oldPosition s + 3
        then Bits.rotateRight else Bits.rotateLeft)
         (get (V10.channelPattern (V10.currentPatch s))
            (V10.selectedTriggerChannel s))
         (get (V10.patternLength (V10.currentPatch s))
            (V10.selectedTriggerChannel s))
         = Ok (get (V10.channelPattern (V10.currentPatch s'))
                 (V10.selectedTriggerChannel s)) /\
       popcount (Z.to_nat (get (V10.patternLength (V10.currentPatch s))
                             (V10.selectedTriggerChannel s)))
                (get (V10.channelPattern (V10.currentPatch s'))
                   (V10.selectedTriggerChannel s))
         = popcount (Z.to_nat (get (V10.patternLength (V10.currentPatch s))
                                 (V10.selectedTriggerChannel s)))
                    (get (V10.channelPattern (V10.currentPatch s))
                       (V10.selectedTriggerChannel s)) /\
       V10.pulses (V10.currentPatch s') = V10.pulses (V10.currentPatch s) /\
       V10.patternLength (V10.currentPatch s')
         = V10.patternLength (V10.currentPatch s) /\
       same_except (V10.selectedTriggerChannel s)
         (V10.channelPattern (V10.currentPatch s))
         (V10.channelPattern (V10.currentPatch s')) /\
       V10.step s' = V10.step s).
Proof.
  split.
  - intros flag inp s p Hwf Hmode Hesc Hr Hl Hdet.
    rewrite V11_switch_rotate by done.
    destruct (V11_rotate_edit_shape inp s p Hwf Hr Hl Hdet)
      as (q & Hq & Hpop & Hedit).
    destruct Hwf as (Hlen & Hch & _).
    unfold NR_OF_MEMORY_CELLS, NUM_NEOP_LEDS in Hch.
    eexists _, _. split; [exact Hedit|].
    cbn [V11.patches V11.with_patches V11.with_oldPosition].
    split; [apply read_write; lia|].
    cbn [V11.pulses V11.patternLength V11.channelPattern
         V11.with_channelPattern].
    rewrite !get_put.
    split; [exact Hq|]. split; [exact Hpop|].
    split; [done|]. split; [done|apply same_except_put].
  - intros inp s Hmode Hl Hdet.
    rewrite V10_switch_rotate by done.
    destruct (V10_rotate_edit_shape inp s Hl Hdet)
      as (q & Hq & Hpop & Hedit).
    eexists. split; [exact Hedit|].
    cbn [V10.currentPatch V10.with_currentPatch V10.with_oldPosition V10.step
         V10.pulses V10.patternLength V10.channelPattern
         V10.with_channelPattern].
    rewrite !get_put.
    split; [exact Hq|]. split; [exact Hpop|].
    split; [done|]. split; [done|]. split; [apply same_except_put|done].
Qed.

Lemma rotate_edit_rotates_selected_channel_witness :
  exists s',
    V10.mode_switch (turn 4 true 0) (V10.after_setup ROTATE_MODE) = Ok s' /\
    Bits.rotateRight 2340 12
      = Ok (get (V10.channelPattern (V10.currentPatch s')) TRIG_A) /\
    popcount (Z.to_nat 12)
      (get (V10.channelPattern (V10.currentPatch s')) TRIG_A)
      = popcount (Z.to_nat 12) 2340 /\
    V10.pulses (V10.currentPatch s') = Arr4 5 5 3 4 /\
    V10.patternLength (V10.currentPatch s') = Arr4 14 15 15 12 /\
    same_except TRIG_A (Arr4 10532 18724 16912 2340)
      (V10.channelPattern (V10.currentPatch s')) /\
    V10.step s' = fill 0.
Proof.
  destruct rotate_edit_rotates_selected_channel as [_ Hv10].
  apply (Hv10 (turn 4 true 0) (V10.after_setup ROTATE_MODE)).
  - reflexivity.
  - simpl. lia.
  - right. simpl. lia.
Defined.

(** * Further properties of the program buttons *)

Section OccupancyBits.
Import Word16.

Lemma set_bit_spec mem k j :
  0 <= k < 16 ->
  Z.testbit (Z.lor mem (wrap (Z.shiftl 1 k))) j = Z.testbit mem j || (j =? k).
Proof. intros Hk. by rewrite Z.lor_spec, testbit_bit. Qed.

Lemma clear_bit_other mem k j :
  0 <= k < 16 -> 0 <= j < 16 -> j <> k ->
  Z.testbit (Z.land mem (lnot (wrap (Z.shiftl 1 k)))) j = Z.testbit mem j.
Proof.
  intros Hk Hj Hne. rewrite Z.land_spec, testbit_lnot, testbit_bit by lia.
  destruct (Z.ltb_spec j 16); [|lia]. destruct (Z.eqb_spec j k); [lia|].
  simpl. by rewrite andb_true_r.
Qed.

Lemma land_bit_nonzero mem k :
  0 <= k < 16 -> Z.testbit mem k = true ->
  Z.land mem (wrap (Z.shiftl 1 k)) <> 0.
Proof.
  intros Hk Hbit Hzero.
  assert (Z.testbit (Z.land mem (wrap (Z.shiftl 1 k))) k = true) as Hset.
  { rewrite Z.land_spec, testbit_bit, Hbit, Z.eqb_refl by lia. done. }
  rewrite Hzero, Z.testbit_0_l in Hset. discriminate.
Qed.

End OccupancyBits.

Section ProgramCase.
Import Word16.

(** The candidate patch number after the encoder part of the
    [PROGRAM_MODE] case. *)
Lemma V11_candidate_edit_value inp s :
  0 <= V11.candidatePatchNumber s < 16 ->
  V11.candidatePatchNumber (V11.candidate_edit inp s) =
    (if newPosition inp >? V11.oldPosition s + 3
     then (V11.candidatePatchNumber s - 1) mod 16
     else if newPosition inp <? V11.oldPosition s - 3
     then (V11.candidatePatchNumber s + 1) mod 16
     else V11.candidatePatchNumber s) /\
  0 <= V11.candidatePatchNumber (V11.candidate_edit inp s) < 16.
Proof.
  intros Hc.
  unfold V11.candidate_edit, NR_OF_MEMORY_CELLS, NUM_NEOP_LEDS.
  destruct (newPosition inp >? V11.oldPosition s + 3);
    [|destruct (newPosition inp <? V11.oldPosition s - 3)]; cbn.
  - destruct (Z.ltb_spec (V11.candidatePatchNumber s - 1) 0).
    + rewrite <- (Z.mod_unique (V11.candidatePatchNumber s - 1) 16 (-1) 15);
        lia.
    + rewrite Z.mod_small by lia. lia.
  - destruct (Z.gtb_spec (V11.candidatePatchNumber s + 1) (16 - 1)).
    + rewrite <- (Z.mod_unique (V11.candidatePatchNumber s + 1) 16 1 0);
        lia.
    + rewrite Z.mod_small by lia. lia.
  - lia.
Qed.

Lemma V10_candidate_edit_value inp s :
  0 <= V10.candidatePatchNumber s < 16 ->
  V10.candidatePatchNumber (V10.candidate_edit inp s) =
    (if newPosition inp >? V10.oldPosition s + 3
     then (V10.candidatePatchNumber s - 1) mod 16
     else if newPosition inp <? V10.oldPosition s - 3
     then (V10.candidatePatchNumber s + 1) mod 16
     else V10.candidatePatchNumber s) /\
  0 <= V10.candidatePatchNumber (V10.candidate_edit inp s) < 16.
Proof.
  intros Hc.
  unfold V10.candidate_edit, NR_OF_MEMORY_CELLS, NUM_NEOP_LEDS.
  destruct (newPosition inp >? V10.oldPosition s + 3);
    [|destruct (newPosition inp <? V10.oldPosition s - 3)]; cbn.
  - destruct (Z.ltb_spec (V10.candidatePatchNumber s - 1) 0).
    + rewrite <- (Z.mod_unique (V10.candidatePatchNumber s - 1) 16 (-1) 15);
        lia.
    + rewrite Z.mod_small by lia. lia.
  - destruct (Z.gtb_spec (V10.candidatePatchNumber s + 1) (16 - 1)).
    + rewrite <- (Z.mod_unique (V10.candidatePatchNumber s + 1) 16 1 0);
        lia.
    + rewrite Z.mod_small by lia. lia.
  - lia.
Qed.

(** The encoder part assigns the candidate patch number and
    [oldPosition] only. *)
Lemma V11_candidate_edit_frame inp s :
  V11.patches (V11.candidate_edit inp s) = V11.patches s /\
  V11.delayTime (V11.candidate_edit inp s) = V11.delayTime s /\
  V11.memoryCellsInUse (V11.candidate_edit inp s) = V11.memoryCellsInUse s /\
  V11.chosenPatchNumber (V11.candidate_edit inp s) = V11.chosenPatchNumber s /\
  V11.selectedTriggerChannel (V11.candidate_edit inp s)
    = V11.selectedTriggerChannel s /\
  V11.step (V11.candidate_edit inp s) = V11.step s /\
  V11.prevProgramButtonValue (V11.candidate_edit inp s)
    = V11.prevProgramButtonValue s /\
  V11.eeprom (V11.candidate_edit inp s) = V11.eeprom s.
Proof.
  unfold V11.candidate_edit.
  destruct (newPosition inp >? V11.oldPosition s + 3);
    [|destruct (newPosition inp <? V11.oldPosition s - 3)]; done.
Qed.

Lemma V10_candidate_edit_frame inp s :
  V10.currentPatch (V10.candidate_edit inp s) = V10.currentPatch s /\
  V10.patches (V10.candidate_edit inp s) = V10.patches s /\
  V10.delayTime (V10.candidate_edit inp s) = V10.delayTime s /\
  V10.memoryCellsInUse (V10.candidate_edit inp s) = V10.memoryCellsInUse s /\
  V10.chosenPatchNumber (V10.candidate_edit inp s) = V10.chosenPatchNumber s /\
  V10.selectedTriggerChannel (V10.candidate_edit inp s)
    = V10.selectedTriggerChannel s /\
  V10.step (V10.candidate_edit inp s) = V10.step s /\
  V10.prevProgramButtonValue (V10.candidate_edit inp s)
    = V10.prevProgramButtonValue s /\
  V10.eeprom (V10.candidate_edit inp s) = V10.eeprom s.
Proof.
  unfold V10.candidate_edit.
  destruct (newPosition inp >? V10.oldPosition s + 3);
    [|destruct (newPosition inp <? V10.oldPosition s - 3)]; done.
Qed.

Lemma V11_candidate_edit_wf inp s :
  V11.wf s -> V11.wf (V11.candidate_edit inp s).
Proof.
  intros (Hlen & Hch & Hca).
  destruct (V11_candidate_edit_frame inp s) as (Hp & _ & _ & Hc & _).
  unfold V11.wf. rewrite Hp, Hc. split; [done|]. split; [done|].
  by apply V11_candidate_edit_value.
Qed.

Lemma V10_candidate_edit_wf inp s :
  V10.wf s -> V10.wf (V10.candidate_edit inp s).
Proof.
  intros (Hlen & Hch & Hca).
  destruct (V10_candidate_edit_frame inp s) as (_ & Hp & _ & _ & Hc & _).
  unfold V10.wf. rewrite Hp, Hc. split; [done|]. split; [done|].
  by apply V10_candidate_edit_value.
Qed.

(** Recall, clear and store are defined on a bank of sixteen patches and
    leave the candidate patch number alone. *)
Lemma V11_program_ops_candidate s (b : option Channel) :
  V11.wf s ->
  exists s',
    match b with
    | Some TRIG_A => V11.recall s
    | Some TRIG_B => V11.clear s
    | Some TRIG_D => V11.store s
    | _ => Ok s
    end = Ok s' /\
    V11.candidatePatchNumber s' = V11.candidatePatchNumber s.
Proof.
  intros (Hlen & Hch & Hca). unfold NR_OF_MEMORY_CELLS, NUM_NEOP_LEDS in *.
  destruct (read_Ok (V11.patches s) (V11.candidatePatchNumber s))
    as (pc & Hpc & _); [lia|].
  destruct (read_Ok (V11.patches s) (V11.chosenPatchNumber s))
    as (p & Hp & _); [lia|].
  destruct b as [[]|]; try (by exists s).
  - unfold V11.store, V11.copyPatch.
    destruct (V11.prevProgramButtonValue s =? 0); [|by exists s].
    cbn. rewrite Hp. cbn. rewrite write_Ok by lia. cbn.
    rewrite shl_Ok by lia. cbn.
    destruct (read_Ok (<[Z.to_nat (V11.candidatePatchNumber s) := p]>
                         (V11.patches s)) (V11.chosenPatchNumber s))
      as (q & Hq & _); [rewrite length_insert; lia|].
    rewrite Hq. cbn. by eexists.
  - unfold V11.clear.
    destruct (V11.prevProgramButtonValue s =? 0); [|by exists s].
    cbn. rewrite shl_Ok by lia. cbn. by eexists.
  - unfold V11.recall.
    destruct (V11.prevProgramButtonValue s =? 0); [|by exists s].
    cbn. rewrite shl_Ok by lia. cbn.
    destruct (Z.land (V11.memoryCellsInUse s)
                (wrap (Z.shiftl 1 (V11.candidatePatchNumber s))) =? 0).
    + cbn. rewrite Hpc. cbn. rewrite write_Ok by lia. cbn. by eexists.
    + cbn. by eexists.
Qed.

Lemma V10_program_ops_candidate s (b : option Channel) :
  V10.wf s ->
  exists s',
    match b with
    | Some TRIG_A => V10.recall s
    | Some TRIG_B => V10.clear s
    | Some TRIG_D => V10.store s
    | _ => Ok s
    end = Ok s' /\
    V10.candidatePatchNumber s' = V10.candidatePatchNumber s.
Proof.
  intros (Hlen & Hch & Hca). unfold NR_OF_MEMORY_CELLS, NUM_NEOP_LEDS in *.
  destruct (read_Ok (V10.patches s) (V10.candidatePatchNumber s))
    as (pc & Hpc & _); [lia|].
  destruct b as [[]|]; try (by exists s).
  - unfold V10.store.
    destruct (V10.prevProgramButtonValue s =? 0); [|by exists s].
    cbn. rewrite shl_Ok by lia. cbn. rewrite Hpc. cbn.
    rewrite write_Ok by lia. cbn. by eexists.
  - unfold V10.clear.
    destruct (V10.prevProgramButtonValue s =? 0); [|by exists s].
    cbn. rewrite shl_Ok by lia. cbn. rewrite Hpc. cbn.
    rewrite write_Ok by lia. cbn. by eexists.
  - unfold V10.recall.
    destruct (V10.prevProgramButtonValue s =? 0); [|by exists s].
    cbn. rewrite Hpc. cbn. by eexists.
Qed.

End ProgramCase.

(** X8: the candidate patch number wraps around.  In the [switch], in
    [PROGRAM_MODE], with sixteen patches in the bank and both patch
    numbers within 0..15, the case is defined whichever button is read,
    and a detent moves the candidate patch number by one within 0..15:
    down from 0 gives 15 and up from 15 gives 0; without a detent it
    stays.  Recall, clear and store, which the same case may run, use the
    number so moved and leave it alone. *)
Theorem candidate_wraps_around :
  (forall flag inp s,
     V11.wf s -> V11.mode s = PROGRAM_MODE ->
     exists s',
       V11.mode_switch flag inp s = Ok s' /\
       V11.candidatePatchNumber s' =
         (if newPosition inp >? V11.oldPosition s + 3
          then (V11.candidatePatchNumber s - 1) mod 16
          else if newPosition inp <? V11.oldPosition s - 3
          then (V11.candidatePatchNumber s + 1) mod 16
          else V11.candidatePatchNumber s) /\
       0 <= V11.candidatePatchNumber s' < 16) /\
  (forall inp s,
     V10.wf s -> V10.mode s = PROGRAM_MODE ->
     exists s',
       V10.mode_switch inp s = Ok s' /\
       V10.candidatePatchNumber s' =
         (if newPosition inp >? V10.oldPosition s + 3
          then (V10.candidatePatchNumber s - 1) mod 16
          else if newPosition inp <? V10.oldPosition s - 3
          then (V10.candidatePatchNumber s + 1) mod 16
          else V10.candidatePatchNumber s) /\
       0 <= V10.candidatePatchNumber s' < 16).
Proof.
  split.
  - intros flag inp s Hwf Hmode.
    rewrite V11_switch_program by done.
    destruct (V11_program_ops_candidate (V11.candidate_edit inp s)
                (button inp) (V11_candidate_edit_wf inp s Hwf))
      as (s' & Hop & Hcand).
    exists s'. split; [by destruct (button inp) as [[]|]|].
    rewrite Hcand. apply V11_candidate_edit_value. apply Hwf.
  - intros inp s Hwf Hmode.
    rewrite V10_switch_program by done.
    destruct (V10_program_ops_candidate (V10.candidate_edit inp s)
                (button inp) (V10_candidate_edit_wf inp s Hwf))
      as (s' & Hop & Hcand).
    exists s'. split; [by destruct (button inp) as [[]|]|].
    rewrite Hcand. apply V10_candidate_edit_value. apply Hwf.
Qed.

Lemma candidate_wraps_around_witness :
  exists s',
    V11.mode_switch true (press TRIG_B 4 0) (V11.after_setup PROGRAM_MODE)
      = Ok s' /\
    V11.candidatePatchNumber s' = (0 - 1) mod 16 /\
    0 <= V11.candidatePatchNumber s' < 16.
Proof.
  destruct candidate_wraps_around as [Hv11 _].
  apply (Hv11 true (press TRIG_B 4 0) (V11.after_setup PROGRAM_MODE)).
  - unfold V11.wf. simpl. unfold NR_OF_MEMORY_CELLS, NUM_NEOP_LEDS. lia.
  - reflexivity.
Defined.

Section ClearStore.
Import Word16.

(** What [case TRIG_B] does when the program buttons are armed. *)
Lemma V11_clear_effect s :
  V11.wf s -> V11.prevProgramButtonValue s = 0 ->
  exists s',
    V11.clear s = Ok s' /\
    V11.patches s' = V11.patches s /\
    V11.chosenPatchNumber s' = V11.chosenPatchNumber s /\
    V11.candidatePatchNumber s' = V11.candidatePatchNumber s /\
    Z.testbit (V11.memoryCellsInUse s') (V11.candidatePatchNumber s) = false /\
    same_cells_except (V11.candidatePatchNumber s)
      (V11.memoryCellsInUse s) (V11.memoryCellsInUse s') /\
    V11.ee_patches (V11.eeprom s') =
      <[Z.to_nat (V11.candidatePatchNumber s) := V11.emptyPatch]>
        (V11.ee_patches (V11.eeprom s)) /\
    V11.ee_patchNumber (V11.eeprom s') = V11.candidatePatchNumber s /\
    V11.ee_memoryCellsInUse (V11.eeprom s') = V11.memoryCellsInUse s' /\
    V11.prevProgramButtonValue s' = 1.
Proof.
  intros (Hlen & Hch & Hca) Hprev.
  unfold NR_OF_MEMORY_CELLS, NUM_NEOP_LEDS in *.
  unfold V11.clear. rewrite Hprev. cbn. rewrite shl_Ok by lia. cbn.
  eexists. split; [reflexivity|]. cbn.
  unfold NR_OF_MEMORY_CELLS, NUM_NEOP_LEDS.
  destruct (Z.leb_spec 0 (V11.candidatePatchNumber s)); [|lia].
  destruct (Z.ltb_spec (V11.candidatePatchNumber s) 16); [|lia]. cbn.
  repeat split; try done.
  + by apply testbit_clear_bit.
  + intros j Hj Hne. by apply clear_bit_other.
Qed.

Lemma V10_clear_effect s :
  V10.wf s -> V10.prevProgramButtonValue s = 0 ->
  exists s',
    V10.clear s = Ok s' /\
    V10.currentPatch s' = V10.currentPatch s /\
    V10.patches s' =
      <[Z.to_nat (V10.candidatePatchNumber s) := V10.emptyPatch]>
        (V10.patches s) /\
    V10.chosenPatchNumber s' = V10.chosenPatchNumber s /\
    V10.candidatePatchNumber s' = V10.candidatePatchNumber s /\
    Z.testbit (V10.memoryCellsInUse s') (V10.candidatePatchNumber s) = false /\
    same_cells_except (V10.candidatePatchNumber s)
      (V10.memoryCellsInUse s) (V10.memoryCellsInUse s') /\
    V10.ee_patches (V10.eeprom s') =
      <[Z.to_nat (V10.candidatePatchNumber s) := V10.emptyPatch]>
        (V10.ee_patches (V10.eeprom s)) /\
    V10.ee_patchNumber (V10.eeprom s') = V10.candidatePatchNumber s /\
    V10.ee_memoryCellsInUse (V10.eeprom s') = V10.memoryCellsInUse s' /\
    V10.prevProgramButtonValue s' = 1.
Proof.
  intros (Hlen & Hch & Hca) Hprev.
  unfold NR_OF_MEMORY_CELLS, NUM_NEOP_LEDS in *.
  destruct (read_Ok (V10.patches s) (V10.candidatePatchNumber s))
    as (dst & Hr & _); [lia|].
  unfold V10.clear. rewrite Hprev. cbn. rewrite shl_Ok by lia. cbn.
  rewrite Hr. cbn. rewrite write_Ok by lia. cbn.
  eexists. split; [reflexivity|]. cbn.
  unfold NR_OF_MEMORY_CELLS, NUM_NEOP_LEDS.
  destruct (Z.leb_spec 0 (V10.candidatePatchNumber s)); [|lia].
  destruct (Z.ltb_spec (V10.candidatePatchNumber s) 16); [|lia]. cbn.
  repeat split; try done.
  + by apply testbit_clear_bit.
  + intros j Hj Hne. by apply clear_bit_other.
Qed.

(** What [case TRIG_D] does when the program buttons are armed. *)
Lemma V11_store_effect s p :
  V11.wf s -> V11.prevProgramButtonValue s = 0 ->
  read (V11.patches s) (V11.chosenPatchNumber s) = Ok p ->
  exists s',
    V11.store s = Ok s' /\
    V11.patches s' =
      <[Z.to_nat (V11.candidatePatchNumber s) := p]> (V11.patches s) /\
    V11.chosenPatchNumber s' = V11.chosenPatchNumber s /\
    V11.candidatePatchNumber s' = V11.candidatePatchNumber s /\
    Z.testbit (V11.memoryCellsInUse s') (V11.candidatePatchNumber s) = true /\
    same_cells_except (V11.candidatePatchNumber s)
      (V11.memoryCellsInUse s) (V11.memoryCellsInUse s') /\
    V11.ee_patches (V11.eeprom s') =
      <[Z.to_nat (V11.candidatePatchNumber s) := p]>
        (V11.ee_patches (V11.eeprom s)) /\
    V11.ee_patchNumber (V11.eeprom s') = V11.candidatePatchNumber s /\
    V11.ee_memoryCellsInUse (V11.eeprom s') = V11.memoryCellsInUse s' /\
    V11.prevProgramButtonValue s' = 1.
Proof.
  intros (Hlen & Hch & Hca) Hprev Hr.
  unfold NR_OF_MEMORY_CELLS, NUM_NEOP_LEDS in *.
  assert (read (<[Z.to_nat (V11.candidatePatchNumber s) := p]> (V11.patches s))
            (V11.chosenPatchNumber s) = Ok p) as Hr'.
  { destruct (Z.eq_dec (V11.chosenPatchNumber s) (V11.candidatePatchNumber s))
      as [->|Hne]; [apply read_write; lia|].
    unfold read in *.
    rewrite (proj2 (index_ok_spec _ _)) in Hr by lia.
    rewrite (proj2 (index_ok_spec _ _)) by (rewrite length_insert; lia).
    rewrite list_lookup_insert_ne by lia. exact Hr. }
  unfold V11.store, V11.copyPatch. rewrite Hprev. cbn.
  rewrite Hr. cbn. rewrite write_Ok by lia. cbn.
  rewrite shl_Ok by lia. cbn. rewrite Hr'. cbn.
  eexists. split; [reflexivity|]. cbn.
  unfold NR_OF_MEMORY_CELLS, NUM_NEOP_LEDS.
  destruct (Z.leb_spec 0 (V11.candidatePatchNumber s)); [|lia].
  destruct (Z.ltb_spec (V11.candidatePatchNumber s) 16); [|lia]. cbn.
  repeat split; try done.
  + rewrite set_bit_spec, Z.eqb_refl by lia. apply orb_true_r.
  + intros j Hj Hne. rewrite set_bit_spec by lia.
    destruct (Z.eqb_spec j (V11.candidatePatchNumber s)); [lia|].
    apply orb_false_r.
Qed.

Lemma V10_store_effect s :
  V10.wf s -> V10.prevProgramButtonValue s = 0 ->
  exists s' stored,
    V10.store s = Ok s' /\
    V10.currentPatch s' = V10.currentPatch s /\
    V10.patches s' =
      <[Z.to_nat (V10.candidatePatchNumber s) := stored]> (V10.patches s) /\
    V10.pulses stored = V10.pulses (V10.currentPatch s) /\
    V10.patternLength stored = V10.patternLength (V10.currentPatch s) /\
    V10.channelPattern stored = V10.channelPattern (V10.currentPatch s) /\
    V10.chosenPatchNumber s' = V10.chosenPatchNumber s /\
    V10.candidatePatchNumber s' = V10.candidatePatchNumber s /\
    Z.testbit (V10.memoryCellsInUse s') (V10.candidatePatchNumber s) = true /\
    same_cells_except (V10.candidatePatchNumber s)
      (V10.memoryCellsInUse s) (V10.memoryCellsInUse s') /\
    V10.ee_patches (V10.eeprom s') =
      <[Z.to_nat (V10.candidatePatchNumber s) := V10.currentPatch s]>
        (V10.ee_patches (V10.eeprom s)) /\
    V10.ee_patchNumber (V10.eeprom s') = V10.candidatePatchNumber s /\
    V10.ee_memoryCellsInUse (V10.eeprom s') = V10.memoryCellsInUse s' /\
    V10.prevProgramButtonValue s' = 1.
Proof.
  intros (Hlen & Hch & Hca) Hprev.
  unfold NR_OF_MEMORY_CELLS, NUM_NEOP_LEDS in *.
  destruct (read_Ok (V10.patches s) (V10.candidatePatchNumber s))
    as (dst & Hr & _); [lia|].
  unfold V10.store. rewrite Hprev. cbn. rewrite shl_Ok by lia. cbn.
  rewrite Hr. cbn. rewrite write_Ok by lia. cbn.
  eexists _, _. split; [reflexivity|]. cbn.
  unfold NR_OF_MEMORY_CELLS, NUM_NEOP_LEDS.
  destruct (Z.leb_spec 0 (V10.candidatePatchNumber s)); [|lia].
  destruct (Z.ltb_spec (V10.candidatePatchNumber s) 16); [|lia]. cbn.
  repeat split; try done; try (by destruct (V10.currentPatch s) as [[] [] []]).
  + rewrite set_bit_spec, Z.eqb_refl by lia. apply orb_true_r.
  + intros j Hj Hne. rewrite set_bit_spec by lia.
    destruct (Z.eqb_spec j (V10.candidatePatchNumber s)); [lia|].
    apply orb_false_r.
Qed.

End ClearStore.

(** X9: clearing a cell.  In the [switch], in [PROGRAM_MODE] and with
    the program buttons armed ([prevProgramButtonValue] is 0), the case
    of button B is defined; with k the candidate patch number after the
    encoder part of the case, it clears the occupancy bit of cell k and
    of no other cell, writes the empty patch to record k of the EEPROM
    together with the header, in which k becomes the patch number read at
    the next start, disarms the program buttons and does not choose
    another patch.  The [switch] of version 1.1 leaves the bank in memory
    as it found it (the cell is emptied only when it is recalled); that
    of version 1.0 empties cell k of the bank and leaves the current
    patch as it is. *)
Theorem clear_frees_candidate_cell :
  (forall flag inp s k,
     V11.wf s -> V11.mode s = PROGRAM_MODE -> button inp = Some TRIG_B ->
     V11.prevProgramButtonValue s = 0 ->
     k = V11.candidatePatchNumber (V11.candidate_edit inp s) ->
     exists s',
       V11.mode_switch flag inp s = Ok s' /\
       V11.patches s' = V11.patches s /\
       V11.chosenPatchNumber s' = V11.chosenPatchNumber s /\
       V11.candidatePatchNumber s' = k /\
       Z.testbit (V11.memoryCellsInUse s') k = false /\
       same_cells_except k (V11.memoryCellsInUse s) (V11.memoryCellsInUse s') /\
       V11.ee_patches (V11.eeprom s') =
         <[Z.to_nat k := V11.emptyPatch]> (V11.ee_patches (V11.eeprom s)) /\
       V11.ee_patchNumber (V11.eeprom s') = k /\
       V11.ee_memoryCellsInUse (V11.eeprom s') = V11.memoryCellsInUse s' /\
       V11.prevProgramButtonValue s' = 1) /\
  (forall inp s k,
     V10.wf s -> V10.mode s = PROGRAM_MODE -> button inp = Some TRIG_B ->
     V10.prevProgramButtonValue s = 0 ->
     k = V10.candidatePatchNumber (V10.candidate_edit inp s) ->
     exists s',
       V10.mode_switch inp s = Ok s' /\
       V10.currentPatch s' = V10.currentPatch s /\
       V10.patches s' = <[Z.to_nat k := V10.emptyPatch]> (V10.patches s) /\
       V10.chosenPatchNumber s' = V10.chosenPatchNumber s /\
       V10.candidatePatchNumber s' = k /\
       Z.testbit (V10.memoryCellsInUse s') k = false /\
       same_cells_except k (V10.memoryCellsInUse s) (V10.memoryCellsInUse s') /\
       V10.ee_patches (V10.eeprom s') =
         <[Z.to_nat k := V10.emptyPatch]> (V10.ee_patches (V10.eeprom s)) /\
       V10.ee_patchNumber (V10.eeprom s') = k /\
       V10.ee_memoryCellsInUse (V10.eeprom s') = V10.memoryCellsInUse s' /\
       V10.prevProgramButtonValue s' = 1).
Proof.
  split.
  - intros flag inp s k Hwf Hmode Hb Hprev ->.
    rewrite V11_switch_program, Hb by done.
    destruct (V11_candidate_edit_frame inp s)
      as (Hp & _ & Hm & Hc & _ & _ & Hq & He).
    destruct (V11_clear_effect (V11.candidate_edit inp s))
      as (s' & Hclear & H);
      [by apply V11_candidate_edit_wf|by rewrite Hq|].
    exists s'. split; [exact Hclear|].
    by rewrite Hp, Hm, Hc, He in H.
  - intros inp s k Hwf Hmode Hb Hprev ->.
    rewrite V10_switch_program, Hb by done.
    destruct (V10_candidate_edit_frame inp s)
      as (Hu & Hp & _ & Hm & Hc & _ & _ & Hq & He).
    destruct (V10_clear_effect (V10.candidate_edit inp s))
      as (s' & Hclear & H);
      [by apply V10_candidate_edit_wf|by rewrite Hq|].
    exists s'. split; [exact Hclear|].
    by rewrite Hu, Hp, Hm, Hc, He in H.
Qed.

Lemma clear_frees_candidate_cell_witness :
  exists s',
    V11.mode_switch true (press TRIG_B (-4) 0) (V11.after_setup PROGRAM_MODE)
      = Ok s' /\
    V11.patches s' = V11.initialBank /\
    V11.chosenPatchNumber s' = 0 /\
    V11.candidatePatchNumber s' = 1 /\
    Z.testbit (V11.memoryCellsInUse s') 1 = false /\
    same_cells_except 1 1 (V11.memoryCellsInUse s') /\
    V11.ee_patches (V11.eeprom s') =
      <[Z.to_nat 1 := V11.emptyPatch]> V11.initialBank /\
    V11.ee_patchNumber (V11.eeprom s') = 1 /\
    V11.ee_memoryCellsInUse (V11.eeprom s') = V11.memoryCellsInUse s' /\
    V11.prevProgramButtonValue s' = 1.
Proof.
  destruct clear_frees_candidate_cell as [Hv11 _].
  apply (Hv11 true (press TRIG_B (-4) 0) (V11.after_setup PROGRAM_MODE) 1).
  - unfold V11.wf. simpl. unfold NR_OF_MEMORY_CELLS, NUM_NEOP_LEDS. lia.
  - reflexivity.
  - reflexivity.
  - reflexivity.
  - reflexivity.
Defined.

(** X10: storing a patch.  In the [switch], in [PROGRAM_MODE] and with
    the program buttons armed ([prevProgramButtonValue] is 0), the case
    of button D is defined; with k the candidate patch number after the
    encoder part of the case, it copies the live patch (version 1.1: the
    chosen patch of the bank, version 1.0: the current patch) into cell k
    of the bank, sets the occupancy bit of cell k and changes no other,
    writes the live patch to record k of the EEPROM together with the
    header, in which k becomes the patch number read at the next start,
    and disarms the program buttons; the chosen patch number in memory
    stays as it is. *)
Theorem store_fills_candidate_cell :
  (forall flag inp s p k,
     V11.wf s -> V11.mode s = PROGRAM_MODE -> button inp = Some TRIG_D ->
     V11.prevProgramButtonValue s = 0 ->
     read (V11.patches s) (V11.chosenPatchNumber s) = Ok p ->
     k = V11.candidatePatchNumber (V11.candidate_edit inp s) ->
     exists s',
       V11.mode_switch flag inp s = Ok s' /\
       V11.patches s' = <[Z.to_nat k := p]> (V11.patches s) /\
       V11.chosenPatchNumber s' = V11.chosenPatchNumber s /\
       V11.candidatePatchNumber s' = k /\
       Z.testbit (V11.memoryCellsInUse s') k = true /\
       same_cells_except k (V11.memoryCellsInUse s) (V11.memoryCellsInUse s') /\
       V11.ee_patches (V11.eeprom s') =
         <[Z.to_nat k := p]> (V11.ee_patches (V11.eeprom s)) /\
       V11.ee_patchNumber (V11.eeprom s') = k /\
       V11.ee_memoryCellsInUse (V11.eeprom s') = V11.memoryCellsInUse s' /\
       V11.prevProgramButtonValue s' = 1) /\
  (forall inp s k,
     V10.wf s -> V10.mode s = PROGRAM_MODE -> button inp = Some TRIG_D ->
     V10.prevProgramButtonValue s = 0 ->
     k = V10.candidatePatchNumber (V10.candidate_edit inp s) ->
     exists s' stored,
       V10.mode_switch inp s = Ok s' /\
       V10.currentPatch s' = V10.currentPatch s /\
       V10.patches s' = <[Z.to_nat k := stored]> (V10.patches s) /\
       V10.pulses stored = V10.pulses (V10.currentPatch s) /\
       V10.patternLength stored = V10.patternLength (V10.currentPatch s) /\
       V10.channelPattern stored = V10.channelPattern (V10.currentPatch s) /\
       V10.chosenPatchNumber s' = V10.chosenPatchNumber s /\
       V10.candidatePatchNumber s' = k /\
       Z.testbit (V10.memoryCellsInUse s') k = true /\
       same_cells_except k (V10.memoryCellsInUse s) (V10.memoryCellsInUse s') /\
       V10.ee_patches (V10.eeprom s') =
         <[Z.to_nat k := V10.currentPatch s]> (V10.ee_patches (V10.eeprom s)) /\
       V10.ee_patchNumber (V10.eeprom s') = k /\
       V10.ee_memoryCellsInUse (V10.eeprom s') = V10.memoryCellsInUse s' /\
       V10.prevProgramButtonValue s' = 1).
Proof.
  split.
  - intros flag inp s p k Hwf Hmode Hb Hprev Hr ->.
    rewrite V11_switch_program, Hb by done.
    destruct (V11_candidate_edit_frame inp s)
      as (Hp & _ & Hm & Hc & _ & _ & Hq & He).
    destruct (V11_store_effect (V11.candidate_edit inp s) p)
      as (s' & Hstore & H);
      [by apply V11_candidate_edit_wf|by rewrite Hq|by rewrite Hp, Hc|].
    exists s'. split; [exact Hstore|].
    by rewrite Hp, Hm, Hc, He in H.
  - intros inp s k Hwf Hmode Hb Hprev ->.
    rewrite V10_switch_program, Hb by done.
    destruct (V10_candidate_edit_frame inp s)
      as (Hu & Hp & _ & Hm & Hc & _ & _ & Hq & He).
    destruct (V10_store_effect (V10.candidate_edit inp s))
      as (s' & stored & Hstore & H);
      [by apply V10_candidate_edit_wf|by rewrite Hq|].
    exists s', stored. split; [exact Hstore|].
    by rewrite Hu, Hp, Hm, Hc, He in H.
Qed.

Lemma store_fills_candidate_cell_witness :
  exists s' stored,
    V10.mode_switch (press TRIG_D 4 0) (V10.after_setup PROGRAM_MODE)
      = Ok s' /\
    V10.currentPatch s' = V10.currentPatch (V10.after_setup PROGRAM_MODE) /\
    V10.patches s' = <[Z.to_nat 15 := stored]> V10.initialBank /\
    V10.pulses stored = Arr4 5 5 3 4 /\
    V10.patternLength stored = Arr4 14 15 15 12 /\
    V10.channelPattern stored = Arr4 10532 18724 16912 2340 /\
    V10.chosenPatchNumber s' = 0 /\
    V10.candidatePatchNumber s' = 15 /\
    Z.testbit (V10.memoryCellsInUse s') 15 = true /\
    same_cells_except 15 1 (V10.memoryCellsInUse s') /\
    V10.ee_patches (V10.eeprom s') =
      <[Z.to_nat 15 := V10.currentPatch (V10.after_setup PROGRAM_MODE)]>
        V10.initialBank /\
    V10.ee_patchNumber (V10.eeprom s') = 15 /\
    V10.ee_memoryCellsInUse (V10.eeprom s') = V10.memoryCellsInUse s' /\
    V10.prevProgramButtonValue s' = 1.
Proof.
  destruct store_fills_candidate_cell as [_ Hv10].
  apply (Hv10 (press TRIG_D 4 0) (V10.after_setup PROGRAM_MODE) 15).
  - unfold V10.wf. simpl. unfold NR_OF_MEMORY_CELLS, NUM_NEOP_LEDS. lia.
  - reflexivity.
  - reflexivity.
  - reflexivity.
  - reflexivity.
Defined.


(** ** Store, then recall *)


Section StoreRecall.

Import Word16 V11.



End StoreRecall.

Section StoreRecallV10.

Import Word16 V10.


End StoreRecallV10.


(** ** A program button that is held *)

Section HeldButton.

Import Word16.





End HeldButton.


(** * Further properties of the start-up *)

Lemma popcount_le w n : (popcount w n <= w)%nat.
Proof.
  induction w as [|w IH]; cbn [popcount]; [lia|].
  destruct (Z.testbit n (Z.of_nat w)); lia.
Qed.

(** When every cell below [k] is in use, [k] cells are in use below
    [k]. *)
Lemma popcount_prefix k n :
  (forall j, (j < k)%nat -> Z.testbit n (Z.of_nat j) = true) ->
  popcount k n = k.
Proof.
  induction k as [|k IH]; intros Hall; cbn [popcount]; [done|].
  rewrite (Hall k) by lia. rewrite IH; [done|]. intros j Hj. apply Hall. lia.
Qed.

Section Records.

Import Word16.

Context {A : Type}.
Variable createEmptyPatch : A -> A.
Variable mem : Z.
Variable records : list A.
Hypothesis records_length : length records = 16%nat.

(** The reading loop, started at cell [i] with [address] at the number
    of cells in use below [i]. *)
Lemma read_cells_spec n : forall (i : nat) (patches : list A),
  (i + n <= 16)%nat -> length patches = 16%nat ->
  exists ps,
    read_cells createEmptyPatch n (Z.of_nat i) (Z.of_nat (popcount i mem))
      mem records patches = Ok ps /\
    length ps = 16%nat /\
    forall j, (j < 16)%nat ->
      ps !! j =
        if (i <=? j)%nat && (j <? i + n)%nat then
          if Z.testbit mem (Z.of_nat j) then records !! popcount j mem
          else createEmptyPatch <$> patches !! j
        else patches !! j.
Proof.
  induction n as [|n IH]; intros i patches Hin Hlen.
  - exists patches. split; [done|]. split; [done|]. intros j Hj.
    destruct (Nat.leb_spec i j), (Nat.ltb_spec j (i + 0)); simpl; done || lia.
  - cbn [read_cells]. rewrite shl_Ok by lia. cbn [mbind result_bind].
    destruct (Z.testbit mem (Z.of_nat i)) eqn:Hbit.
    + destruct (Z.eqb_spec (Z.land mem (wrap (Z.shiftl 1 (Z.of_nat i)))) 0)
        as [E|_].
      { exfalso. eapply (land_bit_nonzero mem (Z.of_nat i)); [lia|done|done]. }
      destruct (read_Ok records (Z.of_nat (popcount i mem)))
        as (r & Hr & Hr'); [pose proof (popcount_le i mem); lia|].
      rewrite Hr. cbn [mbind result_bind]. rewrite write_Ok by lia.
      cbn [mbind result_bind].
      replace (Z.of_nat i + 1) with (Z.of_nat (S i)) by lia.
      replace (Z.of_nat (popcount i mem) + 1)
        with (Z.of_nat (popcount (S i) mem))
        by (cbn [popcount]; rewrite Hbit; lia).
      destruct (IH (S i) (<[Z.to_nat (Z.of_nat i) := r]> patches))
        as (ps & Hps & Hlenps & Hspec);
        [lia|by rewrite length_insert|].
      exists ps. split; [exact Hps|]. split; [exact Hlenps|].
      intros j Hj. rewrite (Hspec j Hj). rewrite Nat2Z.id in *.
      destruct (Nat.eq_dec j i) as [->|Hne].
      * destruct (Nat.leb_spec (S i) i); [lia|].
        destruct (Nat.leb_spec i i); [|lia].
        destruct (Nat.ltb_spec i (i + S n)); [|lia]. simpl.
        rewrite Hbit, list_lookup_insert_eq by lia. done.
      * rewrite list_lookup_insert_ne by lia.
        destruct (Nat.leb_spec (S i) j), (Nat.leb_spec i j),
          (Nat.ltb_spec j (S i + n)), (Nat.ltb_spec j (i + S n));
          simpl; done || lia.
    + rewrite land_bit_zero by (done || lia). cbn [Z.eqb].
      destruct (read_Ok patches (Z.of_nat i)) as (p & Hp & Hp'); [lia|].
      rewrite Hp. cbn [mbind result_bind]. rewrite write_Ok by lia.
      cbn [mbind result_bind].
      replace (Z.of_nat i + 1) with (Z.of_nat (S i)) by lia.
      replace (Z.of_nat (popcount i mem))
        with (Z.of_nat (popcount (S i) mem))
        by (cbn [popcount]; rewrite Hbit; lia).
      destruct (IH (S i)
                  (<[Z.to_nat (Z.of_nat i) := createEmptyPatch p]> patches))
        as (ps & Hps & Hlenps & Hspec);
        [lia|by rewrite length_insert|].
      exists ps. split; [exact Hps|]. split; [exact Hlenps|].
      intros j Hj. rewrite (Hspec j Hj). rewrite Nat2Z.id in *.
      destruct (Nat.eq_dec j i) as [->|Hne].
      * destruct (Nat.leb_spec (S i) i); [lia|].
        destruct (Nat.leb_spec i i); [|lia].
        destruct (Nat.ltb_spec i (i + S n)); [|lia]. simpl.
        rewrite Hbit, list_lookup_insert_eq, Hp' by lia. done.
      * rewrite list_lookup_insert_ne by lia.
        destruct (Nat.leb_spec (S i) j), (Nat.leb_spec i j),
          (Nat.ltb_spec j (S i + n)), (Nat.ltb_spec j (i + S n));
          simpl; done || lia.
Qed.

(** The whole loop over the sixteen cells. *)
Lemma read_cells_all (patches : list A) :
  length patches = 16%nat ->
  exists ps,
    read_cells createEmptyPatch 16 0 0 mem records patches = Ok ps /\
    length ps = 16%nat /\
    forall j, (j < 16)%nat ->
      ps !! j =
        if Z.testbit mem (Z.of_nat j) then records !! popcount j mem
        else createEmptyPatch <$> patches !! j.
Proof.
  intros Hlen.
  destruct (read_cells_spec 16 0 patches) as (ps & Hps & Hlenps & Hspec);
    [lia|done|].
  exists ps. split; [exact Hps|]. split; [exact Hlenps|].
  intros j Hj. rewrite (Hspec j Hj).
  destruct (Nat.leb_spec 0 j); [|lia].
  destruct (Nat.ltb_spec j (0 + 16)); [|lia]. done.
Qed.

End Records.



Section StoreRestart.

Import Word16.

Lemma V11_store_eeprom s p :
  V11.wf s -> V11.prevProgramButtonValue s = 0 ->
  read (V11.patches s) (V11.chosenPatchNumber s) = Ok p ->
  exists s1,
    V11.store s = Ok s1 /\
    V11.eeprom s1 =
      V11.writePatchToMemory p
        (Z.lor (V11.memoryCellsInUse s)
           (wrap (Z.shiftl 1 (V11.candidatePatchNumber s))))
        (V11.candidatePatchNumber s) (V11.delayTime s)
        (V11.selectedTriggerChannel s) (V11.eeprom s).
Proof.
  intros (Hlen & Hch & Hca) Hprev Hr.
  unfold NR_OF_MEMORY_CELLS, NUM_NEOP_LEDS in *.
  assert (read (<[Z.to_nat (V11.candidatePatchNumber s) := p]> (V11.patches s))
            (V11.chosenPatchNumber s) = Ok p) as Hr'.
  { destruct (Z.eq_dec (V11.chosenPatchNumber s) (V11.candidatePatchNumber s))
      as [->|Hne]; [apply read_write; lia|].
    unfold read in *.
    rewrite (proj2 (index_ok_spec _ _)) in Hr by lia.
    rewrite (proj2 (index_ok_spec _ _)) by (rewrite length_insert; lia).
    rewrite list_lookup_insert_ne by lia. exact Hr. }
  unfold V11.store, V11.copyPatch. rewrite Hprev. cbn.
  rewrite Hr. cbn. rewrite write_Ok by lia. cbn.
  rewrite shl_Ok by lia. cbn. rewrite Hr'. cbn.
  eexists. split; reflexivity.
Qed.

Lemma V10_store_eeprom s :
  V10.wf s -> V10.prevProgramButtonValue s = 0 ->
  exists s1,
    V10.store s = Ok s1 /\
    V10.eeprom s1 =
      V10.writePatchToEEPROM (V10.currentPatch s)
        (Z.lor (V10.memoryCellsInUse s)
           (wrap (Z.shiftl 1 (V10.candidatePatchNumber s))))
        (V10.candidatePatchNumber s) (V10.delayTime s)
        (V10.selectedTriggerChannel s) (V10.eeprom s).
Proof.
  intros (Hlen & Hch & Hca) Hprev.
  unfold NR_OF_MEMORY_CELLS, NUM_NEOP_LEDS in *.
  destruct (read_Ok (V10.patches s) (V10.candidatePatchNumber s))
    as (dst & Hr & _); [lia|].
  unfold V10.store. rewrite Hprev. cbn. rewrite shl_Ok by lia. cbn.
  rewrite Hr. cbn. rewrite write_Ok by lia. cbn.
  eexists. split; reflexivity.
Qed.

(** The occupancy word after a store has every cell up to [k] in use
    when every cell below [k] was. *)
Lemma popcount_after_store mem k :
  0 <= k < 16 ->
  (forall j, 0 <= j < k -> Z.testbit mem j = true) ->
  popcount (Z.to_nat k) (Z.lor mem (wrap (Z.shiftl 1 k))) = Z.to_nat k.
Proof.
  intros Hk Hbelow. apply popcount_prefix. intros j Hj.
  rewrite set_bit_spec, Hbelow by lia. done.
Qed.

End StoreRestart.

(** X14: a stored patch survives a restart.  When every cell below the
    candidate cell k is in use, storing the live patch in cell k and
    restarting the sketch is defined and starts it with cell k chosen,
    with the stored patch in cell k of the bank (and, in version 1.0, as
    the current patch), and with the tempo and the selected channel of the
    moment of the store. *)
Theorem stored_patch_survives_restart :
  (forall m s p,
     V11.wf s -> V11.prevProgramButtonValue s = 0 ->
     length (V11.ee_patches (V11.eeprom s)) = 16%nat ->
     read (V11.patches s) (V11.chosenPatchNumber s) = Ok p ->
     (forall j, 0 <= j < V11.candidatePatchNumber s ->
                Z.testbit (V11.memoryCellsInUse s) j = true) ->
     exists s1 s2,
       V11.store s = Ok s1 /\
       V11.setup m (V11.eeprom s1) = Ok s2 /\
       V11.chosenPatchNumber s2 = V11.candidatePatchNumber s /\
       read (V11.patches s2) (V11.chosenPatchNumber s2) = Ok p /\
       V11.memoryCellsInUse s2 = V11.memoryCellsInUse s1 /\
       V11.delayTime s2 = V11.delayTime s /\
       V11.selectedTriggerChannel s2 = V11.selectedTriggerChannel s) /\
  (forall m s,
     V10.wf s -> V10.prevProgramButtonValue s = 0 ->
     length (V10.ee_patches (V10.eeprom s)) = 16%nat ->
     (forall j, 0 <= j < V10.candidatePatchNumber s ->
                Z.testbit (V10.memoryCellsInUse s) j = true) ->
     exists s1 s2,
       V10.store s = Ok s1 /\
       V10.setup m (V10.eeprom s1) = Ok s2 /\
       V10.chosenPatchNumber s2 = V10.candidatePatchNumber s /\
       V10.currentPatch s2 = V10.currentPatch s /\
       read (V10.patches s2) (V10.chosenPatchNumber s2)
         = Ok (V10.currentPatch s) /\
       V10.delayTime s2 = V10.delayTime s /\
       V10.selectedTriggerChannel s2 = V10.selectedTriggerChannel s).
Proof.
  split.
  - intros m s p Hwf Hprev Hee Hr Hbelow.
    pose proof Hwf as (Hlen & Hch & Hca).
    unfold NR_OF_MEMORY_CELLS, NUM_NEOP_LEDS in *.
    destruct (V11_store_eeprom s p Hwf Hprev Hr) as (s1 & Hstore & Hee1).
    set (k := V11.candidatePatchNumber s) in *.
    set (mem' := Z.lor (V11.memoryCellsInUse s) (Word16.wrap (Z.shiftl 1 k)))
      in *.
    assert (V11.memoryCellsInUse s1 = mem') as Hmem1.
    { unfold V11.store, V11.copyPatch in Hstore. rewrite Hprev in Hstore.
      cbn in Hstore. invert_Ok.
      rewrite shl_Ok in E0 by (cbn; fold k; lia). by invert_Ok. }
    destruct (read_cells_all V11.createEmptyPatch mem'
                (<[Z.to_nat k := p]> (V11.ee_patches (V11.eeprom s))))
      with (patches := replicate 16 V11.zeroPatch)
      as (ps & Hps & Hlenps & Hspec);
      [by rewrite length_insert|done|].
    assert (ps !! Z.to_nat k = Some p) as Hk.
    { rewrite (Hspec (Z.to_nat k)) by lia. rewrite Z2Nat.id by lia.
      unfold mem' at 1. rewrite set_bit_spec, Z.eqb_refl, orb_true_r by lia.
      unfold mem'. rewrite popcount_after_store by (done || lia).
      apply list_lookup_insert_eq. lia. }
    eexists s1, _. split; [exact Hstore|].
    unfold V11.setup, V11.readPatchesFromMemory. rewrite Hee1.
    cbn [V11.writePatchToMemory V11.ee_patches V11.ee_memoryCellsInUse
         V11.ee_patchNumber V11.ee_delayTime V11.ee_selectedTriggerChannel].
    unfold NR_OF_MEMORY_CELLS, NUM_NEOP_LEDS. fold k.
    destruct (Z.leb_spec 0 k); [|lia]. destruct (Z.ltb_spec k 16); [|lia].
    cbn [andb]. fold mem'. rewrite Hps. cbn [mbind result_bind].
    split; [reflexivity|]. cbn.
    split; [done|]. split; [|by rewrite Hmem1].
    unfold read. rewrite (proj2 (index_ok_spec _ _)) by lia. by rewrite Hk.
  - intros m s Hwf Hprev Hee Hbelow.
    pose proof Hwf as (Hlen & Hch & Hca).
    unfold NR_OF_MEMORY_CELLS, NUM_NEOP_LEDS in *.
    destruct (V10_store_eeprom s Hwf Hprev) as (s1 & Hstore & Hee1).
    set (k := V10.candidatePatchNumber s) in *.
    set (mem' := Z.lor (V10.memoryCellsInUse s) (Word16.wrap (Z.shiftl 1 k)))
      in *.
    destruct (read_cells_all V10.createEmptyPatch mem'
                (<[Z.to_nat k := V10.currentPatch s]>
                   (V10.ee_patches (V10.eeprom s))))
      with (patches := replicate 16 V10.zeroPatch)
      as (ps & Hps & Hlenps & Hspec);
      [by rewrite length_insert|done|].
    assert (ps !! Z.to_nat k = Some (V10.currentPatch s)) as Hk.
    { rewrite (Hspec (Z.to_nat k)) by lia. rewrite Z2Nat.id by lia.
      unfold mem' at 1. rewrite set_bit_spec, Z.eqb_refl, orb_true_r by lia.
      unfold mem'. rewrite popcount_after_store by (done || lia).
      apply list_lookup_insert_eq. lia. }
    assert (read ps k = Ok (V10.currentPatch s)) as Hrk.
    { unfold read. rewrite (proj2 (index_ok_spec _ _)) by lia. by rewrite Hk. }
    eexists s1, _. split; [exact Hstore|].
    unfold V10.setup, V10.readPatchesFromEEPROM. rewrite Hee1.
    cbn [V10.writePatchToEEPROM V10.ee_patches V10.ee_memoryCellsInUse
         V10.ee_patchNumber V10.ee_delayTime V10.ee_selectedTriggerChannel].
    unfold NR_OF_MEMORY_CELLS, NUM_NEOP_LEDS. fold k.
    destruct (Z.leb_spec 0 k); [|lia]. destruct (Z.ltb_spec k 16); [|lia].
    cbn [andb]. fold mem'. rewrite Hps. cbn [mbind result_bind].
    rewrite Hrk. cbn [mbind result_bind].
    split; [reflexivity|]. cbn.
    split; [done|]. split; [|done].
    by destruct (V10.currentPatch s) as [[] [] []].
Qed.

Lemma stored_patch_survives_restart_witness :
  exists s1 s2,
    V11.store
      (V11.with_candidatePatchNumber 1 (V11.after_setup PROGRAM_MODE))
      = Ok s1 /\
    V11.setup NUM_PULSE_MODE (V11.eeprom s1) = Ok s2 /\
    V11.chosenPatchNumber s2 = 1 /\
    read (V11.patches s2) (V11.chosenPatchNumber s2) = Ok V11.initialPatch /\
    V11.memoryCellsInUse s2 = V11.memoryCellsInUse s1 /\
    V11.delayTime s2 = 95 /\
    V11.selectedTriggerChannel s2 = TRIG_A.
Proof.
  destruct stored_patch_survives_restart as [Hv11 _].
  apply (Hv11 NUM_PULSE_MODE
           (V11.with_candidatePatchNumber 1 (V11.after_setup PROGRAM_MODE))
           V11.initialPatch); try reflexivity.
  - unfold V11.wf. simpl. unfold NR_OF_MEMORY_CELLS, NUM_NEOP_LEDS. lia.
  - simpl. intros j Hj. assert (j = 0) as -> by lia. reflexivity.
Defined.

Section FactoryState.

(** A list of sixteen elements, written out. *)
Lemma length_16_inv {A} (l : list A) :
  length l = 16%nat ->
  exists x0 x1 x2 x3 x4 x5 x6 x7 x8 x9 x10 x11 x12 x13 x14 x15,
    l = [x0; x1; x2; x3; x4; x5; x6; x7; x8; x9; x10; x11; x12; x13; x14; x15].
Proof.
  intros H.
  do 16 (destruct l as [|? l]; [discriminate H|]).
  destruct l; [|discriminate H]. by do 16 eexists.
Qed.

End FactoryState.

(** X15: the factory state.  Whatever the bank and the sixteen records
    of the EEPROM held before, [initializePatchInEeprom] is defined and
    leaves the same EEPROM: the predefined patch in record 0, fifteen
    empty records, cell 0 alone in use, patch number 0, tempo 95 and
    channel A selected; and [setup] on that EEPROM is defined and starts
    the sketch with exactly these values, patch 0 live and all step
    counters at 0. *)
Theorem factory_state_after_initialize :
  (forall m bank ee,
     length bank = 16%nat -> length (V11.ee_patches ee) = 16%nat ->
     V11.initializePatchInEeprom bank ee
       = Ok (V11.eeprom (V11.after_setup m)) /\
     V11.setup m (V11.eeprom (V11.after_setup m)) = Ok (V11.after_setup m)) /\
  (forall m bank ee,
     length bank = 16%nat -> length (V10.ee_patches ee) = 16%nat ->
     V10.initializePatchInEeprom bank ee
       = Ok (V10.eeprom (V10.after_setup m)) /\
     V10.setup m (V10.eeprom (V10.after_setup m)) = Ok (V10.after_setup m)).
Proof.
  split; intros m bank ee Hbank Hee.
  - split; [|reflexivity].
    destruct (length_16_inv bank Hbank)
      as (? & ? & ? & ? & ? & ? & ? & ? & ? & ? & ? & ? & ? & ? & ? & ? & ->).
    destruct ee as [sel nr mem dt recs]. cbn in Hee.
    destruct (length_16_inv recs Hee)
      as (? & ? & ? & ? & ? & ? & ? & ? & ? & ? & ? & ? & ? & ? & ? & ? & ->).
    reflexivity.
  - split; [|reflexivity].
    destruct (length_16_inv bank Hbank)
      as (? & ? & ? & ? & ? & ? & ? & ? & ? & ? & ? & ? & ? & ? & ? & ? & ->).
    destruct ee as [sel nr mem dt recs]. cbn in Hee.
    destruct (length_16_inv recs Hee)
      as (? & ? & ? & ? & ? & ? & ? & ? & ? & ? & ? & ? & ? & ? & ? & ? & ->).
    reflexivity.
Qed.

Lemma factory_state_after_initialize_witness :
  V11.initializePatchInEeprom (replicate 16 V11.zeroPatch)
    {| V11.ee_selectedTriggerChannel := TRIG_D;
       V11.ee_patchNumber := 7;
       V11.ee_memoryCellsInUse := 65535;
       V11.ee_delayTime := 300;
       V11.ee_patches := replicate 16 V11.zeroPatch |}
    = Ok (V11.eeprom (V11.after_setup NUM_PULSE_MODE)) /\
  V11.setup NUM_PULSE_MODE (V11.eeprom (V11.after_setup NUM_PULSE_MODE))
    = Ok (V11.after_setup NUM_PULSE_MODE).
Proof.
  destruct factory_state_after_initialize as [Hv11 _].
  apply (Hv11 NUM_PULSE_MODE (replicate 16 V11.zeroPatch)
           {| V11.ee_selectedTriggerChannel := TRIG_D;
              V11.ee_patchNumber := 7;
              V11.ee_memoryCellsInUse := 65535;
              V11.ee_delayTime := 300;
              V11.ee_patches := replicate 16 V11.zeroPatch |});
    reflexivity.
Defined.

(** * Further properties of the clock and the step counters *)

Section StepCounters.








End StepCounters.



(** ** The clock *)

Section Clock.

Import Word16.








End Clock.


Section ExternalClock.

Import Word16.



End ExternalClock.


(** * Further properties of the blocks before the [switch] *)

(** X20: the modes.  Once within its range the mode never leaves it:
    1..4 with [ALLOW_PATTERN_LENGTH_CHANGE] (and in version 1.0, which
    starts in mode 0 and enters the range at the first press), 2..4
    without, so that [PATTERN_LENGTH_MODE] is then never entered.  Without
    a fresh press of the encoder switch ([prog] read true after false) the
    mode, [oldPosition] and [newPosition] stay.  A press with the modifier
    held enters [PROGRAM_MODE], and nothing else does; a press without it
    goes to the next mode, from the last editing mode and from
    [PROGRAM_MODE] to the first.  After a press [oldPosition] is
    [newPosition]: the [switch] of the same pass sees no detent and edits
    nothing. *)
Theorem mode_change_cycles_modes :
  forall (flag progPin escape : bool) pos v,
    let lo := if flag then PATTERN_LENGTH_MODE else NUM_PULSE_MODE in
    let pressed := progPin && negb (mv_prog v) in
    let v' := fst (mode_change flag progPin escape pos v) in
    let pos' := snd (mode_change flag progPin escape pos v) in
    (lo <= mv_mode v <= PROGRAM_MODE -> lo <= mv_mode v' <= PROGRAM_MODE) /\
    mv_prog v' = progPin /\
    (pressed = false ->
     mv_mode v' = mv_mode v /\ mv_oldPosition v' = mv_oldPosition v /\
     pos' = pos) /\
    (pressed = true ->
     mv_oldPosition v' = pos' /\
     (escape = true -> mv_mode v' = PROGRAM_MODE) /\
     (escape = false ->
      mv_mode v' <> PROGRAM_MODE /\
      (mv_mode v < MAX_MODE -> mv_mode v' = mv_mode v + 1) /\
      (MAX_MODE <= mv_mode v -> mv_mode v' = lo))).
Proof.
  intros flag progPin escape pos v. cbn zeta. unfold mode_change.
  unfold PATTERN_LENGTH_MODE, NUM_PULSE_MODE, PROGRAM_MODE, MAX_MODE.
  destruct (progPin && negb (mv_prog v)) eqn:Hpressed.
  - assert (progPin = true) as -> by (by destruct progPin).
    destruct escape; cbn.
    + destruct flag; repeat split; intros; done || lia.
    + destruct (Z.gtb_spec (mv_mode v + 1) 3), flag; cbn;
        try (destruct (Z.eqb_spec (mv_mode v + 1) 1); cbn);
        repeat split; intros; done || lia.
  - cbn. repeat split; intros; done || lia.
Qed.

(** X21: the encoder position of mode 1 is kept.  With
    [ALLOW_PATTERN_LENGTH_CHANGE] (as in version 1.0), leaving mode 1 by a
    press of the encoder switch at position [P] and coming back to it by
    two more presses, with the switch released in between and wherever
    the encoder has been turned to meanwhile, gives mode 1 with
    [newPosition] and [oldPosition] both [P] again. *)
Theorem mode_1_position_is_restored :
  forall v P q1 p2 q2 p3,
    mv_mode v = 1 -> mv_prog v = false ->
    let v1 := fst (mode_change true true false P v) in
    let v2 := fst (mode_change true false false q1 v1) in
    let v3 := fst (mode_change true true false p2 v2) in
    let v4 := fst (mode_change true false false q2 v3) in
    mv_mode v1 = NUM_PULSE_MODE /\ mv_mode v3 = ROTATE_MODE /\
    mode_change true true false p3 v4 =
      ({| mv_mode := PATTERN_LENGTH_MODE; mv_mode1Pos := P;
          mv_oldPosition := P; mv_prog := true |}, P).
Proof.
  intros v P q1 p2 q2 p3 Hmode Hprog. cbn zeta.
  unfold mode_change. rewrite Hmode, Hprog. cbn. done.
Qed.

Lemma mode_1_position_is_restored_witness :
  let v := {| mv_mode := 1; mv_mode1Pos := 0; mv_oldPosition := 40;
              mv_prog := false |} in
  let v1 := fst (mode_change true true false 44 v) in
  let v2 := fst (mode_change true false false 60 v1) in
  let v3 := fst (mode_change true true false 80 v2) in
  let v4 := fst (mode_change true false false 84 v3) in
  mv_mode v1 = NUM_PULSE_MODE /\ mv_mode v3 = ROTATE_MODE /\
  mode_change true true false 100 v4 =
    ({| mv_mode := PATTERN_LENGTH_MODE; mv_mode1Pos := 44;
        mv_oldPosition := 44; mv_prog := true |}, 44).
Proof.
  apply (mode_1_position_is_restored
           {| mv_mode := 1; mv_mode1Pos := 0; mv_oldPosition := 40;
              mv_prog := false |} 44 60 80 84 100); reflexivity.
Defined.

(** X22: the reset input.  For readings 0 and 1 of the reset pin,
    [prevResetPinIn] follows the pin, the step counters restart at 0
    exactly when the pin has gone from 0 to 1, and stay as they are
    otherwise: a pin held high resets once. *)
Theorem reset_on_rising_edge :
  forall resetPinIn prevResetPinIn step,
    (resetPinIn = 0 \/ resetPinIn = 1) ->
    (prevResetPinIn = 0 \/ prevResetPinIn = 1) ->
    snd (reset_input resetPinIn prevResetPinIn step) = resetPinIn /\
    fst (reset_input resetPinIn prevResetPinIn step) =
      (if (resetPinIn =? 1) && (prevResetPinIn =? 0) then fill 0 else step).
Proof.
  intros pin prev step [-> | ->] [-> | ->]; by cbn.
Qed.

Lemma reset_on_rising_edge_witness :
  snd (reset_input 1 0 (Arr4 3 7 2 9)) = 1 /\
  fst (reset_input 1 0 (Arr4 3 7 2 9)) =
    (if (1 =? 1) && (0 =? 0) then fill 0 else Arr4 3 7 2 9).
Proof.
  apply (reset_on_rising_edge 1 0 (Arr4 3 7 2 9)); [right|left]; reflexivity.
Defined.

(** ** The function inputs *)

Section FunctionInputs.

Import Word16.

(** One function input on the chosen patch of version 1.1. *)
Lemma V11_func_input_shape c fIn prevF s p :
  V11.wf s -> read (V11.patches s) (V11.chosenPatchNumber s) = Ok p ->
  1 <= get (V11.patternLength p) c <= 16 ->
  exists s' p',
    V11.func_input c fIn prevF s = Ok s' /\
    V11.wf s' /\
    V11.chosenPatchNumber s' = V11.chosenPatchNumber s /\
    read (V11.patches s') (V11.chosenPatchNumber s) = Ok p' /\
    V11.pulses p' = V11.pulses p /\
    V11.patternLength p' = V11.patternLength p /\
    same_except c (V11.channelPattern p) (V11.channelPattern p') /\
    (if (fIn >? HALF_DAC_RANGE) && (prevF <? HALF_DAC_RANGE)
     then Bits.rotateLeft (get (V11.channelPattern p) c)
            (get (V11.patternLength p) c)
          = Ok (get (V11.channelPattern p') c)
     else get (V11.channelPattern p') c = get (V11.channelPattern p) c) /\
    popcount (Z.to_nat (get (V11.patternLength p) c))
      (get (V11.channelPattern p') c)
    = popcount (Z.to_nat (get (V11.patternLength p) c))
        (get (V11.channelPattern p) c).
Proof.
  intros Hwf Hr Hl. pose proof Hwf as (Hlen & Hch & Hca).
  unfold NR_OF_MEMORY_CELLS, NUM_NEOP_LEDS in *.
  unfold V11.func_input, V11.rotateLeft.
  destruct ((fIn >? HALF_DAC_RANGE) && (prevF <? HALF_DAC_RANGE)).
  - destruct (rotateLeft_popcount (get (V11.channelPattern p) c)
                (get (V11.patternLength p) c) Hl) as (q & Hq & Hpop).
    rewrite !Hr. cbn [mbind result_bind]. rewrite ?Hr.
    cbn [mbind result_bind]. rewrite Hq. cbn [mbind result_bind].
    rewrite write_Ok by lia. cbn [mbind result_bind].
    eexists _, _. split; [reflexivity|]. cbn.
    split.
    { unfold V11.wf, NR_OF_MEMORY_CELLS, NUM_NEOP_LEDS. cbn.
      rewrite length_insert. lia. }
    split; [done|]. split; [apply read_write; lia|]. cbn.
    split; [done|]. split; [done|]. split; [apply same_except_put|].
    rewrite get_put. by split.
  - exists s, p. split; [done|]. split; [exact Hwf|]. repeat split; done.
Qed.

(** One function input on the current patch of version 1.0. *)
Lemma V10_func_input_shape c fIn prevF s :
  1 <= get (V10.patternLength (V10.currentPatch s)) c <= 16 ->
  exists s',
    V10.func_input c fIn prevF s = Ok s' /\
    V10.pulses (V10.currentPatch s') = V10.pulses (V10.currentPatch s) /\
    V10.patternLength (V10.currentPatch s')
      = V10.patternLength (V10.currentPatch s) /\
    same_except c (V10.channelPattern (V10.currentPatch s))
      (V10.channelPattern (V10.currentPatch s')) /\
    (if (fIn >? HALF_DAC_RANGE) && (prevF <? HALF_DAC_RANGE)
     then Bits.rotateLeft (get (V10.channelPattern (V10.currentPatch s)) c)
            (get (V10.patternLength (V10.currentPatch s)) c)
          = Ok (get (V10.channelPattern (V10.currentPatch s')) c)
     else get (V10.channelPattern (V10.currentPatch s')) c
          = get (V10.channelPattern (V10.currentPatch s)) c) /\
    popcount (Z.to_nat (get (V10.patternLength (V10.currentPatch s)) c))
      (get (V10.channelPattern (V10.currentPatch s')) c)
    = popcount (Z.to_nat (get (V10.patternLength (V10.currentPatch s)) c))
        (get (V10.channelPattern (V10.currentPatch s)) c).
Proof.
  intros Hl. unfold V10.func_input, V10.rotateLeft.
  destruct ((fIn >? HALF_DAC_RANGE) && (prevF <? HALF_DAC_RANGE)).
  - destruct (rotateLeft_popcount
                (get (V10.channelPattern (V10.currentPatch s)) c)
                (get (V10.patternLength (V10.currentPatch s)) c) Hl)
      as (q & Hq & Hpop).
    rewrite Hq. cbn [mbind result_bind].
    eexists. split; [reflexivity|]. cbn.
    split; [done|]. split; [done|]. split; [apply same_except_put|].
    rewrite get_put. by split.
  - exists s. repeat split; try done.
Qed.

End FunctionInputs.

(** X23: the function inputs.  With every pattern length of the live
    patch within 1..16, the block of the four function inputs is defined,
    and for each channel: if its input has risen through
    [HALF_DAC_RANGE] since the previous pass, the channel's pattern is
    rotated by one step with [rotateLeft], otherwise it stays; whichever
    inputs rise in the same pass, no channel is rotated by the input of
    another, the number of pulses on each ring stays, and pulse counts and
    pattern lengths are untouched.  The readings become the previous
    readings of the next pass. *)
Theorem function_inputs_rotate_their_channel :
  (forall fIn prevF s p,
     V11.wf s -> read (V11.patches s) (V11.chosenPatchNumber s) = Ok p ->
     (forall c, 1 <= get (V11.patternLength p) c <= 16) ->
     exists s' p',
       V11.func_inputs fIn prevF s = Ok (s', fIn) /\
       read (V11.patches s') (V11.chosenPatchNumber s) = Ok p' /\
       V11.pulses p' = V11.pulses p /\
       V11.patternLength p' = V11.patternLength p /\
       forall c,
         (if (get fIn c >? HALF_DAC_RANGE) && (get prevF c <? HALF_DAC_RANGE)
          then Bits.rotateLeft (get (V11.channelPattern p) c)
                 (get (V11.patternLength p) c)
               = Ok (get (V11.channelPattern p') c)
          else get (V11.channelPattern p') c = get (V11.channelPattern p) c) /\
         popcount (Z.to_nat (get (V11.patternLength p) c))
           (get (V11.channelPattern p') c)
         = popcount (Z.to_nat (get (V11.patternLength p) c))
             (get (V11.channelPattern p) c)) /\
  (forall fIn prevF s,
     (forall c, 1 <= get (V10.patternLength (V10.currentPatch s)) c <= 16) ->
     exists s',
       V10.func_inputs fIn prevF s = Ok (s', fIn) /\
       V10.pulses (V10.currentPatch s') = V10.pulses (V10.currentPatch s) /\
       V10.patternLength (V10.currentPatch s')
         = V10.patternLength (V10.currentPatch s) /\
       forall c,
         (if (get fIn c >? HALF_DAC_RANGE) && (get prevF c <? HALF_DAC_RANGE)
          then Bits.rotateLeft
                 (get (V10.channelPattern (V10.currentPatch s)) c)
                 (get (V10.patternLength (V10.currentPatch s)) c)
               = Ok (get (V10.channelPattern (V10.currentPatch s')) c)
          else get (V10.channelPattern (V10.currentPatch s')) c
               = get (V10.channelPattern (V10.currentPatch s)) c) /\
         popcount (Z.to_nat (get (V10.patternLength (V10.currentPatch s)) c))
           (get (V10.channelPattern (V10.currentPatch s')) c)
         = popcount (Z.to_nat (get (V10.patternLength (V10.currentPatch s)) c))
             (get (V10.channelPattern (V10.currentPatch s)) c)).
Proof.
  split.
  - intros fIn prevF s p Hwf Hr Hl.
    destruct (V11_func_input_shape TRIG_D (get fIn TRIG_D) (get prevF TRIG_D)
                s p Hwf Hr (Hl _))
      as (s1 & p1 & E1 & Hwf1 & C1 & R1 & U1 & L1 & S1 & F1 & P1).
    rewrite <- C1 in R1.
    destruct (V11_func_input_shape TRIG_C (get fIn TRIG_C) (get prevF TRIG_C)
                s1 p1 Hwf1 R1)
      as (s2 & p2 & E2 & Hwf2 & C2 & R2 & U2 & L2 & S2 & F2 & P2);
      [rewrite L1; apply Hl|].
    rewrite <- C2 in R2.
    destruct (V11_func_input_shape TRIG_B (get fIn TRIG_B) (get prevF TRIG_B)
                s2 p2 Hwf2 R2)
      as (s3 & p3 & E3 & Hwf3 & C3 & R3 & U3 & L3 & S3 & F3 & P3);
      [rewrite L2, L1; apply Hl|].
    rewrite <- C3 in R3.
    destruct (V11_func_input_shape TRIG_A (get fIn TRIG_A) (get prevF TRIG_A)
                s3 p3 Hwf3 R3)
      as (s4 & p4 & E4 & Hwf4 & C4 & R4 & U4 & L4 & S4 & F4 & P4);
      [rewrite L3, L2, L1; apply Hl|].
    exists s4, p4. unfold V11.func_inputs.
    rewrite E1. cbn [mbind result_bind]. rewrite E2. cbn [mbind result_bind].
    rewrite E3. cbn [mbind result_bind]. rewrite E4. cbn [mbind result_bind].
    split; [done|]. split; [by rewrite C3, C2, C1 in R4|].
    split; [congruence|]. split; [congruence|].
    rewrite L1 in F2, P2. rewrite L2, L1 in F3, P3.
    rewrite L3, L2, L1 in F4, P4.
    intros [].
    + rewrite (S4 TRIG_D), (S3 TRIG_D), (S2 TRIG_D) by done. by split.
    + rewrite (S4 TRIG_C), (S3 TRIG_C) by done.
      rewrite <- (S1 TRIG_C) by done. by split.
    + rewrite (S4 TRIG_B) by done.
      rewrite <- (S1 TRIG_B), <- (S2 TRIG_B) by done. by split.
    + rewrite <- (S1 TRIG_A), <- (S2 TRIG_A), <- (S3 TRIG_A) by done.
      by split.
  - intros fIn prevF s Hl.
    destruct (V10_func_input_shape TRIG_D (get fIn TRIG_D) (get prevF TRIG_D)
                s (Hl _))
      as (s1 & E1 & U1 & L1 & S1 & F1 & P1).
    destruct (V10_func_input_shape TRIG_C (get fIn TRIG_C) (get prevF TRIG_C)
                s1)
      as (s2 & E2 & U2 & L2 & S2 & F2 & P2);
      [rewrite L1; apply Hl|].
    destruct (V10_func_input_shape TRIG_B (get fIn TRIG_B) (get prevF TRIG_B)
                s2)
      as (s3 & E3 & U3 & L3 & S3 & F3 & P3);
      [rewrite L2, L1; apply Hl|].
    destruct (V10_func_input_shape TRIG_A (get fIn TRIG_A) (get prevF TRIG_A)
                s3)
      as (s4 & E4 & U4 & L4 & S4 & F4 & P4);
      [rewrite L3, L2, L1; apply Hl|].
    exists s4. unfold V10.func_inputs.
    rewrite E1. cbn [mbind result_bind]. rewrite E2. cbn [mbind result_bind].
    rewrite E3. cbn [mbind result_bind]. rewrite E4. cbn [mbind result_bind].
    split; [done|]. split; [congruence|]. split; [congruence|].
    rewrite L1 in F2, P2. rewrite L2, L1 in F3, P3.
    rewrite L3, L2, L1 in F4, P4.
    intros [].
    + rewrite (S4 TRIG_D), (S3 TRIG_D), (S2 TRIG_D) by done. by split.
    + rewrite (S4 TRIG_C), (S3 TRIG_C) by done.
      rewrite <- (S1 TRIG_C) by done. by split.
    + rewrite (S4 TRIG_B) by done.
      rewrite <- (S1 TRIG_B), <- (S2 TRIG_B) by done. by split.
    + rewrite <- (S1 TRIG_A), <- (S2 TRIG_A), <- (S3 TRIG_A) by done.
      by split.
Qed.

Lemma function_inputs_rotate_their_channel_witness :
  exists s' p',
    V11.func_inputs (Arr4 800 0 800 100) (Arr4 0 0 900 0)
      (V11.after_setup NUM_PULSE_MODE)
      = Ok (s', Arr4 800 0 800 100) /\
    read (V11.patches s') 0 = Ok p' /\
    V11.pulses p' = Arr4 5 5 3 4 /\
    V11.patternLength p' = fill 16 /\
    forall c,
      (if (get (Arr4 800 0 800 100) c >? HALF_DAC_RANGE)
          && (get (Arr4 0 0 900 0) c <? HALF_DAC_RANGE)
       then Bits.rotateLeft (get (Arr4 10532 18724 16912 2340) c)
              (get (fill 16) c)
            = Ok (get (V11.channelPattern p') c)
       else get (V11.channelPattern p') c
            = get (Arr4 10532 18724 16912 2340) c) /\
      popcount (Z.to_nat (get (fill 16) c)) (get (V11.channelPattern p') c)
      = popcount (Z.to_nat (get (fill 16) c))
          (get (Arr4 10532 18724 16912 2340) c).
Proof.
  destruct function_inputs_rotate_their_channel as [Hv11 _].
  apply (Hv11 (Arr4 800 0 800 100) (Arr4 0 0 900 0)
           (V11.after_setup NUM_PULSE_MODE) V11.initialPatch).
  - unfold V11.wf. simpl. unfold NR_OF_MEMORY_CELLS, NUM_NEOP_LEDS. lia.
  - reflexivity.
  - intros []; simpl; unfold V11.DEFAULT_PATTERN_LENGTH; lia.
Defined.

(** * Edits and the EEPROM *)

Section Volatile.

(** The clock block and the step counters leave the EEPROM and the mode
    alone. *)
Lemma V11_after_switch_eeprom inp s1 s' :
  (let '(s, triggered) := V11.clock inp s1 in
   if triggered then V11.trigger inp s else Ok s) = Ok s' ->
  V11.eeprom s' = V11.eeprom s1 /\ V11.mode s' = V11.mode s1.
Proof.
  unfold V11.clock, V11.trigger.
  destruct (clkPin inp);
    [destruct ((extClkV inp >? 512) && (V11.prevExtClk s1 <? 300))|
     destruct (elapsed (thisTime inp) (V11.prevTime s1) >? V11.delayTime s1)];
    cbn; intros H; invert_Ok; done.
Qed.

Lemma V10_after_switch_eeprom inp s1 :
  V10.eeprom (let '(s, triggered) := V10.clock inp s1 in
              if triggered then V10.trigger inp s else s) = V10.eeprom s1 /\
  V10.mode (let '(s, triggered) := V10.clock inp s1 in
            if triggered then V10.trigger inp s else s) = V10.mode s1.
Proof.
  unfold V10.clock, V10.trigger.
  destruct (clkPin inp);
    [destruct ((extClkV inp >? 512) && (V10.prevExtClk s1 <? 128))|
     destruct (elapsed (thisTime inp) (V10.prevTime s1) >? V10.delayTime s1)];
    done.
Qed.

(** Outside [PROGRAM_MODE] the [switch] leaves the EEPROM and the mode
    alone. *)
Lemma V11_editing_switch_eeprom flag inp s s1 :
  V11.mode s <> PROGRAM_MODE ->
  V11.mode_switch flag inp s = Ok s1 ->
  V11.eeprom s1 = V11.eeprom s /\ V11.mode s1 = V11.mode s.
Proof.
  intros Hmode. unfold V11.mode_switch.
  destruct (Z.eqb_spec (V11.mode s) PROGRAM_MODE) as [|_]; [done|].
  assert (V11.eeprom (V11.tempo_edit inp s) = V11.eeprom s /\
          V11.mode (V11.tempo_edit inp s) = V11.mode s) as Htempo.
  { unfold V11.tempo_edit.
    destruct (newPosition inp <? V11.oldPosition s - 3);
      [|destruct (newPosition inp >? V11.oldPosition s + 3)]; done. }
  assert (forall t',
    V11.length_edit inp s = Ok t' \/ V11.pulses_edit inp s = Ok t' \/
    V11.rotate_edit inp s = Ok t' ->
    V11.eeprom t' = V11.eeprom s /\ V11.mode t' = V11.mode s) as Hedits.
  { intros t'. unfold V11.length_edit, V11.pulses_edit, V11.rotate_edit.
    intros [H|[H|H]]; invert_Ok; done. }
  intros H.
  repeat match type of H with
    | (if ?b then _ else _) = _ => destruct b
    end;
    try (injection H as <-; done);
    apply Hedits; auto.
Qed.

Lemma V10_editing_switch_eeprom inp s s1 :
  V10.mode s <> PROGRAM_MODE ->
  V10.mode_switch inp s = Ok s1 ->
  V10.eeprom s1 = V10.eeprom s /\ V10.mode s1 = V10.mode s.
Proof.
  intros Hmode. unfold V10.mode_switch.
  destruct (Z.eqb_spec (V10.mode s) PROGRAM_MODE) as [|_]; [done|].
  assert (V10.eeprom (V10.tempo_edit inp s) = V10.eeprom s /\
          V10.mode (V10.tempo_edit inp s) = V10.mode s) as Htempo.
  { unfold V10.tempo_edit.
    destruct (newPosition inp <? V10.oldPosition s - 3);
      [|destruct (newPosition inp >? V10.oldPosition s + 3)]; done. }
  assert (forall t',
    V10.length_edit inp s = Ok t' \/ V10.pulses_edit inp s = Ok t' \/
    V10.rotate_edit inp s = Ok t' ->
    V10.eeprom t' = V10.eeprom s /\ V10.mode t' = V10.mode s) as Hedits.
  { intros t'. unfold V10.length_edit, V10.pulses_edit, V10.rotate_edit,
      V10.rotateLeft, V10.rotateRight.
    intros [H|[H|H]]; invert_Ok; done. }
  intros H.
  repeat match type of H with
    | (if ?b then _ else _) = _ => destruct b
    end;
    try (injection H as <-; done);
    apply Hedits; auto.
Qed.

(** Outside [PROGRAM_MODE] a pass writes nothing to the EEPROM and stays
    in its mode. *)
Lemma V11_editing_pass_eeprom flag inp s s' :
  V11.mode s <> PROGRAM_MODE ->
  V11.pass flag inp s = Ok s' ->
  V11.eeprom s' = V11.eeprom s /\ V11.mode s' = V11.mode s.
Proof.
  intros Hmode. unfold V11.pass, V11.program_buttons.
  destruct (Z.eqb_spec (V11.mode s) PROGRAM_MODE) as [|_]; [done|].
  intros H.
  destruct (V11.mode_switch flag inp s) as [s1|] eqn:E; [|discriminate H].
  cbn [mbind result_bind] in H.
  destruct (V11_editing_switch_eeprom flag inp s s1 Hmode E) as [<- <-].
  by apply (V11_after_switch_eeprom inp).
Qed.

Lemma V10_editing_pass_eeprom inp s s' :
  V10.mode s <> PROGRAM_MODE ->
  V10.pass inp s = Ok s' ->
  V10.eeprom s' = V10.eeprom s /\ V10.mode s' = V10.mode s.
Proof.
  intros Hmode. unfold V10.pass, V10.program_buttons.
  destruct (Z.eqb_spec (V10.mode s) PROGRAM_MODE) as [|_]; [done|].
  intros H.
  destruct (V10.mode_switch inp s) as [s1|] eqn:E; [|discriminate H].
  cbn [mbind result_bind] in H.
  destruct (V10_editing_switch_eeprom inp s s1 Hmode E) as [<- <-].
  destruct (V10.clock inp s1) as [s2 triggered] eqn:Hclock.
  injection H as <-.
  pose proof (V10_after_switch_eeprom inp s1) as Hafter.
  rewrite Hclock in Hafter. exact Hafter.
Qed.

End Volatile.

(** * The whole of [loop] *)

Section QuietBlocks.




End QuietBlocks.

Section WholeLoopV11.
Import Word16 V11.












End WholeLoopV11.

Section WholeLoopV10.
Import Word16 V10.











End WholeLoopV10.







Section ExternalClockLoop.



End ExternalClockLoop.





(** ** The EEPROM over the whole of [loop] *)

Section EepromRecords.

(** Without the modifier, the encoder switch does not lead to
    [PROGRAM_MODE]. *)
Lemma mode_change_not_program flag progPin escape pos v :
  progPin = false \/ escape = false ->
  mv_mode v <> PROGRAM_MODE ->
  mv_mode (fst (mode_change flag progPin escape pos v)) <> PROGRAM_MODE.
Proof.
  unfold mode_change, PROGRAM_MODE, MAX_MODE, PATTERN_LENGTH_MODE,
    NUM_PULSE_MODE.
  intros Hkeys Hmode.
  destruct progPin, (mv_prog v); cbn; try done.
  destruct escape; [by destruct Hkeys|].
  destruct (Z.gtb_spec (mv_mode v + 1) 3).
  - by destruct flag.
  - destruct (mv_mode v + 1 =? 1); cbn; lia.
Qed.

(** Outside [PROGRAM_MODE] the head of [loop] writes the trigger channel
    to the EEPROM, and nothing else. *)
Lemma V11_trigger_buttons_records inp previous chg s :
  V11.mode s <> PROGRAM_MODE ->
  let s1 := fst (fst (fst (V11.trigger_buttons inp previous chg s))) in
  V11.mode s1 = V11.mode s /\
  V11.ee_patches (V11.eeprom s1) = V11.ee_patches (V11.eeprom s) /\
  V11.ee_patchNumber (V11.eeprom s1) = V11.ee_patchNumber (V11.eeprom s) /\
  V11.ee_memoryCellsInUse (V11.eeprom s1)
    = V11.ee_memoryCellsInUse (V11.eeprom s) /\
  V11.ee_delayTime (V11.eeprom s1) = V11.ee_delayTime (V11.eeprom s).
Proof.
  intros Hmode. unfold V11.trigger_buttons.
  destruct (Z.eqb_spec (V11.mode s) PROGRAM_MODE); [done|].
  destruct (checkButtons (button inp) (escapeButton inp)
              (V11.selectedTriggerChannel s) previous chg)
    as [[channel previous'] []]; done.
Qed.

Lemma V10_trigger_buttons_records inp previous chg s :
  V10.mode s <> PROGRAM_MODE ->
  let s1 := fst (fst (fst (V10.trigger_buttons inp previous chg s))) in
  V10.mode s1 = V10.mode s /\
  V10.ee_patches (V10.eeprom s1) = V10.ee_patches (V10.eeprom s) /\
  V10.ee_patchNumber (V10.eeprom s1) = V10.ee_patchNumber (V10.eeprom s) /\
  V10.ee_memoryCellsInUse (V10.eeprom s1)
    = V10.ee_memoryCellsInUse (V10.eeprom s) /\
  V10.ee_delayTime (V10.eeprom s1) = V10.ee_delayTime (V10.eeprom s).
Proof.
  intros Hmode. unfold V10.trigger_buttons.
  destruct (Z.eqb_spec (V10.mode s) PROGRAM_MODE); [done|].
  destruct (checkButtons (button inp) (escapeButton inp)
              (V10.selectedTriggerChannel s) previous chg)
    as [[channel previous'] []]; done.
Qed.

(** The mutes and the function inputs work on the bank in memory. *)
Lemma V11_mute_buttons_eeprom r allow s s1 allow1 :
  V11.mute_buttons r allow s = Ok (s1, allow1) ->
  V11.eeprom s1 = V11.eeprom s /\ V11.mode s1 = V11.mode s /\
  V11.oldPosition s1 = V11.oldPosition s.
Proof.
  unfold V11.mute_buttons. intros H.
  destruct (escapeButton (base r) &&
            (if muteDelayFinished r then true else allow));
    [destruct (muteButton r)|]; invert_Ok; done.
Qed.

Lemma V11_func_input_eeprom c f prevF s s1 :
  V11.func_input c f prevF s = Ok s1 ->
  V11.eeprom s1 = V11.eeprom s /\ V11.mode s1 = V11.mode s.
Proof. unfold V11.func_input. intros H. invert_Ok; done. Qed.

Lemma V11_func_inputs_eeprom f prevF s s1 f1 :
  V11.func_inputs f prevF s = Ok (s1, f1) ->
  V11.eeprom s1 = V11.eeprom s /\ V11.mode s1 = V11.mode s.
Proof.
  unfold V11.func_inputs. intros H. invert_Ok.
  repeat match goal with
    | E : V11.func_input _ _ _ _ = Ok _ |- _ =>
        apply V11_func_input_eeprom in E; destruct E as [? ?]
    end.
  split; congruence.
Qed.

Lemma V10_func_input_eeprom c f prevF s s1 :
  V10.func_input c f prevF s = Ok s1 ->
  V10.eeprom s1 = V10.eeprom s /\ V10.mode s1 = V10.mode s.
Proof.
  unfold V10.func_input, V10.rotateLeft. intros H. invert_Ok; done.
Qed.

Lemma V10_func_inputs_eeprom f prevF s s1 f1 :
  V10.func_inputs f prevF s = Ok (s1, f1) ->
  V10.eeprom s1 = V10.eeprom s /\ V10.mode s1 = V10.mode s.
Proof.
  unfold V10.func_inputs. intros H. invert_Ok.
  repeat match goal with
    | E : V10.func_input _ _ _ _ = Ok _ |- _ =>
        apply V10_func_input_eeprom in E; destruct E as [? ?]
    end.
  split; congruence.
Qed.

(** Outside [PROGRAM_MODE], a pass of [loop] that does not enter it
    leaves the patch records and the header of the EEPROM, the trigger
    channel apart, as they are. *)
Lemma V11_loop_records flag r k k' :
  V11.mode (V11.state k) <> PROGRAM_MODE ->
  progPin r = false \/ escapeButton (base r) = false ->
  V11.loop flag r k = Ok k' ->
  V11.mode (V11.state k') <> PROGRAM_MODE /\
  V11.ee_patches (V11.eeprom (V11.state k'))
    = V11.ee_patches (V11.eeprom (V11.state k)) /\
  V11.ee_patchNumber (V11.eeprom (V11.state k'))
    = V11.ee_patchNumber (V11.eeprom (V11.state k)) /\
  V11.ee_memoryCellsInUse (V11.eeprom (V11.state k'))
    = V11.ee_memoryCellsInUse (V11.eeprom (V11.state k)) /\
  V11.ee_delayTime (V11.eeprom (V11.state k'))
    = V11.ee_delayTime (V11.eeprom (V11.state k)).
Proof.
  intros Hmode Hkeys. unfold V11.loop.
  pose proof (V11_trigger_buttons_records (base r)
                (V11.previousSelectedChannel k) (V11.change k)
                (V11.state k) Hmode) as Hhead.
  destruct (V11.trigger_buttons (base r) (V11.previousSelectedChannel k)
              (V11.change k) (V11.state k)) as [[[s1 name] previous] chg].
  cbn [fst] in Hhead. destruct Hhead as (Hm1 & R1 & R2 & R3 & R4).
  destruct (V11.mute_buttons r (V11.allowMuteButtons k) s1)
    as [[s2 allow]|] eqn:Hmute; [|done].
  cbn [mbind result_bind].
  apply V11_mute_buttons_eeprom in Hmute as (He2 & Hm2 & Ho2).
  pose proof (mode_change_not_program flag (progPin r)
                (escapeButton (base r)) (newPosition (base r))
                {| mv_mode := V11.mode s2; mv_mode1Pos := V11.mode1Pos k;
                   mv_oldPosition := V11.oldPosition s2;
                   mv_prog := V11.prog k |} Hkeys) as Hchange.
  destruct (mode_change flag (progPin r) (escapeButton (base r))
              (newPosition (base r)) _) as [v pos].
  cbn [fst mv_mode] in Hchange.
  destruct (V11.func_inputs (fIn r) (V11.prevF k) _)
    as [[s3 f]|] eqn:Hfunc; [|done].
  cbn [mbind result_bind].
  apply V11_func_inputs_eeprom in Hfunc as (He3 & Hm3).
  cbn [V11.eeprom V11.mode V11.with_oldPosition V11.with_mode] in He3, Hm3.
  destruct (reset_input (Z.b2z (resetPin r)) (V11.prevResetPinIn k)
              (V11.step s3)) as [st previousReset].
  destruct (V11.mode_switch flag _ (V11.with_step st s3)) as [s4|] eqn:Hsw;
    [|done].
  cbn [mbind result_bind].
  apply V11_editing_switch_eeprom in Hsw as (He4 & Hm4);
    [|cbn; rewrite Hm3; apply Hchange; congruence].
  cbn [V11.eeprom V11.mode V11.with_step] in He4, Hm4.
  intros H.
  match type of H with
  | (let '(s, triggered) := V11.clock ?i ?s0 in _) = _ =>
      destruct (V11_after_switch_eeprom i s0
                  (V11.state k')) as (He5 & Hm5)
  end.
  { destruct (V11.clock _ s4) as [s5 triggered].
    destruct (if triggered then V11.trigger _ s5 else Ok s5) as [s6|];
      [|done].
    cbn [mbind result_bind] in H. by injection H as <-. }
  rewrite Hm5, Hm4, Hm3, He5, He4, He3, He2.
  split; [apply Hchange; congruence|done].
Qed.

Lemma V10_loop_records r k k' :
  V10.mode (V10.state k) <> PROGRAM_MODE ->
  progPin r = false \/ escapeButton (base r) = false ->
  V10.loop r k = Ok k' ->
  V10.mode (V10.state k') <> PROGRAM_MODE /\
  V10.ee_patches (V10.eeprom (V10.state k'))
    = V10.ee_patches (V10.eeprom (V10.state k)) /\
  V10.ee_patchNumber (V10.eeprom (V10.state k'))
    = V10.ee_patchNumber (V10.eeprom (V10.state k)) /\
  V10.ee_memoryCellsInUse (V10.eeprom (V10.state k'))
    = V10.ee_memoryCellsInUse (V10.eeprom (V10.state k)) /\
  V10.ee_delayTime (V10.eeprom (V10.state k'))
    = V10.ee_delayTime (V10.eeprom (V10.state k)).
Proof.
  intros Hmode Hkeys. unfold V10.loop.
  pose proof (V10_trigger_buttons_records (base r)
                (V10.previousSelectedChannel k) (V10.change k)
                (V10.state k) Hmode) as Hhead.
  destruct (V10.trigger_buttons (base r) (V10.previousSelectedChannel k)
              (V10.change k) (V10.state k)) as [[[s1 name] previous] chg].
  cbn [fst] in Hhead. destruct Hhead as (Hm1 & R1 & R2 & R3 & R4).
  pose proof (mode_change_not_program true (progPin r)
                (escapeButton (base r)) (newPosition (base r))
                {| mv_mode := V10.mode s1; mv_mode1Pos := V10.mode1Pos k;
                   mv_oldPosition := V10.oldPosition s1;
                   mv_prog := V10.prog k |} Hkeys) as Hchange.
  destruct (mode_change true (progPin r) (escapeButton (base r))
              (newPosition (base r)) _) as [v pos].
  cbn [fst mv_mode] in Hchange.
  destruct (V10.func_inputs (fIn r) (V10.prevF k) _)
    as [[s3 f]|] eqn:Hfunc; [|done].
  cbn [mbind result_bind].
  apply V10_func_inputs_eeprom in Hfunc as (He3 & Hm3).
  cbn [V10.eeprom V10.mode V10.with_oldPosition V10.with_mode] in He3, Hm3.
  destruct (reset_input (Z.b2z (resetPin r)) (V10.prevResetPinIn k)
              (V10.step s3)) as [st previousReset].
  destruct (V10.mode_switch _ (V10.with_step st s3)) as [s4|] eqn:Hsw;
    [|done].
  cbn [mbind result_bind].
  apply V10_editing_switch_eeprom in Hsw as (He4 & Hm4);
    [|cbn; rewrite Hm3; apply Hchange; congruence].
  cbn [V10.eeprom V10.mode V10.with_step] in He4, Hm4.
  intros H.
  match type of H with
  | (let '(s, triggered) := V10.clock ?i ?s0 in _) = _ =>
      destruct (V10_after_switch_eeprom i s0) as (He5 & Hm5)
  end.
  destruct (V10.clock _ s4) as [s5 triggered].
  injection H as <-. cbn [V10.state].
  rewrite Hm5, Hm4, Hm3, He5, He4, He3.
  split; [apply Hchange; congruence|done].
Qed.

End EepromRecords.

(** X24: edits are not kept until they are stored.  From a mode other
    than [PROGRAM_MODE], and as long as no pass sees the encoder switch
    together with the modifier (which is what leads to [PROGRAM_MODE]),
    whatever the encoder, the encoder switch, the modifier, the buttons,
    the function inputs, the reset input and the clock do, the passes of
    the whole [loop] stay out of [PROGRAM_MODE] and leave the sixteen
    patch records, the patch number, the occupancy word and the tempo of
    the EEPROM as they are; only the trigger channel of the header can be
    rewritten, by the channel selection.  Pattern edits, tempo edits,
    rotations by the function inputs and mutes change memory only, and a
    restart brings back the patches and the tempo that the last store,
    clear or recall left. *)
Theorem edits_do_not_reach_eeprom :
  (forall flag rs k k',
     V11.mode (V11.state k) <> PROGRAM_MODE ->
     Forall (fun r => progPin r = false \/ escapeButton (base r) = false) rs ->
     V11.loop_run flag rs k = Ok k' ->
     V11.mode (V11.state k') <> PROGRAM_MODE /\
     V11.ee_patches (V11.eeprom (V11.state k'))
       = V11.ee_patches (V11.eeprom (V11.state k)) /\
     V11.ee_patchNumber (V11.eeprom (V11.state k'))
       = V11.ee_patchNumber (V11.eeprom (V11.state k)) /\
     V11.ee_memoryCellsInUse (V11.eeprom (V11.state k'))
       = V11.ee_memoryCellsInUse (V11.eeprom (V11.state k)) /\
     V11.ee_delayTime (V11.eeprom (V11.state k'))
       = V11.ee_delayTime (V11.eeprom (V11.state k))) /\
  (forall rs k k',
     V10.mode (V10.state k) <> PROGRAM_MODE ->
     Forall (fun r => progPin r = false \/ escapeButton (base r) = false) rs ->
     V10.loop_run rs k = Ok k' ->
     V10.mode (V10.state k') <> PROGRAM_MODE /\
     V10.ee_patches (V10.eeprom (V10.state k'))
       = V10.ee_patches (V10.eeprom (V10.state k)) /\
     V10.ee_patchNumber (V10.eeprom (V10.state k'))
       = V10.ee_patchNumber (V10.eeprom (V10.state k)) /\
     V10.ee_memoryCellsInUse (V10.eeprom (V10.state k'))
       = V10.ee_memoryCellsInUse (V10.eeprom (V10.state k)) /\
     V10.ee_delayTime (V10.eeprom (V10.state k'))
       = V10.ee_delayTime (V10.eeprom (V10.state k))).
Proof.
  split.
  - intros flag rs. induction rs as [|r rs IH];
      intros k k' Hmode Hall H; cbn in H.
    + by injection H as <-.
    + apply Forall_cons in Hall as [Hkeys Hall].
      destruct (V11.loop flag r k) as [k1|] eqn:E; [|discriminate H].
      cbn in H.
      destruct (V11_loop_records flag r k k1 Hmode Hkeys E)
        as (Hm & <- & <- & <- & <-).
      by apply IH.
  - intros rs. induction rs as [|r rs IH];
      intros k k' Hmode Hall H; cbn in H.
    + by injection H as <-.
    + apply Forall_cons in Hall as [Hkeys Hall].
      destruct (V10.loop r k) as [k1|] eqn:E; [|discriminate H].
      cbn in H.
      destruct (V10_loop_records r k k1 Hmode Hkeys E)
        as (Hm & <- & <- & <- & <-).
      by apply IH.
Qed.

Lemma edits_do_not_reach_eeprom_witness :
  exists k',
    V11.loop_run true
      [{| base := turn (-4) true 0; progPin := false;
          fIn := Arr4 800 0 0 0; resetPin := true;
          muteButton := Some TRIG_B; muteDelayFinished := false |};
       {| base := press TRIG_C 4 200; progPin := true;
          fIn := fill 0; resetPin := false;
          muteButton := Some TRIG_C; muteDelayFinished := true |};
       at_rest (turn 8 false 300)]
      (V11.start (V11.after_setup NUM_PULSE_MODE)) = Ok k' /\
    V11.mode (V11.state k') <> PROGRAM_MODE /\
    V11.ee_patches (V11.eeprom (V11.state k')) = V11.initialBank /\
    V11.ee_patchNumber (V11.eeprom (V11.state k')) = 0 /\
    V11.ee_memoryCellsInUse (V11.eeprom (V11.state k')) = 1 /\
    V11.ee_delayTime (V11.eeprom (V11.state k')) = 95.
Proof.
  eexists. split; [vm_compute; reflexivity|].
  destruct edits_do_not_reach_eeprom as [Hv11 _].
  refine (Hv11 true
            [{| base := turn (-4) true 0; progPin := false;
                fIn := Arr4 800 0 0 0; resetPin := true;
                muteButton := Some TRIG_B; muteDelayFinished := false |};
             {| base := press TRIG_C 4 200; progPin := true;
                fIn := fill 0; resetPin := false;
                muteButton := Some TRIG_C; muteDelayFinished := true |};
             at_rest (turn 8 false 300)]
            (V11.start (V11.after_setup NUM_PULSE_MODE)) _ _ _ _).
  - discriminate.
  - repeat (apply Forall_cons; split; [(by left) || (by right)|]).
    apply Forall_nil. done.
  - vm_compute. reflexivity.
Defined.

(** * Instances of the properties stated without hypotheses *)

Lemma euclid_empty_and_full_witness :
  Bits.euclid 0 16 = Ok 0 /\ Bits.euclid 2062 16 = Ok (2 ^ 16 - 1).
Proof.
  split.
  - apply (proj1 (euclid_empty_and_full 0 16)). left. reflexivity.
  - apply (proj2 (proj2 (euclid_empty_and_full 2062 16))); lia.
Defined.

Lemma mode_change_cycles_modes_witness :
  mv_mode
    (fst (mode_change true true false 17
            {| mv_mode := ROTATE_MODE; mv_mode1Pos := 4;
               mv_oldPosition := 12; mv_prog := false |}))
  = PATTERN_LENGTH_MODE.
Proof.
  destruct (mode_change_cycles_modes true true false 17
              {| mv_mode := ROTATE_MODE; mv_mode1Pos := 4;
                 mv_oldPosition := 12; mv_prog := false |})
    as (_ & _ & _ & Hpressed).
  destruct (Hpressed eq_refl) as (_ & _ & Hnext).
  destruct (Hnext eq_refl) as (_ & _ & Hwrap).
  apply Hwrap. unfold MAX_MODE, ROTATE_MODE. simpl. lia.
Defined.
